(** * Social-graph service: cache layer, store client and orchestrator

    A shallow embedding of [cache.py], [database.py] and [services.py].
    Awaited calls are sequenced in a state-and-exception monad over a
    [world] that holds the two external servers (the key-value cache and
    the graph store), the client handles of the two wrapper objects, the
    logger and an event trace of the calls that were issued.  The two
    servers are interfaces ([RedisServer], [GraphStore]); [MemRedis] and
    [MemGraph] further down are in-memory implementations of them. *)

From Stdlib Require Import ZArith QArith String Ascii List Lia Lqa Permutation DecimalString DecimalZ.
From stdpp Require Import base option list gmap strings sorting.

Set Warnings "-register-all".

Open Scope string_scope.
Open Scope list_scope.

(** ** Python values and exceptions *)

Inductive exn :=
| ConnectionError        (* redis.exceptions.ConnectionError and TimeoutError *)
| ResponseError          (* redis.exceptions.ResponseError *)
| DataError              (* redis.exceptions.DataError: value of a type redis-py refuses *)
| ServiceUnavailable     (* neo4j.exceptions.ServiceUnavailable *)
| AuthError              (* neo4j.exceptions.AuthError *)
| ClientError            (* neo4j.exceptions.ClientError: syntax, constraint, bad argument *)
| TypeError
| KeyError
| IndexError
| ValueError             (* json.JSONDecodeError is a ValueError *)
| ValidationError        (* pydantic *)
| ZeroDivisionError.

Inductive outcome (A : Type) :=
| Return (a : A)
| Raise (e : exn).
Arguments Return {A} a.
Arguments Raise {A} e.

(** A Python value as it crosses the two wire protocols.  Floats are
    carried as exact rationals; a dict keeps its keys in insertion order. *)
Inductive value :=
| VNone
| VBool (b : bool)
| VInt (z : Z)
| VNum (q : Q)
| VStr (s : string)
| VList (l : list value)
| VDict (d : list (string * value)).

Definition pydict := list (string * value).

Fixpoint dict_get (k : string) (d : pydict) : option value :=
  match d with
  | [] => None
  | (k', v) :: d' => if String.eqb k k' then Some v else dict_get k d'
  end.

(** [d[k] = v]: an existing key keeps its position, a new one goes last. *)
Fixpoint dict_set (k : string) (v : value) (d : pydict) : pydict :=
  match d with
  | [] => [(k, v)]
  | (k', v') :: d' =>
      if String.eqb k k' then (k, v) :: d' else (k', v') :: dict_set k v d'
  end.

Definition dict_keys (d : pydict) : list string := map fst d.

(** [{**d1, **d2}] *)
Definition dict_update (d1 d2 : pydict) : pydict :=
  fold_left (fun acc kv => dict_set (fst kv) (snd kv) acc) d2 d1.

(** [d[k]] *)
Definition dict_item (k : string) (d : pydict) : outcome value :=
  match dict_get k d with
  | Some v => Return v
  | None => Raise KeyError
  end.

(** [d.get(k, default)] *)
Definition dict_get_default (k : string) (dflt : value) (d : pydict) : value :=
  match dict_get k d with
  | Some v => v
  | None => dflt
  end.

(** Truth value of an object, as [if x:] tests it. *)
Definition truthy (v : value) : bool :=
  match v with
  | VNone => false
  | VBool b => b
  | VInt z => negb (z =? 0)%Z
  | VNum q => negb (Qeq_bool q 0)
  | VStr s => negb (String.eqb s "")
  | VList l => match l with [] => false | _ => true end
  | VDict d => match d with [] => false | _ => true end
  end.

Definition str_of_Z (z : Z) : string := NilZero.string_of_int (Z.to_int z).

(** [sep.join(parts)] *)
Fixpoint join (sep : string) (parts : list string) : string :=
  match parts with
  | [] => ""
  | [p] => p
  | p :: rest => p ++ sep ++ join sep rest
  end.

(** What Python's libraries and the wall clock contribute:
    [uuid.uuid4()], [datetime.utcnow().isoformat()], [json], [repr] of a
    float and of a container, and the field checks of the pydantic model
    [User] other than the one on [id].  The n-th draw of the process is
    [uuid4_at n] or [utcnow_at n]. *)
Class PyEnv := {
  uuid4_at : nat -> string;
  utcnow_at : nat -> string;
  json_dumps : value -> outcome string;
  json_loads : string -> outcome value;
  float_repr : Q -> string;
  container_repr : value -> string;
  User_fields_ok : pydict -> bool
}.

(** [str(v)] *)
Definition py_str `{PyEnv} (v : value) : string :=
  match v with
  | VNone => "None"
  | VBool true => "True"
  | VBool false => "False"
  | VInt z => str_of_Z z
  | VNum q => float_repr q
  | VStr s => s
  | VList _ | VDict _ => container_repr v
  end.

(** [xs[i]] *)
Definition list_item {A} (xs : list A) (i : nat) : outcome A :=
  match nth_error xs i with
  | Some x => Return x
  | None => Raise IndexError
  end.

Definition obind {A B} (o : outcome A) (k : A -> outcome B) : outcome B :=
  match o with
  | Return a => k a
  | Raise e => Raise e
  end.

(** A comprehension [[f(x) for x in xs]] whose body may raise. *)
Fixpoint omap {A B} (f : A -> outcome B) (xs : list A) : outcome (list B) :=
  match xs with
  | [] => Return []
  | x :: xs' => obind (f x) (fun y => obind (omap f xs') (fun ys => Return (y :: ys)))
  end.

(** A number as an operand of float arithmetic. *)
Definition as_number (v : value) : outcome Q :=
  match v with
  | VInt z => Return (inject_Z z)
  | VNum q => Return q
  | VBool b => Return (if b then 1 else 0)%Q
  | _ => Raise TypeError
  end.

(** [a / b] on numbers. *)
Definition py_div (a b : Q) : outcome Q :=
  if Qeq_bool b 0 then Raise ZeroDivisionError else Return (a / b)%Q.

(** [min(a, b)]: the first argument unless the second is smaller. *)
Definition py_min (a b : Q) : Q := if Qlt_le_dec b a then b else a.

(** [max(a, b)]: the first argument unless the second is larger. *)
Definition py_max (a b : Q) : Q := if Qlt_le_dec a b then b else a.

(** [a == b].  Booleans, integers and floats compare by value across
    the three types; lists compare element by element; dicts compare as
    mappings, whatever the order of their keys. *)
Definition numeric (v : value) : option Q :=
  match v with
  | VBool b => Some (if b then 1 else 0)%Q
  | VInt z => Some (inject_Z z)
  | VNum q => Some q
  | _ => None
  end.

Fixpoint py_eq (a b : value) : bool :=
  match a with
  | VNone => match b with VNone => true | _ => false end
  | VStr s => match b with VStr t => String.eqb s t | _ => false end
  | VList l =>
      match b with
      | VList m =>
          (fix all2 (l m : list value) : bool :=
             match l, m with
             | [], [] => true
             | x :: l', y :: m' => py_eq x y && all2 l' m'
             | _, _ => false
             end) l m
      | _ => false
      end
  | VDict d =>
      match b with
      | VDict d' =>
          Nat.eqb (length d) (length d')
          && (fix all (d : list (string * value)) : bool :=
                match d with
                | [] => true
                | (k, x) :: rest =>
                    match dict_get k d' with
                    | Some y => py_eq x y
                    | None => false
                    end && all rest
                end) d
      | _ => false
      end
  | VBool _ | VInt _ | VNum _ =>
      match numeric a, numeric b with
      | Some x, Some y => Qeq_bool x y
      | _, _ => false
      end
  end.

(** [for x in v]: the elements of a list, the keys of a dict, the
    characters of a string; nothing else can be iterated. *)
Definition iterate (v : value) : outcome (list value) :=
  match v with
  | VList l => Return l
  | VDict d => Return (map VStr (dict_keys d))
  | VStr s => Return (map (fun c => VStr (String c "")) (list_ascii_of_string s))
  | _ => Raise TypeError
  end.

(** [v[k]] for a string [k]: only a dict can be indexed by a string. *)
Definition subscript (v : value) (k : string) : outcome value :=
  match v with
  | VDict d => dict_item k d
  | _ => Raise TypeError
  end.

(** [json.loads(v)]: the argument has to be a string. *)
Definition loads_value `{PyEnv} (v : value) : outcome value :=
  match v with
  | VStr s => json_loads s
  | _ => Raise TypeError
  end.


(** [uuid.uuid4()] as a source of identifiers that does not repeat: the
    identifier of one draw is the identifier of no other draw. *)
Record Uuid4 := {
  uuid4_of : nat -> string;
  uuid4_fresh : forall m n, uuid4_of m = uuid4_of n -> m = n
}.


(** ** Logging and the trace of issued calls *)

Inductive level := INFO | WARNING | ERROR.

Record log_entry := Log {
  log_level : level;
  log_msg : string;
  log_exn : option exn
}.

Inductive event :=
| EvCacheGet (key : string)
| EvCacheSet (key : string)
| EvCacheDelete (key : string)
| EvWriteBegin (query : string) (params : pydict)
| EvWriteEnd (ok : bool)
| EvReadBegin (query : string) (params : pydict)
| EvReadEnd (ok : bool).

(** ** The two external servers *)

(** The commands of the key-value store that [cache.py] sends.  Every
    command may fail; the server state may change either way. *)
Class RedisServer (R : Type) := {
  redis_open : R -> outcome unit * R;
  redis_ping : R -> outcome unit * R;
  redis_get : string -> R -> outcome (option string) * R;
  redis_setex : string -> Z -> string -> R -> outcome unit * R;
  redis_delete : list string -> R -> outcome Z * R;
  redis_scan : Z -> string -> Z -> R -> outcome (Z * list string) * R;
  redis_exists : string -> R -> outcome Z * R;
  redis_mget : list string -> R -> outcome (list (option string)) * R;
  redis_pipeline_setex : list (string * Z * string) -> R -> outcome unit * R;
  redis_incrby : string -> Z -> R -> outcome Z * R;
  redis_ttl : string -> R -> outcome Z * R
}.

(** The graph store: opening the driver, and running one query with its
    bound parameters in a write or in a read transaction. *)
Class GraphStore (G : Type) := {
  neo4j_verify_connectivity : G -> outcome unit * G;
  neo4j_write : string -> pydict -> G -> outcome (list pydict) * G;
  neo4j_read : string -> pydict -> G -> outcome (list pydict) * G
}.

(** ** The world and its monad *)

Section World.
  Context {R G : Type}.

Record world := World {
    redis_srv : R;
    redis_client : bool;        (* RedisCache.redis_client is not None *)
    neo4j_srv : G;
    async_driver : bool;        (* Neo4jConnection._async_driver is not None *)
    logger : list log_entry;
    trace : list event;
    draws : nat                 (* uuid4 and utcnow draws made so far *)
  }.

Definition M (A : Type) : Type := world -> outcome A * world.

Definition ret {A} (a : A) : M A := fun w => (Return a, w).
Definition raise {A} (e : exn) : M A := fun w => (Raise e, w).
Definition bind {A B} (m : M A) (k : A -> M B) : M B :=
    fun w => match m w with
             | (Return a, w') => k a w'
             | (Raise e, w') => (Raise e, w')
             end.
Definition lift {A} (o : outcome A) : M A := fun w => (o, w).

  (** [try: m  except Exception as e: h e] *)
Definition try_except {A} (m : M A) (h : exn -> M A) : M A :=
    fun w => match m w with
             | (Return a, w') => (Return a, w')
             | (Raise e, w') => h e w'
             end.

Definition with_redis (r : R) (w : world) : world :=
    World r (redis_client w) (neo4j_srv w) (async_driver w) (logger w) (trace w) (draws w).
Definition with_client (b : bool) (w : world) : world :=
    World (redis_srv w) b (neo4j_srv w) (async_driver w) (logger w) (trace w) (draws w).
Definition with_neo4j (g : G) (w : world) : world :=
    World (redis_srv w) (redis_client w) g (async_driver w) (logger w) (trace w) (draws w).
Definition with_driver (b : bool) (w : world) : world :=
    World (redis_srv w) (redis_client w) (neo4j_srv w) b (logger w) (trace w) (draws w).
Definition with_logger (l : list log_entry) (w : world) : world :=
    World (redis_srv w) (redis_client w) (neo4j_srv w) (async_driver w) l (trace w) (draws w).
Definition with_trace (t : list event) (w : world) : world :=
    World (redis_srv w) (redis_client w) (neo4j_srv w) (async_driver w) (logger w) t (draws w).
Definition with_draws (n : nat) (w : world) : world :=
    World (redis_srv w) (redis_client w) (neo4j_srv w) (async_driver w) (logger w) (trace w) n.

Definition log (l : level) (msg : string) (e : option exn) : M unit :=
    fun w => (Return tt, with_logger (logger w ++ [Log l msg e]) w).

Definition emit (ev : event) : M unit :=
    fun w => (Return tt, with_trace (trace w ++ [ev]) w).

  (** One command sent to the cache server. *)
Definition redis_call {A} (c : R -> outcome A * R) : M A :=
    fun w => let (o, r) := c (redis_srv w) in (o, with_redis r w).

  (** One request sent to the graph store. *)
Definition neo4j_call {A} (c : G -> outcome A * G) : M A :=
    fun w => let (o, g) := c (neo4j_srv w) in (o, with_neo4j g w).

Definition draw (f : nat -> string) : M string :=
    fun w => (Return (f (draws w)), with_draws (S (draws w)) w).
End World.

Arguments world : clear implicits.
Arguments M : clear implicits.

Declare Scope py_scope.
Delimit Scope py_scope with py.
Notation "x <- m ;; k" := (bind m (fun x => k))
  (at level 100, m at next level, right associativity) : py_scope.
Notation "m ;;; k" := (bind m (fun _ => k))
  (at level 100, right associativity) : py_scope.
Open Scope py_scope.

(** ** cache.py: [RedisCache] *)

Module RedisCache.
Section Cache.
  Context {R G : Type} `{RedisServer R} `{PyEnv}.
  #[local] Abbreviation M := (M R G).

  (** [connect]: the handle is assigned before the ping; a failure is
      logged at error level and re-raised. *)
Definition connect : M unit :=
    try_except
      (redis_call redis_open ;;;
       (fun w => (Return tt, with_client true w)) ;;;
       redis_call redis_ping ;;;
       log INFO "Connected to Redis" None)
      (fun e => log ERROR "Failed to connect to Redis" (Some e) ;;; raise e).

  (** [if not self.redis_client: await self.connect()], the first two
      lines of every operation, outside its [try]. *)
Definition ensure_client : M unit :=
    fun w => if redis_client w then (Return tt, w) else connect w.

Definition get (key : string) : M (option string) :=
    emit (EvCacheGet key) ;;;
    ensure_client ;;;
    try_except
      (redis_call (redis_get key))
      (fun e => log WARNING "Cache get error" (Some e) ;;; ret None).

  (** How the client library puts an argument on the wire. *)
Definition redis_encode (v : value) : outcome string :=
    match v with
    | VStr s => Return s
    | VInt z => Return (str_of_Z z)
    | VNum q => Return (float_repr q)
    | _ => Raise DataError
    end.

Definition set (key : string) (v : value) (expire : Z) : M bool :=
    emit (EvCacheSet key) ;;;
    ensure_client ;;;
    try_except
      (v' <- match v with
             | VDict _ | VList _ => s <- lift (json_dumps v) ;; ret (VStr s)
             | _ => ret v
             end ;;
       arg <- lift (redis_encode v') ;;
       redis_call (redis_setex key expire arg) ;;;
       ret true)
      (fun e => log WARNING "Cache set error" (Some e) ;;; ret false).

Definition delete (key : string) : M unit :=
    emit (EvCacheDelete key) ;;;
    ensure_client ;;;
    try_except
      (redis_call (redis_delete [key]) ;;; ret tt)
      (fun e => log WARNING "Cache delete error" (Some e) ;;; ret tt).

  (** The [while True] loop of [delete_pattern], from a given cursor.
      [None]: the loop has not ended within [fuel] pages. *)
Fixpoint scan_from (fuel : nat) (pattern : string) (cursor : Z)
      (w : world R G) : option (outcome unit * world R G) :=
    match fuel with
    | O => None
    | S fuel' =>
        match redis_call (redis_scan cursor pattern 100) w with
        | (Raise e, w1) => Some (Raise e, w1)
        | (Return (cursor', keys), w1) =>
            match (match keys with
                   | [] => ret 0%Z
                   | _ :: _ => redis_call (redis_delete keys)
                   end) w1 with
            | (Raise e, w2) => Some (Raise e, w2)
            | (Return _, w2) =>
                if (cursor' =? 0)%Z then Some (Return tt, w2)
                else scan_from fuel' pattern cursor' w2
            end
        end
    end.

Definition delete_pattern (fuel : nat) (pattern : string)
      (w : world R G) : option (outcome unit * world R G) :=
    match ensure_client w with
    | (Raise e, w1) => Some (Raise e, w1)
    | (Return _, w1) =>
        match scan_from fuel pattern 0 w1 with
        | None => None
        | Some (Return _, w2) => Some (Return tt, w2)
        | Some (Raise e, w2) =>
            Some ((log WARNING "Cache delete pattern error" (Some e) ;;; ret tt) w2)
        end
    end.

Definition exists_ (key : string) : M bool :=
    ensure_client ;;;
    try_except
      (n <- redis_call (redis_exists key) ;; ret (0 <? n)%Z)
      (fun e => log WARNING "Cache exists error" (Some e) ;;; ret false).

  (** [{k: v for k, v in zip(keys, values) if v is not None}] *)
Fixpoint present_only (keys : list string) (values : list (option string))
      (acc : pydict) : pydict :=
    match keys, values with
    | k :: keys', Some v :: values' => present_only keys' values' (dict_set k (VStr v) acc)
    | _ :: keys', None :: values' => present_only keys' values' acc
    | _, _ => acc
    end.

Definition get_many (keys : list string) : M pydict :=
    ensure_client ;;;
    try_except
      (values <- redis_call (redis_mget keys) ;; ret (present_only keys values []))
      (fun e => log WARNING "Cache get_many error" (Some e) ;;; ret []).

  (** The first loop of [set_many]: every value becomes a string. *)
Fixpoint str_mapping (items : pydict) (acc : list (string * string))
      : outcome (list (string * string)) :=
    match items with
    | [] => Return acc
    | (k, v) :: rest =>
        match (match v with
               | VDict _ | VList _ => json_dumps v
               | _ => Return (py_str v)
               end) with
        | Return s => str_mapping rest (acc ++ [(k, s)])
        | Raise e => Raise e
        end
    end.

Definition set_many (mapping : pydict) (expire : Z) : M bool :=
    ensure_client ;;;
    try_except
      (strs <- lift (str_mapping mapping []) ;;
       redis_call (redis_pipeline_setex (map (fun kv => (fst kv, expire, snd kv)) strs)) ;;;
       ret true)
      (fun e => log WARNING "Cache set_many error" (Some e) ;;; ret false).

Definition increment (key : string) (amount : Z) : M Z :=
    ensure_client ;;;
    try_except
      (redis_call (redis_incrby key amount))
      (fun e => log WARNING "Cache increment error" (Some e) ;;; ret 0%Z).

Definition get_ttl (key : string) : M Z :=
    ensure_client ;;;
    try_except
      (redis_call (redis_ttl key))
      (fun e => log WARNING "Cache get_ttl error" (Some e) ;;; ret (-1)%Z).

  (** The operations as one request type, with what each hands back. *)
Inductive cache_op :=
  | OpGet (key : string)
  | OpSet (key : string) (v : value) (expire : Z)
  | OpDelete (key : string)
  | OpDeletePattern (pattern : string)
  | OpGetMany (keys : list string)
  | OpSetMany (mapping : pydict) (expire : Z)
  | OpIncrement (key : string) (amount : Z)
  | OpGetTTL (key : string).

Inductive cache_result :=
  | ResValue (v : option string)
  | ResBool (b : bool)
  | ResNone
  | ResDict (d : pydict)
  | ResInt (z : Z).

Definition total {A} (f : A -> cache_result) (m : M A)
      (w : world R G) : option (outcome cache_result * world R G) :=
    match m w with
    | (Return a, w') => Some (Return (f a), w')
    | (Raise e, w') => Some (Raise e, w')
    end.

Definition run_op (fuel : nat) (op : cache_op)
      : world R G -> option (outcome cache_result * world R G) :=
    match op with
    | OpGet key => total ResValue (get key)
    | OpSet key v expire => total ResBool (set key v expire)
    | OpDelete key => total (fun _ => ResNone) (delete key)
    | OpDeletePattern pattern =>
        fun w => match delete_pattern fuel pattern w with
                 | Some (Return _, w') => Some (Return ResNone, w')
                 | Some (Raise e, w') => Some (Raise e, w')
                 | None => None
                 end
    | OpGetMany keys => total ResDict (get_many keys)
    | OpSetMany mapping expire => total ResBool (set_many mapping expire)
    | OpIncrement key amount => total ResInt (increment key amount)
    | OpGetTTL key => total ResInt (get_ttl key)
    end.

  (** What an operation hands back when the server command fails: the
      value of its [except] branch. *)
Definition degraded (op : cache_op) : cache_result :=
    match op with
    | OpGet _ => ResValue None
    | OpSet _ _ _ => ResBool false
    | OpDelete _ => ResNone
    | OpDeletePattern _ => ResNone
    | OpGetMany _ => ResDict []
    | OpSetMany _ _ => ResBool false
    | OpIncrement _ _ => ResInt 0
    | OpGetTTL _ => ResInt (-1)
    end.
End Cache.
End RedisCache.

(** ** The query texts

    The string constants of [services.py] and [database.py], character
    for character (the line breaks and the indentation of the triple-quoted
    literals are part of the text).  A text that the source assembles from
    pieces is given by its pieces; the template of [shortest_path] is cut
    at its one [%d]. *)

Module Cypher.
Definition create_user_query : string :=
"
        CREATE (u:User {
            id: $id,
            username: $username,
            email: $email,
            name: $name,
            bio: $bio,
            avatar_url: $avatar_url,
            location: $location,
            created_at: $created_at,
            updated_at: $updated_at,
            metadata: $metadata,
            tags: $tags
        })
        RETURN u
        ".

Definition get_user_query : string :=
"
        MATCH (u:User {id: $id})
        OPTIONAL MATCH (u)-[r]-()
        RETURN u, count(r) as node_degree
        ".

Definition update_user_head : string :=
"
        MATCH (u:User {id: $id})
        SET ".

Definition update_user_tail : string :=
"
        RETURN u
        ".

Definition delete_user_query : string :=
"
        MATCH (u:User {id: $id})
        DETACH DELETE u
        ".

Definition create_relationship_head : string :=
"
        MATCH (a:User {id: $from_id}), (b:User {id: $to_id})
        CREATE (a)-[r:RELATES_TO {
            id: $id,
            type: $type,
            weight: $weight,
            properties: $properties,
            created_at: $created_at,
            updated_at: $updated_at
        }]->(b)
        ".

Definition create_relationship_reverse : string :=
"
            CREATE (b)-[r2:RELATES_TO {
                id: $id2,
                type: $type,
                weight: $weight,
                properties: $properties,
                created_at: $created_at,
                updated_at: $updated_at
            }]->(a)
            ".

Definition create_relationship_return : string :=
"
        RETURN a, b, r
        ".

Definition get_user_relationships_match : string :=
"
        MATCH (u:User {id: $id})-[r:RELATES_TO]-(other:User)
        ".

Definition get_user_relationships_where : string :=
" WHERE r.type = $rel_type".

Definition get_user_relationships_return : string :=
"
        RETURN r, u, other,
               CASE WHEN startNode(r) = u THEN 'outgoing' ELSE 'incoming' END as direction
        ORDER BY r.created_at DESC
        ".

Definition delete_relationship_query : string :=
"
        MATCH ()-[r:RELATES_TO {id: $id}]-()
        DELETE r
        ".

Definition record_interaction_query : string :=
"
        MATCH (from:User {id: $from_id}), (to:User {id: $to_id})
        CREATE (i:Interaction {
            id: $id,
            type: $type,
            from_user_id: $from_id,
            to_user_id: $to_id,
            entity_id: $entity_id,
            entity_type: $entity_type,
            content: $content,
            metadata: $metadata,
            timestamp: $timestamp,
            processed: false
        })
        CREATE (from)-[:INITIATED]->(i)-[:TARGETED]->(to)
        RETURN i
        ".

Definition get_user_interactions_match : string :=
"
        MATCH (u:User {id: $id})-[:INITIATED|TARGETED]-(i:Interaction)
        ".

Definition get_user_interactions_where : string :=
" WHERE i.type = $type".

Definition get_user_interactions_return : string :=
"
        RETURN i
        ORDER BY i.timestamp DESC
        LIMIT $limit
        ".

Definition path_nodes_query : string :=
"
        MATCH (u:User)
        WHERE u.id IN $node_ids
        RETURN u
        ".

Definition community_members_query : string :=
"
        MATCH (u:User)
        WHERE u.id IN $ids
        RETURN u
        ".

Definition recommend_connections_query : string :=
"
        MATCH (u:User {id: $id})-[:RELATES_TO*2..3]-(recommended:User)
        WHERE NOT (u)-[:RELATES_TO]-(recommended) AND u <> recommended
        WITH recommended, COUNT(" ++ "*" ++ ") as mutual_count
        ORDER BY mutual_count DESC
        LIMIT $limit
        MATCH (u:User {id: $id})-[:RELATES_TO]-(mutual:User)-[:RELATES_TO]-(recommended)
        WITH recommended, mutual_count, COLLECT(DISTINCT mutual) as mutual_connections
        RETURN recommended, mutual_count, mutual_connections
        ".

Definition node_type_query : string :=
"
        MATCH (n)
        RETURN labels(n)[0] as type, count(n) as count
        ".

Definition rel_type_query : string :=
"
        MATCH ()-[r]->()
        RETURN type(r) as type, count(r) as count
        ".

Definition community_density_query : string :=
"
        MATCH (a:User)-[r:RELATES_TO]-(b:User)
        WHERE a.id IN $ids AND b.id IN $ids AND a.id < b.id
        RETURN count(r) as edge_count
        ".

Definition shortest_path_head : string :=
"
        MATCH (start:User {id: $start_id}), (end:User {id: $end_id})
        MATCH path = shortestPath((start)-[*..".

Definition shortest_path_tail : string :=
"]-(end))
        RETURN path,
               [node in nodes(path) | node.id] as node_ids,
               length(path) as path_length
        ".

Definition page_rank_query : string :=
"
        CALL gds.pageRank.stream({
            nodeProjection: 'User',
            relationshipProjection: 'RELATES_TO',
            maxIterations: $iterations,
            dampingFactor: $damping_factor
        })
        YIELD nodeId, score
        RETURN gds.util.asNode(nodeId).id AS id, score
        ORDER BY score DESC
        LIMIT 100
        ".

Definition louvain_query : string :=
"
            CALL gds.louvain.stream({
                nodeProjection: 'User',
                relationshipProjection: 'RELATES_TO'
            })
            YIELD nodeId, communityId
            RETURN gds.util.asNode(nodeId).id AS id, communityId
            ".

Definition label_propagation_query : string :=
"
            CALL gds.labelPropagation.stream({
                nodeProjection: 'User',
                relationshipProjection: 'RELATES_TO',
                maxIterations: 10
            })
            YIELD nodeId, communityId
            RETURN gds.util.asNode(nodeId).id AS id, communityId
            ".

Definition degree_query : string :=
"
                MATCH (u:User {id: $user_id})
                OPTIONAL MATCH (u)-[r]-()
                RETURN count(r) as degree
            ".

Definition betweenness_query : string :=
"
                CALL gds.betweenness.stream({
                    nodeProjection: 'User',
                    relationshipProjection: 'RELATES_TO'
                })
                YIELD nodeId, score
                WHERE gds.util.asNode(nodeId).id = $user_id
                RETURN score
            ".

Definition closeness_query : string :=
"
                CALL gds.closeness.stream({
                    nodeProjection: 'User',
                    relationshipProjection: 'RELATES_TO'
                })
                YIELD nodeId, score
                WHERE gds.util.asNode(nodeId).id = $user_id
                RETURN score
            ".

Definition statistics_query : string :=
"
        MATCH (n)
        WITH count(n) as node_count
        MATCH ()-[r]->()
        WITH node_count, count(r) as rel_count
        MATCH (u:User)
        WITH node_count, rel_count, count(u) as user_count
        RETURN {
            total_nodes: node_count,
            total_relationships: rel_count,
            total_users: user_count,
            avg_degree: toFloat(rel_count) / toFloat(node_count)
        } as stats
        ".

Definition bulk_create_nodes_head : string :=
"
        UNWIND $nodes as node
        CREATE (n:".

Definition bulk_create_nodes_tail : string :=
")
        SET n = node
        RETURN n.id as id
        ".

Definition bulk_create_relationships_query : string :=
"
        UNWIND $relationships as rel
        MATCH (a:User {id: rel.from_id}), (b:User {id: rel.to_id})
        CREATE (a)-[r:RELATES_TO {type: rel.type, properties: rel.properties}]->(b)
        RETURN r
        ".

Definition index_statements : list string :=
  [ "CREATE INDEX user_id IF NOT EXISTS FOR (u:User) ON (u.id)";
    "CREATE INDEX user_username IF NOT EXISTS FOR (u:User) ON (u.username)";
    "CREATE INDEX user_email IF NOT EXISTS FOR (u:User) ON (u.email)";
    "CREATE INDEX interaction_timestamp IF NOT EXISTS FOR (i:Interaction) ON (i.timestamp)";
    "CREATE INDEX relationship_type IF NOT EXISTS FOR ()-[r:RELATES_TO]-() ON (r.type)" ].

Definition constraint_statements : list string :=
  [ "CREATE CONSTRAINT user_id_unique IF NOT EXISTS FOR (u:User) REQUIRE u.id IS UNIQUE";
    "CREATE CONSTRAINT user_username_unique IF NOT EXISTS FOR (u:User) REQUIRE u.username IS UNIQUE" ].
End Cypher.

(** ** database.py: [Neo4jConnection] *)

Module Neo4jConnection.
Section Connection.
  Context {R G : Type} `{GraphStore G}.
  #[local] Abbreviation M := (M R G).

  (** [connect_async]: the driver is assigned before connectivity is
      verified; only [ServiceUnavailable] and [AuthError] are logged. *)
Definition connect_async : M unit :=
    try_except
      ((fun w => (Return tt, with_driver true w)) ;;;
       neo4j_call neo4j_verify_connectivity ;;;
       log INFO "Connected to Neo4j asynchronously" None)
      (fun e => match e with
                | ServiceUnavailable | AuthError =>
                    log ERROR "Failed to connect to Neo4j" (Some e) ;;; raise e
                | _ => raise e
                end).

Definition ensure_driver : M unit :=
    fun w => if async_driver w then (Return tt, w) else connect_async w.

  (** [execute_write(query, parameters)].  The two trace events mark the
      entry and the exit of the call; [parameters or {}] is [parameters]
      with the empty dict for [None]. *)
Definition execute_write (query : string) (parameters : pydict) : M (list pydict) :=
    emit (EvWriteBegin query parameters) ;;;
    try_except
      (ensure_driver ;;;
       rows <- try_except
                 (neo4j_call (neo4j_write query parameters))
                 (fun e => log ERROR "Write transaction failed" (Some e) ;;; raise e) ;;
       emit (EvWriteEnd true) ;;;
       ret rows)
      (fun e => emit (EvWriteEnd false) ;;; raise e).

Definition execute_read (query : string) (parameters : pydict) : M (list pydict) :=
    emit (EvReadBegin query parameters) ;;;
    try_except
      (ensure_driver ;;;
       rows <- try_except
                 (neo4j_call (neo4j_read query parameters))
                 (fun e => log ERROR "Read transaction failed" (Some e) ;;; raise e) ;;
       emit (EvReadEnd true) ;;;
       ret rows)
      (fun e => emit (EvReadEnd false) ;;; raise e).

  (** The text and the bound parameters that [shortest_path] sends. *)
Definition shortest_path_request (start_id end_id : string) (max_hops : Z)
      : string * pydict :=
    (Cypher.shortest_path_head +:+ str_of_Z max_hops +:+ Cypher.shortest_path_tail,
     [("start_id", VStr start_id); ("end_id", VStr end_id)]).

Definition shortest_path (start_id end_id : string) (max_hops : Z)
      : M (option pydict) :=
    let (query, params) := shortest_path_request start_id end_id max_hops in
    result <- execute_read query params ;;
    ret (match result with
         | [] => None
         | r :: _ => Some r
         end).

  (** One turn of the loop of [centrality_measures]: the bare [except]
      turns every failure into 0. *)
Definition measure (name query user_id : string) : M value :=
    try_except
      (result <- execute_read query [("user_id", VStr user_id)] ;;
       ret (match result with
            | [] => VInt 0
            | r :: _ =>
                dict_get_default (if String.eqb name "degree" then "degree" else "score")
                                 (VInt 0) r
            end))
      (fun _ => ret (VInt 0)).

Definition centrality_measures (user_id : string) : M pydict :=
    d <- measure "degree" Cypher.degree_query user_id ;;
    b <- measure "betweenness" Cypher.betweenness_query user_id ;;
    c <- measure "closeness" Cypher.closeness_query user_id ;;
    ret (dict_set "closeness" c (dict_set "betweenness" b (dict_set "degree" d []))).

  (** [result[0]["stats"] if result else {}] *)
Definition get_statistics : M value :=
    result <- execute_read Cypher.statistics_query [] ;;
    match result with
    | [] => ret (VDict [])
    | r :: _ => lift (dict_item "stats" r)
    end.

  (** The text and the bound parameters that [bulk_create_nodes] sends. *)
Definition bulk_create_nodes_request (nodes : list pydict) (label : string)
      : string * pydict :=
    (Cypher.bulk_create_nodes_head +:+ label +:+ Cypher.bulk_create_nodes_tail,
     [("nodes", VList (map VDict nodes))]).

Definition bulk_create_nodes (nodes : list pydict) (label : string)
      : M (list pydict) :=
    let (query, params) := bulk_create_nodes_request nodes label in
    execute_write query params.

Definition bulk_create_relationships (relationships : list pydict)
      : M (list pydict) :=
    execute_write Cypher.bulk_create_relationships_query
                  [("relationships", VList (map VDict relationships))].

  (** *** Schema statements *)

  (** A [for] loop over [xs] whose body returns nothing. *)
Fixpoint for_each {A} (body : A -> M unit) (xs : list A) : M unit :=
    match xs with
    | [] => ret tt
    | x :: xs' => body x ;;; for_each body xs'
    end.

  (** One turn of the loops of [create_indexes] and [create_constraints]:
      the statement runs as a write without parameters; its failure is
      logged as a warning and the loop goes on. *)
Definition create_one (created failed : string) (statement : string) : M unit :=
    try_except
      (execute_write statement [] ;;; log INFO (created +:+ statement) None)
      (fun e => log WARNING failed (Some e)).

Definition create_indexes : M unit :=
    for_each (create_one "Created index: " "Index creation skipped or failed")
             Cypher.index_statements.

Definition create_constraints : M unit :=
    for_each (create_one "Created constraint: " "Constraint creation skipped or failed")
             Cypher.constraint_statements.

  (** *** Graph algorithms *)

Definition page_rank (iterations : Z) (damping_factor : Q) : M (list pydict) :=
    execute_read Cypher.page_rank_query
                 [("iterations", VInt iterations); ("damping_factor", VNum damping_factor)].

  (** Any algorithm name other than ["louvain"] runs label propagation. *)
Definition community_detection (algorithm : string) : M (list pydict) :=
    execute_read (if String.eqb algorithm "louvain"
                  then Cypher.louvain_query
                  else Cypher.label_propagation_query) [].

  (** *** The synchronous driver

      [_driver] is the handle of the synchronous driver, which [connect]
      sets on entry, before it verifies the connection. *)

Definition connect : M unit :=
    try_except
      (neo4j_call neo4j_verify_connectivity ;;;
       log INFO "Connected to Neo4j successfully" None)
      (fun e => match e with
                | ServiceUnavailable | AuthError =>
                    log ERROR "Failed to connect to Neo4j" (Some e) ;;; raise e
                | _ => raise e
                end).

  (** [verify_connectivity]: without a synchronous driver the answer is
      [False]; the bare [except] turns a failure into [False]. *)
Definition verify_connectivity (_driver : bool) : M bool :=
    if _driver
    then try_except (neo4j_call neo4j_verify_connectivity ;;; ret true)
                    (fun _ => ret false)
    else ret false.

End Connection.
End Neo4jConnection.

(** ** models.py *)

Module Models.
Inductive RelationshipType :=
  | FOLLOWS | FRIEND | COLLEAGUE | FAMILY | BLOCKS
  | LIKES | MENTIONS | REPORTS_TO | WORKS_WITH | KNOWS.

  (** [t.value] *)
Definition RelationshipType_value (t : RelationshipType) : string :=
    match t with
    | FOLLOWS => "FOLLOWS" | FRIEND => "FRIEND" | COLLEAGUE => "COLLEAGUE"
    | FAMILY => "FAMILY" | BLOCKS => "BLOCKS" | LIKES => "LIKES"
    | MENTIONS => "MENTIONS" | REPORTS_TO => "REPORTS_TO"
    | WORKS_WITH => "WORKS_WITH" | KNOWS => "KNOWS"
    end.

Record UserCreate := {
    uc_username : string;
    uc_email : option string;
    uc_name : option string;
    uc_bio : option string;
    uc_avatar_url : option string;
    uc_location : option string;
    uc_metadata : option pydict;
    uc_tags : option (list string)
  }.

  (** A validated [User]: its [id] and the keyword arguments it was built
      from. *)
Record User := {
    user_id : string;
    user_fields : pydict
  }.

  (** [User] on unpacked keyword arguments: [id] is a required string. *)
Definition User_init `{PyEnv} (kwargs : pydict) : outcome User :=
    match dict_get "id" kwargs with
    | Some (VStr i) =>
        if User_fields_ok kwargs
        then Return {| user_id := i; user_fields := kwargs |}
        else Raise ValidationError
    | _ => Raise ValidationError
    end.

  (** [User] on an unpacked object [v]: only a mapping can be unpacked. *)
Definition User_of `{PyEnv} (v : value) : outcome User :=
    match v with
    | VDict d => User_init d
    | _ => Raise TypeError
    end.

Record RelationshipCreate := {
    rc_type : RelationshipType;
    rc_properties : option pydict;
    rc_weight : option Q;
    from_user_id : string;
    to_user_id : string;
    bidirectional : bool
  }.

Record Relationship := {
    rel_id : string;
    rel_type : RelationshipType;
    from_user : User;
    to_user : User;
    rel_created_at : string;
    rel_updated_at : string;
    rel_properties : option pydict;
    rel_weight : option Q
  }.

Record RecommendationResult := {
    rec_user : User;
    rec_score : Q;
    rec_reason : string;
    rec_mutual_connections : list User
  }.

Record GraphStatistics := {
    total_nodes : Z;
    total_relationships : Z;
    node_types : list (string * Z);
    relationship_types : list (string * Z);
    average_degree : Q;
    graph_density : Q;
    component_count : Z;
    largest_component_size : Z;
    average_clustering : Q
  }.

  (** Field validation of [GraphStatistics]: an [int] and a [float]. *)
Definition int_field (v : value) : outcome Z :=
    match v with
    | VInt z => Return z
    | _ => Raise ValidationError
    end.

Definition float_field (v : value) : outcome Q :=
    match v with
    | VInt z => Return (inject_Z z)
    | VNum q => Return q
    | _ => Raise ValidationError
    end.

Definition opt_str (o : option string) : value :=
    match o with
    | Some s => VStr s
    | None => VNone
    end.

Definition opt_dict (o : option pydict) : value :=
    match o with
    | Some d => VDict d
    | None => VNone
    end.

Definition opt_num (o : option Q) : value :=
    match o with
    | Some q => VNum q
    | None => VNone
    end.

Inductive InteractionType :=
  | MESSAGE | COMMENT | REACTION | SHARE | VIEW
  | CLICK | MENTION | TAG | INVITE | RECOMMEND.

Definition InteractionType_value (t : InteractionType) : string :=
    match t with
    | MESSAGE => "MESSAGE" | COMMENT => "COMMENT" | REACTION => "REACTION"
    | SHARE => "SHARE" | VIEW => "VIEW" | CLICK => "CLICK"
    | MENTION => "MENTION" | TAG => "TAG" | INVITE => "INVITE"
    | RECOMMEND => "RECOMMEND"
    end.

Record InteractionCreate := {
    ic_type : InteractionType;
    ic_content : option string;
    ic_metadata : option pydict;
    ic_from_user_id : string;
    ic_to_user_id : string;
    ic_entity_id : option string;
    ic_entity_type : option string
  }.

  (** A validated [Interaction], by the keyword arguments it was built
      from. *)
Record Interaction := {
    interaction_fields : pydict
  }.

Record GraphQuery := {
    cypher : string;
    parameters : option pydict
  }.

Record GraphResponse := {
    data : list pydict
  }.

Record PathResult := {
    path : value;
    path_length : value;
    path_nodes : list User;
    path_relationships : list pydict
  }.

Record CommunityResult := {
    community_id : string;
    members : list User;
    size : Z;
    density : Q
  }.

  (** The keyword arguments of [Relationship(...)] in the loop of
      [get_user_relationships]. *)
Record RelationshipArgs := {
    arg_id : value;
    arg_type : value;
    arg_from_user : User;
    arg_to_user : User;
    arg_created_at : value;
    arg_updated_at : value;
    arg_properties : value;
    arg_weight : value
  }.

  (** What pydantic contributes to the models other than [User]: the
      validation of [Relationship] on the keyword arguments of the loop
      and on an unpacked dict, [Relationship.dict()], and the validation
      of [Interaction] and of the fields of [PathResult]. *)
Class Pydantic := {
    Relationship_new : RelationshipArgs -> outcome Relationship;
    Relationship_kw : pydict -> outcome Relationship;
    Relationship_dict : Relationship -> value;
    Interaction_fields_ok : pydict -> bool;
    PathResult_fields_ok : value -> value -> bool
  }.

  (** [Relationship] on an unpacked object [v]. *)
Definition Relationship_of `{Pydantic} (v : value) : outcome Relationship :=
    match v with
    | VDict d => Relationship_kw d
    | _ => Raise TypeError
    end.

  (** [Interaction] on an unpacked object [v]. *)
Definition Interaction_of `{Pydantic} (v : value) : outcome Interaction :=
    match v with
    | VDict d =>
        if Interaction_fields_ok d
        then Return {| interaction_fields := d |}
        else Raise ValidationError
    | _ => Raise TypeError
    end.

  (** [PathResult(path=..., length=..., nodes=..., relationships=...)] *)
Definition PathResult_new `{Pydantic} (path length : value) (nodes : list User)
      (relationships : list pydict) : outcome PathResult :=
    if PathResult_fields_ok path length
    then Return {| path := path; path_length := length;
                   path_nodes := nodes; path_relationships := relationships |}
    else Raise ValidationError.

  (** [RelationshipType(s)]: the member whose value is [s]. *)
Definition RelationshipType_of (s : string) : option RelationshipType :=
    List.find (fun t => String.eqb (RelationshipType_value t) s)
      [FOLLOWS; FRIEND; COLLEAGUE; FAMILY; BLOCKS;
       LIKES; MENTIONS; REPORTS_TO; WORKS_WITH; KNOWS].

End Models.

(** ** services.py: [SocialGraphService] *)

Module SocialGraphService.
Import Models.
Section Service.
  Context {R G : Type} `{RedisServer R} `{GraphStore G} `{PyEnv}.
  #[local] Abbreviation M := (M R G).

  (** *** User management *)

Definition create_user_params (user_id now metadata : string)
      (user_data : UserCreate) : pydict :=
    [ ("id", VStr user_id);
      ("username", VStr (uc_username user_data));
      ("email", opt_str (uc_email user_data));
      ("name", opt_str (uc_name user_data));
      ("bio", opt_str (uc_bio user_data));
      ("avatar_url", opt_str (uc_avatar_url user_data));
      ("location", opt_str (uc_location user_data));
      ("created_at", VStr now);
      ("updated_at", VStr now);
      ("metadata", VStr metadata);
      ("tags", VList (map VStr (match uc_tags user_data with
                                | Some tags => tags
                                | None => []
                                end))) ].

  (** The last line of [create_user] unpacks the returned node and passes
      [id] once more: a node that carries an [id] property makes the call
      a [TypeError] (keyword given twice). *)
Definition User_with_id (u : value) (user_id : string) : outcome User :=
    match u with
    | VDict d =>
        match dict_get "id" d with
        | Some _ => Raise TypeError
        | None => User_init (d ++ [("id", VStr user_id)])
        end
    | _ => Raise TypeError
    end.

Definition create_user (user_data : UserCreate) : M User :=
    user_id <- draw uuid4_at ;;
    now <- draw utcnow_at ;;
    metadata <- lift (json_dumps (opt_dict (uc_metadata user_data))) ;;
    result <- Neo4jConnection.execute_write Cypher.create_user_query
                (create_user_params user_id now metadata user_data) ;;
    RedisCache.delete ("user:" +:+ user_id) ;;;
    r0 <- lift (list_item result 0) ;;
    u <- lift (dict_item "u" r0) ;;
    lift (User_with_id u user_id).

  (** [get_user] after a cache miss: lines 88 to 105. *)
Definition get_user_from_store (user_id : string) : M (option User) :=
    result <- Neo4jConnection.execute_read Cypher.get_user_query [("id", VStr user_id)] ;;
    match result with
    | [] => ret None
    | r0 :: _ =>
        user_data <- lift (dict_item "u" r0) ;;
        node_degree <- lift (dict_item "node_degree" r0) ;;
        match user_data with
        | VDict d =>
            let user_data := dict_set "node_degree" node_degree d in
            s <- lift (json_dumps (VDict user_data)) ;;
            RedisCache.set ("user:" +:+ user_id) (VStr s) 300 ;;;
            u <- lift (User_init user_data) ;;
            ret (Some u)
        | _ => raise TypeError
        end
    end.

  (** [if cached:] on what [cache.get] handed back. *)
Definition cache_hit (cached : option string) : bool :=
    match cached with
    | Some s => truthy (VStr s)
    | None => false
    end.

Definition get_user (user_id : string) : M (option User) :=
    cached <- RedisCache.get ("user:" +:+ user_id) ;;
    if cache_hit cached then
      v <- lift (json_loads (default "" cached)) ;;
      u <- lift (User_of v) ;;
      ret (Some u)
    else get_user_from_store user_id.

  (** The text and the bound parameters that [update_user] sends, given
      the timestamp it stamps. *)
Definition update_user_request (user_id : string) (updates : pydict)
      (now : string) : string * pydict :=
    let updates := dict_set "updated_at" (VStr now) updates in
    let set_clause :=
      join ", " (map (fun key => "u." +:+ key +:+ " = $" +:+ key) (dict_keys updates)) in
    (Cypher.update_user_head +:+ set_clause +:+ Cypher.update_user_tail,
     dict_update [("id", VStr user_id)] updates).

Definition update_user (user_id : string) (updates : pydict) : M User :=
    now <- draw utcnow_at ;;
    let (query, params) := update_user_request user_id updates now in
    result <- Neo4jConnection.execute_write query params ;;
    RedisCache.delete ("user:" +:+ user_id) ;;;
    r0 <- lift (list_item result 0) ;;
    u <- lift (dict_item "u" r0) ;;
    lift (User_of u).

Definition delete_user (user_id : string) : M unit :=
    Neo4jConnection.execute_write Cypher.delete_user_query [("id", VStr user_id)] ;;;
    RedisCache.delete ("user:" +:+ user_id).

  (** *** Relationship management *)

Definition create_relationship_query (rel_data : RelationshipCreate) : string :=
    let query := Cypher.create_relationship_head in
    let query := if bidirectional rel_data
                 then query +:+ Cypher.create_relationship_reverse
                 else query in
    query +:+ Cypher.create_relationship_return.

Definition create_relationship_params (rel_id : string) (id2 : value)
      (properties now : string) (rel_data : RelationshipCreate) : pydict :=
    [ ("id", VStr rel_id);
      ("id2", id2);
      ("from_id", VStr (from_user_id rel_data));
      ("to_id", VStr (to_user_id rel_data));
      ("type", VStr (RelationshipType_value (rc_type rel_data)));
      ("weight", opt_num (rc_weight rel_data));
      ("properties", VStr properties);
      ("created_at", VStr now);
      ("updated_at", VStr now) ].

Definition create_relationship (rel_data : RelationshipCreate) : M Relationship :=
    rel_id <- draw uuid4_at ;;
    now <- draw utcnow_at ;;
    let query := create_relationship_query rel_data in
    id2 <- (if bidirectional rel_data
            then i <- draw uuid4_at ;; ret (VStr i)
            else ret VNone) ;;
    properties <- lift (json_dumps (opt_dict (rc_properties rel_data))) ;;
    result <- Neo4jConnection.execute_write query
                (create_relationship_params rel_id id2 properties now rel_data) ;;
    RedisCache.delete ("user:" +:+ from_user_id rel_data +:+ ":relationships") ;;;
    RedisCache.delete ("user:" +:+ to_user_id rel_data +:+ ":relationships") ;;;
    r0 <- lift (list_item result 0) ;;
    a <- lift (obind (dict_item "a" r0) User_of) ;;
    b <- lift (obind (dict_item "b" r0) User_of) ;;
    ret {| rel_id := rel_id;
           rel_type := rc_type rel_data;
           from_user := a;
           to_user := b;
           rel_created_at := now;
           rel_updated_at := now;
           rel_properties := rc_properties rel_data;
           rel_weight := rc_weight rel_data |}.

  (** The cache key of [get_user_relationships]: [rel_type or 'all']. *)
Definition relationships_cache_key (user_id : string) (rel_type : option string)
      : string :=
    "user:" +:+ user_id +:+ ":relationships:" +:+
    (if cache_hit rel_type then default "" rel_type else "all").

  (** [get_user_relationships] up to its cache test (lines 203 to 205):
      the cached payload when the test passes, [None] on a miss. *)
Definition get_user_relationships_cached (user_id : string)
      (rel_type : option string) : M (option string) :=
    cached <- RedisCache.get (relationships_cache_key user_id rel_type) ;;
    ret (if cache_hit cached then cached else None).

Definition delete_relationship (rel_id : string) : M unit :=
    Neo4jConnection.execute_write Cypher.delete_relationship_query [("id", VStr rel_id)] ;;;
    ret tt.

  (** *** Graph algorithms *)

Definition calculate_influence_score (user_id : string) : M Q :=
    centrality <- Neo4jConnection.centrality_measures user_id ;;
    d <- lift (as_number (dict_get_default "degree" (VInt 0) centrality)) ;;
    b <- lift (as_number (dict_get_default "betweenness" (VInt 0) centrality)) ;;
    c <- lift (as_number (dict_get_default "closeness" (VInt 0) centrality)) ;;
    let score := (d * (3 # 10) + b * (4 # 10) + c * (3 # 10))%Q in
    ret (py_min 100 (score * 10)).

  (** One turn of the loop of [recommend_connections]. *)
Definition recommendation_of (r : pydict) : outcome RecommendationResult :=
    obind (obind (dict_item "recommended" r) User_of) (fun user =>
    obind (obind (dict_item "mutual_count" r) as_number) (fun count =>
    obind (dict_item "mutual_count" r) (fun shown =>
    obind (dict_item "mutual_connections" r) (fun ms =>
    obind (match ms with
           | VList l => omap User_of l
           | _ => Raise TypeError
           end) (fun mutual =>
    Return {| rec_user := user;
              rec_score := (count / 10)%Q;
              rec_reason := "You have " +:+ py_str shown +:+ " mutual connections";
              rec_mutual_connections := firstn 5 mutual |}))))).

Definition recommend_connections (user_id : string) (limit : Z)
      : M (list RecommendationResult) :=
    results <- Neo4jConnection.execute_read Cypher.recommend_connections_query
                 [("id", VStr user_id); ("limit", VInt limit)] ;;
    lift (omap recommendation_of results).

  (** *** Graph statistics *)

  (** [{t["type"]: t["count"] for t in rows}] as a [Dict[str, int]]. *)
Fixpoint histogram (rows : list pydict) (acc : list (string * Z))
      : outcome (list (string * Z)) :=
    match rows with
    | [] => Return acc
    | t :: rest =>
        obind (dict_item "type" t) (fun ty =>
        obind (dict_item "count" t) (fun n =>
        match ty, n with
        | VStr s, VInt z =>
            histogram rest (List.filter (fun kv => negb (String.eqb (fst kv) s)) acc ++ [(s, z)])
        | _, _ => Raise ValidationError
        end))
    end.

Definition stats_dict (stats : value) : outcome pydict :=
    match stats with
    | VDict d => Return d
    | _ => Raise TypeError
    end.

Definition get_statistics : M GraphStatistics :=
    stats <- Neo4jConnection.get_statistics ;;
    node_types <- Neo4jConnection.execute_read Cypher.node_type_query [] ;;
    rel_types <- Neo4jConnection.execute_read Cypher.rel_type_query [] ;;
    stats <- lift (stats_dict stats) ;;
    nts <- lift (histogram node_types []) ;;
    rts <- lift (histogram rel_types []) ;;
    rels <- lift (as_number (dict_get_default "total_relationships" (VInt 0) stats)) ;;
    nodes <- lift (as_number (dict_get_default "total_nodes" (VInt 1) stats)) ;;
    density <- lift (py_div rels (py_max (nodes * nodes) 1)) ;;
    tn <- lift (int_field (dict_get_default "total_nodes" (VInt 0) stats)) ;;
    tr <- lift (int_field (dict_get_default "total_relationships" (VInt 0) stats)) ;;
    avg <- lift (float_field (dict_get_default "avg_degree" (VInt 0) stats)) ;;
    ret {| total_nodes := tn;
           total_relationships := tr;
           node_types := nts;
           relationship_types := rts;
           average_degree := avg;
           graph_density := density;
           component_count := 1;
           largest_component_size := tn;
           average_clustering := 0 |}.

  (** *** Helper methods *)

Definition member_ids (members : list pydict) : outcome (list value) :=
    omap (dict_item "id") members.

  (** [result[0]["edge_count"] if result else 0] *)
Definition edge_count_of (result : list pydict) : outcome Q :=
    match result with
    | [] => Return 0%Q
    | r :: _ => obind (dict_item "edge_count" r) as_number
    end.

Definition _calculate_community_density (members : list pydict) : M Q :=
    if (Z.of_nat (length members) <? 2)%Z then ret 0%Q
    else
      ids <- lift (member_ids members) ;;
      result <- Neo4jConnection.execute_read Cypher.community_density_query
                  [("ids", VList ids)] ;;
      edge_count <- lift (edge_count_of result) ;;
      let n := inject_Z (Z.of_nat (length members)) in
      let max_edges := (n * (n - 1) / 2)%Q in
      if Qlt_le_dec 0 max_edges
      then lift (py_div edge_count max_edges)
      else ret 0%Q.

  (** *** The mutating operations as one request type *)

Inductive mutation :=
  | CreateUser (user_data : UserCreate)
  | UpdateUser (user_id : string) (updates : pydict)
  | DeleteUser (user_id : string)
  | CreateRelationship (rel_data : RelationshipCreate)
  | DeleteRelationship (rel_id : string).

  (** The world after a mutating operation, whether it returned or raised. *)
Definition mutate (m : mutation) (w : world R G) : world R G :=
    match m with
    | CreateUser user_data => snd (create_user user_data w)
    | UpdateUser user_id updates => snd (update_user user_id updates w)
    | DeleteUser user_id => snd (delete_user user_id w)
    | CreateRelationship rel_data => snd (create_relationship rel_data w)
    | DeleteRelationship rel_id => snd (delete_relationship rel_id w)
    end.

  (** *** Schema *)

Definition initialize_schema : M unit :=
    Neo4jConnection.create_constraints ;;;
    Neo4jConnection.create_indexes ;;;
    log INFO "Database schema initialized" None.

Definition reindex : M unit :=
    Neo4jConnection.create_constraints ;;;
    Neo4jConnection.create_indexes ;;;
    log INFO "Graph reindexed successfully" None.

  (** [execute_query]: a custom query runs in a read transaction. *)
Definition execute_query (cypher : string) (parameters : option pydict)
      : M (list pydict) :=
    Neo4jConnection.execute_read cypher (default [] parameters).

  Context `{Pydantic}.

  (** *** Relationship lists *)

  (** The text and the bound parameters that [get_user_relationships]
      sends: the filter is part of both only when one is given. *)
Definition get_user_relationships_request (user_id : string) (rel_type : option string)
      : string * pydict :=
    let query := Cypher.get_user_relationships_match in
    let query := if truthy (opt_str rel_type)
                 then query +:+ Cypher.get_user_relationships_where
                 else query in
    let query := query +:+ Cypher.get_user_relationships_return in
    let params := [("id", VStr user_id)] in
    let params := if truthy (opt_str rel_type)
                  then dict_set "rel_type" (opt_str rel_type) params
                  else params in
    (query, params).

  (** [User(...u) if direction == 'outgoing' else User(...other)], and
      the other way round for the far end. *)
Definition end_user (result : pydict) (direction : value) (near : bool) : outcome User :=
    if Bool.eqb (py_eq direction (VStr "outgoing")) near
    then obind (dict_item "u" result) User_of
    else obind (dict_item "other" result) User_of.

  (** One turn of the loop of [get_user_relationships]. *)
Definition relationship_of_row (result : pydict) : outcome Relationship :=
    obind (dict_item "r" result) (fun r =>
    obind (subscript r "id") (fun id =>
    obind (subscript r "type") (fun type =>
    obind (dict_item "direction" result) (fun direction =>
    obind (end_user result direction true) (fun from_user =>
    obind (end_user result direction false) (fun to_user =>
    obind (subscript r "created_at") (fun created_at =>
    obind (subscript r "updated_at") (fun updated_at =>
    match r with
    | VDict d =>
        obind (loads_value (dict_get_default "properties" (VStr "{}") d)) (fun properties =>
        Relationship_new {| arg_id := id;
                            arg_type := type;
                            arg_from_user := from_user;
                            arg_to_user := to_user;
                            arg_created_at := created_at;
                            arg_updated_at := updated_at;
                            arg_properties := properties;
                            arg_weight := dict_get_default "weight" (VNum 1) d |})
    | _ => Raise TypeError
    end)))))))).

Definition get_user_relationships (user_id : string) (rel_type : option string)
      : M (list Relationship) :=
    let cache_key := relationships_cache_key user_id rel_type in
    cached <- RedisCache.get cache_key ;;
    if cache_hit cached then
      v <- lift (json_loads (default "" cached)) ;;
      items <- lift (iterate v) ;;
      lift (omap Relationship_of items)
    else
      let (query, params) := get_user_relationships_request user_id rel_type in
      results <- Neo4jConnection.execute_read query params ;;
      relationships <- lift (omap relationship_of_row results) ;;
      payload <- lift (json_dumps (VList (map Relationship_dict relationships))) ;;
      RedisCache.set cache_key (VStr payload) 60 ;;;
      ret relationships.

  (** *** Interactions *)

Definition record_interaction_params (interaction_id now metadata : string)
      (interaction_data : InteractionCreate) : pydict :=
    [ ("id", VStr interaction_id);
      ("type", VStr (InteractionType_value (ic_type interaction_data)));
      ("from_id", VStr (ic_from_user_id interaction_data));
      ("to_id", VStr (ic_to_user_id interaction_data));
      ("entity_id", opt_str (ic_entity_id interaction_data));
      ("entity_type", opt_str (ic_entity_type interaction_data));
      ("content", opt_str (ic_content interaction_data));
      ("metadata", VStr metadata);
      ("timestamp", VStr now) ].

Definition record_interaction (interaction_data : InteractionCreate) : M Interaction :=
    interaction_id <- draw uuid4_at ;;
    now <- draw utcnow_at ;;
    metadata <- lift (json_dumps (opt_dict (ic_metadata interaction_data))) ;;
    result <- Neo4jConnection.execute_write Cypher.record_interaction_query
                (record_interaction_params interaction_id now metadata interaction_data) ;;
    r0 <- lift (list_item result 0) ;;
    i <- lift (dict_item "i" r0) ;;
    lift (Interaction_of i).

  (** The text and the bound parameters that [get_user_interactions]
      sends. *)
Definition get_user_interactions_request (user_id : string)
      (interaction_type : option string) (limit : Z) : string * pydict :=
    let query := Cypher.get_user_interactions_match in
    let query := if truthy (opt_str interaction_type)
                 then query +:+ Cypher.get_user_interactions_where
                 else query in
    let query := query +:+ Cypher.get_user_interactions_return in
    let params := [("id", VStr user_id); ("limit", VInt limit)] in
    let params := if truthy (opt_str interaction_type)
                  then dict_set "type" (opt_str interaction_type) params
                  else params in
    (query, params).

Definition get_user_interactions (user_id : string) (interaction_type : option string)
      (limit : Z) : M (list Interaction) :=
    let (query, params) := get_user_interactions_request user_id interaction_type limit in
    results <- Neo4jConnection.execute_read query params ;;
    lift (omap (fun r => obind (dict_item "i" r) Interaction_of) results).

  (** *** Paths *)

Definition find_shortest_path (source_id target_id : string) (max_hops : Z)
      : M (option PathResult) :=
    result <- Neo4jConnection.shortest_path source_id target_id max_hops ;;
    match result with
    | None => ret None
    | Some result =>
        if truthy (VDict result) then
          node_ids <- lift (dict_item "node_ids" result) ;;
          node_results <- Neo4jConnection.execute_read Cypher.path_nodes_query
                            [("node_ids", node_ids)] ;;
          nodes <- lift (omap (fun n => obind (dict_item "u" n) User_of) node_results) ;;
          length <- lift (dict_item "path_length" result) ;;
          p <- lift (PathResult_new (dict_get_default "path" (VList []) result)
                                    length nodes []) ;;
          ret (Some p)
        else ret None
    end.

  (** *** Communities *)

  (** [next((c for c in communities if c["id"] == user_id), None)] *)
Fixpoint user_community_of (user_id : string) (communities : list pydict)
      : outcome (option pydict) :=
    match communities with
    | [] => Return None
    | c :: rest =>
        obind (dict_item "id" c) (fun i =>
        if py_eq i (VStr user_id) then Return (Some c)
        else user_community_of user_id rest)
    end.

  (** [[c for c in communities
        if c["communityId"] == user_community["communityId"]]] *)
Fixpoint community_members_of (user_community : pydict) (communities : list pydict)
      : outcome (list pydict) :=
    match communities with
    | [] => Return []
    | c :: rest =>
        obind (dict_item "communityId" c) (fun x =>
        obind (dict_item "communityId" user_community) (fun y =>
        obind (community_members_of user_community rest) (fun ms =>
        Return (if py_eq x y then c :: ms else ms))))
    end.

Definition detect_communities (user_id algorithm : string) : M (list CommunityResult) :=
    communities <- Neo4jConnection.community_detection algorithm ;;
    user_community <- lift (user_community_of user_id communities) ;;
    match user_community with
    | None => ret []
    | Some user_community =>
        if truthy (VDict user_community) then
          community_members <- lift (community_members_of user_community communities) ;;
          ids <- lift (member_ids community_members) ;;
          user_results <- Neo4jConnection.execute_read Cypher.community_members_query
                            [("ids", VList ids)] ;;
          members <- lift (omap (fun u => obind (dict_item "u" u) User_of) user_results) ;;
          density <- _calculate_community_density community_members ;;
          cid <- lift (dict_item "communityId" user_community) ;;
          ret [ {| community_id := py_str cid;
                   members := members;
                   size := Z.of_nat (length members);
                   density := density |} ]
        else ret []
    end.

End Service.
End SocialGraphService.

(** ** An in-memory key-value server

    A cache server as a finite map from keys to a payload and its time to
    live, with a schedule of outages: each command consumes one entry of
    [faults] and fails with a connection error when the entry is [true].
    Expiry by the passing of time is not part of the model. *)

Module MemRedis.
Record state := State {
    kv : gmap string (string * Z);
    faults : list bool
  }.

  (** One command: fail if the schedule says so, else act on the map. *)
Definition command {A} (f : gmap string (string * Z) -> outcome A * gmap string (string * Z))
      (s : state) : outcome A * state :=
    match faults s with
    | true :: rest => (Raise ConnectionError, State (kv s) rest)
    | false :: rest => let (o, m) := f (kv s) in (o, State m rest)
    | [] => let (o, m) := f (kv s) in (o, State m [])
    end.

  (** Glob patterns with [*] and [?]. *)
Fixpoint glob (p s : list ascii) : bool :=
    match p with
    | [] => match s with [] => true | _ :: _ => false end
    | c :: p' =>
        if Ascii.eqb c "*" then
          (fix star (s : list ascii) : bool :=
             glob p' s || match s with
                          | [] => false
                          | _ :: s' => star s'
                          end) s
        else
          match s with
          | [] => false
          | d :: s' => (Ascii.eqb c "?" || Ascii.eqb c d) && glob p' s'
          end
    end.

Definition matches (pattern key : string) : bool :=
    glob (list_ascii_of_string pattern) (list_ascii_of_string key).

  (** The keyspace is scanned slot by slot; the cursor is the next slot. *)
Definition slots : Z := 8.
Definition slot_of (key : string) : Z := Z.of_nat (String.length key) mod slots.

Definition do_setex (key : string) (ttl : Z) (v : string)
      (m : gmap string (string * Z)) : outcome unit * gmap string (string * Z) :=
    if (ttl <=? 0)%Z then (Raise ResponseError, m)
    else (Return tt, <[key := (v, ttl)]> m).

Definition do_delete (keys : list string) (m : gmap string (string * Z))
      : outcome Z * gmap string (string * Z) :=
    (Return (Z.of_nat (length (List.filter (fun k => bool_decide (is_Some (m !! k))) keys))),
     fold_right (fun k acc => delete k acc) m keys).

Definition do_scan (cursor : Z) (pattern : string) (count : Z)
      (m : gmap string (string * Z)) : outcome (Z * list string) * gmap string (string * Z) :=
    if ((0 <=? cursor) && (cursor <? slots))%Z then
      (Return (if (cursor + 1 <? slots)%Z then (cursor + 1)%Z else 0%Z,
               List.filter (fun k => (slot_of k =? cursor)%Z && matches pattern k)
                           (map fst (map_to_list m))),
       m)
    else (Raise ResponseError, m).

Fixpoint do_pipeline (cmds : list (string * Z * string))
      (m : gmap string (string * Z)) : outcome unit * gmap string (string * Z) :=
    match cmds with
    | [] => (Return tt, m)
    | (k, ttl, v) :: rest =>
        match do_setex k ttl v m with
        | (Return _, m') => do_pipeline rest m'
        | (Raise e, m') => (Raise e, snd (do_pipeline rest m'))
        end
    end.

Definition do_incrby (key : string) (amount : Z) (m : gmap string (string * Z))
      : outcome Z * gmap string (string * Z) :=
    match m !! key with
    | None => (Return amount, <[key := (str_of_Z amount, (-1)%Z)]> m)
    | Some (v, ttl) =>
        match NilZero.int_of_string v with
        | Some n => let n' := (Z.of_int n + amount)%Z in
                    (Return n', <[key := (str_of_Z n', ttl)]> m)
        | None => (Raise ResponseError, m)
        end
    end.

#[global] Instance server : RedisServer state := {
    redis_open := command (fun m => (Return tt, m));
    redis_ping := command (fun m => (Return tt, m));
    redis_get key := command (fun m => (Return (fst <$> m !! key), m));
    redis_setex key ttl v := command (do_setex key ttl v);
    redis_delete keys := command (do_delete keys);
    redis_scan cursor pattern count := command (do_scan cursor pattern count);
    redis_exists key :=
      command (fun m => (Return (if bool_decide (is_Some (m !! key)) then 1%Z else 0%Z), m));
    redis_mget keys := command (fun m => (Return (map (fun k => fst <$> m !! k) keys), m));
    redis_pipeline_setex cmds := command (do_pipeline cmds);
    redis_incrby key amount := command (do_incrby key amount);
    redis_ttl key :=
      command (fun m => (Return (match m !! key with
                                 | Some (_, ttl) => ttl
                                 | None => (-2)%Z
                                 end), m))
  }.
End MemRedis.

(** ** An in-memory graph store

    A property graph as a list of labelled nodes and a list of typed,
    directed relationships between node ids, with the meaning of the
    fixed query texts that the service sends.  A query is recognised by
    its text; any other text is refused as a client error.  Every node
    carries its [id] property, which the relationships refer to. *)

Module MemGraph.
Record node := Node {
    node_label : string;
    node_id : string;
    node_props : pydict          (* the properties other than [id] *)
  }.

Record edge := Edge {
    edge_type : string;
    edge_from : string;
    edge_to : string;
    edge_props : pydict
  }.

Record state := State {
    nodes : list node;
    edges : list edge
  }.

  (** A node as a returned record shows it. *)
Definition node_data (n : node) : value :=
    VDict (("id", VStr (node_id n)) :: node_props n).

Definition is_user (uid : string) (n : node) : bool :=
    String.eqb (node_label n) "User" && String.eqb (node_id n) uid.

  (** [(u:User {id: $id})] *)
Definition users_with (g : state) (uid : string) : list node :=
    List.filter (is_user uid) (nodes g).

Definition user_exists (g : state) (uid : string) : bool :=
    existsb (is_user uid) (nodes g).

Definition relates (e : edge) : bool := String.eqb (edge_type e) "RELATES_TO".

Definition touches (a : string) (e : edge) : bool :=
    String.eqb (edge_from e) a || String.eqb (edge_to e) a.

Definition joins (a b : string) (e : edge) : bool :=
    (String.eqb (edge_from e) a && String.eqb (edge_to e) b)
    || (String.eqb (edge_from e) b && String.eqb (edge_to e) a).

  (** [(a)-[:RELATES_TO]-(b)]: a relationship in either direction. *)
Definition connected (g : state) (a b : string) : bool :=
    existsb (fun e => relates e && joins a b e) (edges g).

  (** Every relationship has a [User] node at one of its ends, as the
      relationships that the service creates have. *)
Definition anchored (g : state) : bool :=
    forallb (fun e => user_exists g (edge_from e) || user_exists g (edge_to e)) (edges g).

  (** A property map keeps no null. *)
Definition non_null (d : pydict) : pydict :=
    List.filter (fun kv => match snd kv with VNone => false | _ => true end) d.

Definition param (k : string) (params : pydict) : outcome value :=
    match dict_get k params with
    | Some v => Return v
    | None => Raise ClientError
    end.

Definition str_param (k : string) (params : pydict) : outcome string :=
    match dict_get k params with
    | Some (VStr s) => Return s
    | _ => Raise ClientError
    end.

Definition props_from (keys : list string) (params : pydict) : outcome pydict :=
    obind (omap (fun k => obind (param k params) (fun v => Return (k, v))) keys)
          (fun d => Return (non_null d)).

Definition has_str (k s : string) (d : pydict) : bool :=
    match dict_get k d with
    | Some (VStr s') => String.eqb s s'
    | _ => false
    end.

  (** *** Write transactions *)

Definition create_user_tx (params : pydict) (g : state) : outcome (list pydict) * state :=
    match str_param "id" params, str_param "username" params,
          props_from ["username"; "email"; "name"; "bio"; "avatar_url"; "location";
                      "created_at"; "updated_at"; "metadata"; "tags"] params with
    | Return uid, Return uname, Return props =>
        if existsb (fun n => String.eqb (node_label n) "User"
                             && (String.eqb (node_id n) uid
                                 || has_str "username" uname (node_props n)))
                   (nodes g)
        then (Raise ClientError, g)
        else let n := Node "User" uid props in
             (Return [[("u", node_data n)]], State (nodes g ++ [n]) (edges g))
    | _, _, _ => (Raise ClientError, g)
    end.

Definition delete_user_tx (params : pydict) (g : state) : outcome (list pydict) * state :=
    match str_param "id" params with
    | Return uid =>
        if user_exists g uid
        then (Return [],
              State (List.filter (fun n => negb (is_user uid n)) (nodes g))
                    (List.filter (fun e => negb (touches uid e)) (edges g)))
        else (Return [], g)
    | Raise e => (Raise e, g)
    end.

Definition relationship_keys : list string :=
    ["type"; "weight"; "properties"; "created_at"; "updated_at"].

  (** The relationship [(a)-[:RELATES_TO {id: rid, ...}]->(b)]. *)
Definition new_edge (rid : value) (props : pydict) (a b : node) : edge :=
    Edge "RELATES_TO" (node_id a) (node_id b) (non_null [("id", rid)] ++ props).

Definition create_relationship_tx (reverse : bool) (params : pydict) (g : state)
      : outcome (list pydict) * state :=
    match str_param "from_id" params, str_param "to_id" params,
          param "id" params, (if reverse then param "id2" params else Return VNone),
          props_from relationship_keys params with
    | Return from_id, Return to_id, Return rid, Return rid2, Return props =>
        let pairs := list_prod (users_with g from_id) (users_with g to_id) in
        (Return (map (fun ab => [("a", node_data (fst ab));
                                 ("b", node_data (snd ab));
                                 ("r", VList [node_data (fst ab); VStr "RELATES_TO";
                                              node_data (snd ab)])]) pairs),
         State (nodes g)
               (edges g ++
                flat_map (fun ab =>
                            new_edge rid props (fst ab) (snd ab) ::
                            (if reverse
                             then [new_edge rid2 props (snd ab) (fst ab)]
                             else [])) pairs))
    | _, _, _, _, _ => (Raise ClientError, g)
    end.

Definition delete_relationship_tx (params : pydict) (g : state)
      : outcome (list pydict) * state :=
    match str_param "id" params with
    | Return rid =>
        (Return [],
         State (nodes g)
               (List.filter (fun e => negb (relates e && has_str "id" rid (edge_props e)))
                            (edges g)))
    | Raise e => (Raise e, g)
    end.

Definition run_write (query : string) (params : pydict) (g : state)
      : outcome (list pydict) * state :=
    if String.eqb query Cypher.create_user_query then create_user_tx params g
    else if String.eqb query Cypher.delete_user_query then delete_user_tx params g
    else if String.eqb query (Cypher.create_relationship_head
                              +:+ Cypher.create_relationship_return)
    then create_relationship_tx false params g
    else if String.eqb query (Cypher.create_relationship_head
                              +:+ Cypher.create_relationship_reverse
                              +:+ Cypher.create_relationship_return)
    then create_relationship_tx true params g
    else if String.eqb query Cypher.delete_relationship_query
    then delete_relationship_tx params g
    else (Raise ClientError, g).

  (** *** Read transactions *)

Definition degree (g : state) (uid : string) : nat :=
    length (List.filter (touches uid) (edges g)).

  (** [MATCH (u:User {id: $id}) OPTIONAL MATCH (u)-[r]-() RETURN u, count(r)] *)
Definition get_user_rows (g : state) (uid : string) : list pydict :=
    map (fun n => [("u", node_data n); ("node_degree", VInt (Z.of_nat (degree g uid)))])
        (users_with g uid).

  (** An aggregation without grouping key: always one row. *)
Definition degree_rows (g : state) (uid : string) : list pydict :=
    [[("degree", VInt (Z.of_nat (length (users_with g uid) * degree g uid)))]].

  (** Counting by key, in order of first appearance. *)
Fixpoint bump (k : string) (t : list (string * nat)) : list (string * nat) :=
    match t with
    | [] => [(k, 1%nat)]
    | (k', n) :: t' =>
        if String.eqb k k' then (k', S n) :: t' else (k', n) :: bump k t'
    end.

Definition tally (ks : list string) : list (string * nat) :=
    fold_left (fun t k => bump k t) ks [].

Definition count_rows (t : list (string * nat)) : list pydict :=
    map (fun kn => [("type", VStr (fst kn)); ("count", VInt (Z.of_nat (snd kn)))]) t.

  (** The three aggregation stages of the statistics query.  A stage that
      groups by the counts carried so far yields no row when its [MATCH]
      finds nothing, so the query has a row only when the graph has a
      relationship and a [User] node. *)
Definition statistics_rows (g : state) : list pydict :=
    let node_count := Z.of_nat (length (nodes g)) in
    let rel_count := Z.of_nat (length (edges g)) in
    let user_count :=
      Z.of_nat (length (List.filter (fun n => String.eqb (node_label n) "User") (nodes g))) in
    if (rel_count =? 0)%Z then []
    else if (user_count =? 0)%Z then []
    else [[("stats",
            VDict [("total_nodes", VInt node_count);
                   ("total_relationships", VInt rel_count);
                   ("total_users", VInt user_count);
                   ("avg_degree", VNum (inject_Z rel_count / inject_Z node_count))])]].

Definition in_ids (ids : list value) (uid : string) : bool :=
    existsb (fun v => match v with VStr s => String.eqb s uid | _ => false end) ids.

  (** Relationships among the listed members, each counted once. *)
Definition density_rows (g : state) (ids : list value) : list pydict :=
    [[("edge_count",
       VInt (Z.of_nat (length (List.filter
         (fun e => relates e
                   && user_exists g (edge_from e) && user_exists g (edge_to e)
                   && in_ids ids (edge_from e) && in_ids ids (edge_to e)
                   && negb (String.eqb (edge_from e) (edge_to e)))
         (edges g)))))]].

  (** The far ends of the trails of [n] RELATES_TO relationships from
      [cur], in either direction, no relationship used twice. *)
Fixpoint trails (es : list (nat * edge)) (n : nat) (cur : string) (used : list nat)
      : list string :=
    match n with
    | O => [cur]
    | S n' =>
        flat_map (fun ie =>
                    if relates (snd ie) && negb (existsb (Nat.eqb (fst ie)) used)
                    then if String.eqb (edge_from (snd ie)) cur
                         then trails es n' (edge_to (snd ie)) (fst ie :: used)
                         else if String.eqb (edge_to (snd ie)) cur
                              then trails es n' (edge_from (snd ie)) (fst ie :: used)
                              else []
                    else []) es
    end.

Definition numbered (g : state) : list (nat * edge) :=
    combine (seq 0 (length (edges g))) (edges g).

  (** First [MATCH] and [WHERE] of the recommendation query: one entry
      per trail of 2 or 3 hops from the source to a [User] that is neither
      the source nor connected to it. *)
Definition candidates (g : state) (uid : string) : list string :=
    List.filter (fun r => user_exists g r && negb (connected g uid r)
                          && negb (String.eqb uid r))
      (flat_map (fun _ => trails (numbered g) 2 uid [] ++ trails (numbered g) 3 uid [])
                (users_with g uid)).

Definition more_mutual (a b : string * nat) : Prop := (snd b <= snd a)%nat.

Definition more_mutual_dec (a b : string * nat) : Decision (more_mutual a b) :=
    Nat.le_dec (snd b) (snd a).

  (** [WITH recommended, COUNT(...) ORDER BY mutual_count DESC LIMIT] *)
Definition ranked (g : state) (uid : string) (limit : nat) : list (string * nat) :=
    firstn limit (@merge_sort _ more_mutual more_mutual_dec (tally (candidates g uid))).

Fixpoint dedup (xs : list string) : list string :=
    match xs with
    | [] => []
    | x :: xs' => x :: List.filter (fun y => negb (String.eqb x y)) (dedup xs')
    end.

Definition other_end (a : string) (e : edge) : string :=
    if String.eqb (edge_from e) a then edge_to e else edge_from e.

  (** Second [MATCH]: the users one hop from the source and one hop, over
      another relationship, from the candidate. *)
Definition mutuals (g : state) (uid r : string) : list string :=
    dedup (flat_map (fun _ =>
      flat_map (fun ie =>
        if relates (snd ie) && touches uid (snd ie)
        then let m := other_end uid (snd ie) in
             if user_exists g m
                && existsb (fun je => negb (Nat.eqb (fst je) (fst ie))
                                      && relates (snd je) && joins m r (snd je))
                           (numbered g)
             then [m] else []
        else []) (numbered g)) (users_with g uid)).

Definition first_user (g : state) (uid : string) : value :=
    match users_with g uid with
    | n :: _ => node_data n
    | [] => VNone
    end.

Definition recommend_rows (g : state) (uid : string) (limit : nat) : list pydict :=
    flat_map (fun rc =>
                match mutuals g uid (fst rc) with
                | [] => []
                | ms => [[("recommended", first_user g (fst rc));
                          ("mutual_count", VInt (Z.of_nat (snd rc)));
                          ("mutual_connections", VList (map (first_user g) ms))]]
                end) (ranked g uid limit).

Definition run_read (query : string) (params : pydict) (g : state)
      : outcome (list pydict) :=
    if String.eqb query Cypher.get_user_query
    then obind (str_param "id" params) (fun uid => Return (get_user_rows g uid))
    else if String.eqb query Cypher.degree_query
    then obind (str_param "user_id" params) (fun uid => Return (degree_rows g uid))
    else if String.eqb query Cypher.statistics_query then Return (statistics_rows g)
    else if String.eqb query Cypher.node_type_query
    then Return (count_rows (tally (map node_label (nodes g))))
    else if String.eqb query Cypher.rel_type_query
    then Return (count_rows (tally (map edge_type (edges g))))
    else if String.eqb query Cypher.community_density_query
    then match dict_get "ids" params with
         | Some (VList ids) => Return (density_rows g ids)
         | _ => Raise ClientError
         end
    else if String.eqb query Cypher.recommend_connections_query
    then obind (str_param "id" params) (fun uid =>
         match dict_get "limit" params with
         | Some (VInt l) =>
             if (l <? 0)%Z then Raise ClientError
             else Return (recommend_rows g uid (Z.to_nat l))
         | _ => Raise ClientError
         end)
    else Raise ClientError.

#[global] Instance store : GraphStore state := {
    neo4j_verify_connectivity g := (Return tt, g);
    neo4j_write := run_write;
    neo4j_read query params g := (run_read query params g, g)
  }.
End MemGraph.

(** ** A concrete Python environment

    Draws are numbered; JSON is written for the values the service
    serialises (strings without characters that need escaping), and
    nothing is parsed back. *)

Module TestEnv.
Definition digits (n : nat) : string := str_of_Z (Z.of_nat n).

Fixpoint dumps_list (dumps : value -> string) (l : list value) : string :=
    match l with
    | [] => ""
    | [v] => dumps v
    | v :: l' => dumps v +:+ ", " +:+ dumps_list dumps l'
    end.

Fixpoint dumps (v : value) : string :=
    match v with
    | VNone => "null"
    | VBool true => "true"
    | VBool false => "false"
    | VInt z => str_of_Z z
    | VNum q => str_of_Z (Qnum q) +:+ "/" +:+ str_of_Z (Zpos (Qden q))
    | VStr s => "'" +:+ s +:+ "'"
    | VList l => "[" +:+ dumps_list dumps l +:+ "]"
    | VDict d =>
        "{" +:+ (fix go (d : list (string * value)) : string :=
                   match d with
                   | [] => ""
                   | [(k, x)] => "'" +:+ k +:+ "': " +:+ dumps x
                   | (k, x) :: d' => "'" +:+ k +:+ "': " +:+ dumps x +:+ ", " +:+ go d'
                   end) d +:+ "}"
    end.

#[global] Instance env : PyEnv := {
    uuid4_at n := "uuid-" +:+ digits n;
    utcnow_at n := "2024-01-01T00:00:" +:+ digits n;
    json_dumps v := Return (dumps v);
    json_loads _ := Raise ValueError;
    float_repr q := str_of_Z (Qnum q) +:+ "/" +:+ str_of_Z (Zpos (Qden q));
    container_repr := dumps;
    User_fields_ok _ := true
  }.

  (** The numbered identifiers do not repeat. *)
Definition ids : Uuid4.
  Proof.
    refine {| uuid4_of := fun n => "uuid-" +:+ digits n; uuid4_fresh := _ |}.
    intros m n E. injection E as E.
    change ("" +:+ digits m = "" +:+ digits n) with (digits m = digits n) in E.
    unfold digits, str_of_Z in E.
    assert (Hnil : forall z, Z.to_int z <> Decimal.Pos Decimal.Nil
                             /\ Z.to_int z <> Decimal.Neg Decimal.Nil).
    { intros z. split; intros Hz; pose proof (DecimalZ.of_to z) as Hof;
        rewrite Hz in Hof; cbn in Hof; subst z; discriminate Hz. }
    apply (f_equal NilZero.int_of_string) in E.
    rewrite !NilZero.isi in E by apply Hnil.
    injection E as E. apply (f_equal Z.of_int) in E.
    rewrite !DecimalZ.of_to in E. now apply Nat2Z.inj.
  Defined.

End TestEnv.

(** ** A store that replays a script

    A stand-in for the graph store that answers the n-th request with
    the n-th entry of a script, whatever the request is, and is
    unavailable once the script is used up. *)

Module Scripted.
Record state := State {
    reachable : bool;
    script : list (outcome (list pydict))
  }.

Definition answer (s : state) : outcome (list pydict) * state :=
    match script s with
    | r :: rest => (r, State (reachable s) rest)
    | [] => (Raise ServiceUnavailable, s)
    end.

#[global] Instance store : GraphStore state := {
    neo4j_verify_connectivity s :=
      (if reachable s then Return tt else Raise ServiceUnavailable, s);
    neo4j_write _ _ := answer;
    neo4j_read _ _ := answer
  }.
End Scripted.

(** ** Concrete models

    A validation of the models that accepts what the service itself
    writes: string identifiers and timestamps, a relationship type by
    its value, numbers for weights. *)

Module TestModels.
  Import Models.

Definition properties_of (v : value) : outcome (option pydict) :=
    match v with
    | VNone => Return None
    | VDict d => Return (Some d)
    | _ => Raise ValidationError
    end.

Definition weight_of (v : value) : outcome (option Q) :=
    match v with
    | VNone => Return None
    | VInt z => Return (Some (inject_Z z))
    | VNum q => Return (Some q)
    | _ => Raise ValidationError
    end.

Definition new (a : RelationshipArgs) : outcome Relationship :=
    match arg_id a, arg_type a, arg_created_at a, arg_updated_at a with
    | VStr i, VStr t, VStr c, VStr u =>
        match RelationshipType_of t with
        | Some ty =>
            obind (properties_of (arg_properties a)) (fun ps =>
            obind (weight_of (arg_weight a)) (fun wt =>
            Return {| rel_id := i; rel_type := ty;
                      from_user := arg_from_user a; to_user := arg_to_user a;
                      rel_created_at := c; rel_updated_at := u;
                      rel_properties := ps; rel_weight := wt |}))
        | None => Raise ValidationError
        end
    | _, _, _, _ => Raise ValidationError
    end.

Definition kw `{PyEnv} (d : pydict) : outcome Relationship :=
    match dict_get "from_user" d, dict_get "to_user" d with
    | Some a, Some b =>
        obind (User_of a) (fun a =>
        obind (User_of b) (fun b =>
        new {| arg_id := dict_get_default "id" VNone d;
               arg_type := dict_get_default "type" VNone d;
               arg_from_user := a; arg_to_user := b;
               arg_created_at := dict_get_default "created_at" VNone d;
               arg_updated_at := dict_get_default "updated_at" VNone d;
               arg_properties := dict_get_default "properties" (VDict []) d;
               arg_weight := dict_get_default "weight" (VNum 1) d |}))
    | _, _ => Raise ValidationError
    end.

Definition as_dict (r : Relationship) : value :=
    VDict [ ("type", VStr (RelationshipType_value (rel_type r)));
            ("properties", opt_dict (rel_properties r));
            ("weight", opt_num (rel_weight r));
            ("id", VStr (rel_id r));
            ("from_user", VDict (user_fields (from_user r)));
            ("to_user", VDict (user_fields (to_user r)));
            ("created_at", VStr (rel_created_at r));
            ("updated_at", VStr (rel_updated_at r)) ].

#[global] Instance models `{PyEnv} : Pydantic := {
    Relationship_new := new;
    Relationship_kw := kw;
    Relationship_dict := as_dict;
    Interaction_fields_ok d :=
      match dict_get "id" d with Some (VStr _) => true | _ => false end;
    PathResult_fields_ok _ length :=
      match length with VInt _ => true | _ => false end
  }.
End TestModels.

(** ** auth.py and main.py: the request handlers

    What a handler hands to the framework is a result or an exception;
    an [HTTPException] carries its status code and its detail, which is
    a fixed text or [str(e)] of the exception that was caught. *)

Module Http.
Inductive detail :=
  | Text (s : string)
  | StrOf (e : exn).

Record HTTPException := {
    status_code : Z;
    detail_of : detail
  }.

Inductive raised :=
  | Http (h : HTTPException)
  | Unhandled (e : exn).

Inductive answer (A : Type) :=
  | Ok (a : A)
  | Raised (r : raised).
  Arguments Ok {A} a.
  Arguments Raised {A} r.
End Http.

Module Auth.
  Import Http.

  (** [get_current_user]: the bearer token has to be the value of the
      environment variable ADMIN_API_KEY, or the built-in default when
      the variable is not set. *)
Definition get_current_user (ADMIN_API_KEY : option string) (token : string)
      : answer string :=
    if negb (String.eqb token (default "admin-secret-key" ADMIN_API_KEY))
    then Raised (Http {| status_code := 401;
                         detail_of := Text "Invalid authentication credentials" |})
    else Ok token.
End Auth.

Module Main.
Import Http Models.
Section App.
  Context {R G : Type} `{RedisServer R} `{GraphStore G} `{PyEnv} `{Pydantic}.

  (** The process after start-up: the service with its two connections
      and the logger, the handle of the synchronous driver of
      [neo4j_conn], the two label counters of [main.py] (each increment
      by its labels) and the environment variable that [auth.py] reads. *)
Record app := App {
    graph_service : world R G;
    _driver : bool;
    request_counter : list (string * string);
    query_counter : list string;
    ADMIN_API_KEY : option string
  }.

Definition with_service (w : world R G) (a : app) : app :=
    App w (_driver a) (request_counter a) (query_counter a) (ADMIN_API_KEY a).

  (** [request_counter.labels(method=..., endpoint=...).inc()] *)
Definition count_request (method endpoint : string) (a : app) : app :=
    App (graph_service a) (_driver a) (request_counter a ++ [(method, endpoint)])
        (query_counter a) (ADMIN_API_KEY a).

  (** [query_counter.labels(query_type=...).inc()] *)
Definition count_query (query_type : string) (a : app) : app :=
    App (graph_service a) (_driver a) (request_counter a)
        (query_counter a ++ [query_type]) (ADMIN_API_KEY a).

Definition no_count (a : app) : app := a.

Definition handler (A : Type) : Type := app -> answer A * app.

Definition internal_error (e : exn) : raised :=
    Http {| status_code := 500; detail_of := StrOf e |}.

  (** The body shared by the handlers: call the service, count, return;
      any exception is logged and becomes a 500 with its text. *)
Definition endpoint {A B} (call : M R G A) (count : app -> app) (respond : A -> B)
      (msg : string) : handler B :=
    fun a =>
      match call (graph_service a) with
      | (Return result, w) => (Ok (respond result), count (with_service w a))
      | (Raise e, w) =>
          (Raised (internal_error e),
           with_service (snd (log ERROR msg (Some e) w)) a)
      end.

  (** The same with a result that may be absent: the 404 raised inside
      the [try] is passed on as it is. *)
Definition endpoint_or_404 {A} (call : M R G (option A)) (missing : string)
      (count : app -> app) (msg : string) : handler A :=
    fun a =>
      match call (graph_service a) with
      | (Return (Some result), w) => (Ok result, count (with_service w a))
      | (Return None, w) =>
          (Raised (Http {| status_code := 404; detail_of := Text missing |}),
           with_service w a)
      | (Raise e, w) =>
          (Raised (internal_error e),
           with_service (snd (log ERROR msg (Some e) w)) a)
      end.

  (** A handler behind [Depends(get_current_user)]. *)
Definition admin {A} (token : string) (h : handler A) : handler A :=
    fun a =>
      match Auth.get_current_user (ADMIN_API_KEY a) token with
      | Ok _ => h a
      | Raised r => (Raised r, a)
      end.

  (** *** Lifecycle *)

  (** [lifespan] up to its [yield]. *)
Definition lifespan_startup : M R G unit :=
    log INFO "Starting Social Graph Service..." None ;;;
    SocialGraphService.initialize_schema ;;;
    log INFO "Social Graph Service started successfully" None.

  (** The process that serves requests over the two servers. *)
Definition started (redis : R) (neo4j : G) (key : option string) : app :=
    App (snd (lifespan_startup (World redis false neo4j false [] [] 0)))
        false [] [] key.

  (** *** Handlers *)

Definition health_check : handler value :=
    fun a => (Ok (VDict [("status", VStr "healthy");
                         ("service", VStr "social-graph");
                         ("version", VStr "1.0.0")]), a).

Definition readiness_check : handler value :=
    fun a =>
      match Neo4jConnection.verify_connectivity (_driver a) (graph_service a) with
      | (Return true, w) => (Ok (VDict [("status", VStr "ready")]), with_service w a)
      | (Return false, w) =>
          (Raised (Http {| status_code := 503; detail_of := Text "Service not ready" |}),
           with_service w a)
      | (Raise e, w) => (Raised (Unhandled e), with_service w a)
      end.

Definition create_user (user : UserCreate) : handler User :=
    endpoint (SocialGraphService.create_user user)
             (count_request "POST" "/users") (fun u => u) "Error creating user".

Definition get_user (user_id : string) : handler User :=
    endpoint_or_404 (SocialGraphService.get_user user_id) "User not found"
                    (count_request "GET" "/users/{id}") "Error getting user".

Definition get_user_relationships (user_id : string) (relationship_type : option string)
      : handler (list Relationship) :=
    endpoint (SocialGraphService.get_user_relationships user_id relationship_type)
             (count_request "GET" "/users/{id}/relationships") (fun l => l)
             "Error getting relationships".

Definition create_relationship (relationship : RelationshipCreate) : handler Relationship :=
    endpoint (SocialGraphService.create_relationship relationship)
             (count_request "POST" "/relationships") (fun r => r)
             "Error creating relationship".

Definition delete_relationship (relationship_id : string) : handler value :=
    endpoint (SocialGraphService.delete_relationship relationship_id)
             (count_request "DELETE" "/relationships/{id}")
             (fun _ => VDict [("message", VStr "Relationship deleted successfully")])
             "Error deleting relationship".

Definition record_interaction (interaction : InteractionCreate) : handler Interaction :=
    endpoint (SocialGraphService.record_interaction interaction)
             (count_request "POST" "/interactions") (fun i => i)
             "Error recording interaction".

Definition get_user_interactions (user_id : string) (interaction_type : option string)
      (limit : Z) : handler (list Interaction) :=
    endpoint (SocialGraphService.get_user_interactions user_id interaction_type limit)
             (count_request "GET" "/interactions/{id}") (fun l => l)
             "Error getting interactions".

Definition execute_graph_query (query : GraphQuery) : handler GraphResponse :=
    endpoint (SocialGraphService.execute_query (cypher query) (parameters query))
             (count_query "custom") (fun result => {| data := result |})
             "Error executing query".

Definition find_shortest_path (source_id target_id : string) (max_hops : Z)
      : handler PathResult :=
    endpoint_or_404 (SocialGraphService.find_shortest_path source_id target_id max_hops)
                    "No path found" (count_query "shortest_path") "Error finding path".

Definition get_user_communities (user_id algorithm : string)
      : handler (list CommunityResult) :=
    endpoint (SocialGraphService.detect_communities user_id algorithm)
             (count_query "community_detection") (fun l => l)
             "Error detecting communities".

Definition calculate_influence_score (user_id : string) : handler value :=
    endpoint (SocialGraphService.calculate_influence_score user_id)
             (count_query "influence_score")
             (fun result => VDict [("user_id", VStr user_id);
                                   ("influence_score", VNum result)])
             "Error calculating influence".

Definition recommend_connections (user_id : string) (limit : Z)
      : handler (list RecommendationResult) :=
    endpoint (SocialGraphService.recommend_connections user_id limit)
             (count_query "recommendations") (fun l => l)
             "Error generating recommendations".

Definition reindex_graph (token : string) : handler value :=
    admin token
      (endpoint SocialGraphService.reindex no_count
                (fun _ => VDict [("message", VStr "Graph reindexed successfully")])
                "Error reindexing").

Definition get_graph_stats (token : string) : handler GraphStatistics :=
    admin token
      (endpoint SocialGraphService.get_statistics no_count (fun stats => stats)
                "Error getting stats").

  (** *** The handlers as one request type *)

Inductive request :=
  | GET_health
  | GET_ready
  | POST_users (user : UserCreate)
  | GET_users (user_id : string)
  | GET_users_relationships (user_id : string) (relationship_type : option string)
  | POST_relationships (relationship : RelationshipCreate)
  | DELETE_relationships (relationship_id : string)
  | POST_interactions (interaction : InteractionCreate)
  | GET_interactions (user_id : string) (interaction_type : option string) (limit : Z)
  | POST_query (query : GraphQuery)
  | GET_paths_shortest (source_id target_id : string) (max_hops : Z)
  | GET_communities (user_id algorithm : string)
  | GET_influence_score (user_id : string)
  | GET_recommendations (user_id : string) (limit : Z)
  | POST_admin_reindex (token : string)
  | GET_admin_stats (token : string).

  (** The outcome of a handler without its result. *)
Definition outcome_of {A} (r : answer A * app) : option raised * app :=
    match r with
    | (Ok _, a) => (None, a)
    | (Raised x, a) => (Some x, a)
    end.

Definition handle (req : request) (a : app) : option raised * app :=
    match req with
    | GET_health => outcome_of (health_check a)
    | GET_ready => outcome_of (readiness_check a)
    | POST_users user => outcome_of (create_user user a)
    | GET_users user_id => outcome_of (get_user user_id a)
    | GET_users_relationships user_id relationship_type =>
        outcome_of (get_user_relationships user_id relationship_type a)
    | POST_relationships relationship => outcome_of (create_relationship relationship a)
    | DELETE_relationships relationship_id =>
        outcome_of (delete_relationship relationship_id a)
    | POST_interactions interaction => outcome_of (record_interaction interaction a)
    | GET_interactions user_id interaction_type limit =>
        outcome_of (get_user_interactions user_id interaction_type limit a)
    | POST_query query => outcome_of (execute_graph_query query a)
    | GET_paths_shortest source_id target_id max_hops =>
        outcome_of (find_shortest_path source_id target_id max_hops a)
    | GET_communities user_id algorithm =>
        outcome_of (get_user_communities user_id algorithm a)
    | GET_influence_score user_id => outcome_of (calculate_influence_score user_id a)
    | GET_recommendations user_id limit =>
        outcome_of (recommend_connections user_id limit a)
    | POST_admin_reindex token => outcome_of (reindex_graph token a)
    | GET_admin_stats token => outcome_of (get_graph_stats token a)
    end.

  (** The process after a sequence of requests. *)
Definition serve (reqs : list request) (a : app) : app :=
    fold_left (fun a req => snd (handle req a)) reqs a.
End App.
End Main.

(** ** monitoring.py: the request middleware

    The three metrics of the module, each counter by the labels of its
    increments; the rest of the process, which the middleware reaches
    only through [call_next] and the clock, is a state of its own. *)

Module Monitoring.
Record Request := {
    method : string;
    url_path : string
  }.

Record Response := {
    status_code : Z;
    headers : list (string * string)
  }.

Record metrics := Metrics {
    http_requests_total : list (string * string * Z);
    http_request_duration : list (string * string * Q);
    active_connections : Z
  }.

  (** [response.headers[name] = text] *)
Fixpoint set_header (name text : string) (hs : list (string * string))
      : list (string * string) :=
    match hs with
    | [] => [(name, text)]
    | (n, t) :: hs' =>
        if String.eqb n name then (name, text) :: hs' else (n, t) :: set_header name text hs'
    end.

Section Middleware.
  Context {T : Type} `{PyEnv}.
  Variable time : T -> Q.
  Variable call_next : Request -> T -> outcome Response * T.

Definition monitor_requests (request : Request) (s : metrics * T)
      : outcome Response * (metrics * T) :=
    let (m, t) := s in
    let start_time := time t in
    let m := Metrics (http_requests_total m) (http_request_duration m)
                     (active_connections m + 1) in
    match call_next request t with
    | (Return response, t') =>
        let duration := (time t' - start_time)%Q in
        let m := Metrics (http_requests_total m
                          ++ [(method request, url_path request, status_code response)])
                         (http_request_duration m
                          ++ [(method request, url_path request, duration)])
                         (active_connections m) in
        let response := {| status_code := status_code response;
                           headers := set_header "X-Process-Time" (float_repr duration)
                                                 (headers response) |} in
        (Return response,
         (Metrics (http_requests_total m) (http_request_duration m)
                  (active_connections m - 1), t'))
    | (Raise e, t') =>
        let m := Metrics (http_requests_total m
                          ++ [(method request, url_path request, 500%Z)])
                         (http_request_duration m)
                         (active_connections m) in
        (Raise e,
         (Metrics (http_requests_total m) (http_request_duration m)
                  (active_connections m - 1), t'))
    end.
End Middleware.
End Monitoring.

(** ** A Python environment that parses back

    As [TestEnv], with a [json.loads] that recognises the texts of the
    values it is given. *)

Module ParsingEnv.
Definition loads (known : list value) (s : string) : outcome value :=
    match List.find (fun v => String.eqb (TestEnv.dumps v) s) known with
    | Some v => Return v
    | None => Raise ValueError
    end.

Definition env (known : list value) : PyEnv := {|
    uuid4_at := uuid4_at (PyEnv:=TestEnv.env);
    utcnow_at := utcnow_at (PyEnv:=TestEnv.env);
    json_dumps := json_dumps (PyEnv:=TestEnv.env);
    json_loads := loads known;
    float_repr := float_repr (PyEnv:=TestEnv.env);
    container_repr := container_repr (PyEnv:=TestEnv.env);
    User_fields_ok := User_fields_ok (PyEnv:=TestEnv.env)
  |}.
End ParsingEnv.


(** ** Vocabulary of the properties *)

Module Spec.
  (** Reading a trace from its start, the exit of a store write is met
      before any cache invalidation. *)
Fixpoint write_first (tr : list event) : bool :=
    match tr with
    | [] => true
    | EvCacheDelete _ :: _ => false
    | EvWriteEnd _ :: _ => true
    | _ :: tr' => write_first tr'
    end.

Definition is_invalidation (ev : event) : bool :=
    match ev with
    | EvCacheDelete _ => true
    | _ => false
    end.

  (** The trace of one mutating operation: nothing, or one store write
      followed, when the write returned, by invalidations only and, when
      it failed, by nothing. *)
Definition write_then_invalidate (tr : list event) : bool :=
    match tr with
    | [] => true
    | EvWriteBegin _ _ :: EvWriteEnd true :: rest => forallb is_invalidation rest
    | [EvWriteBegin _ _; EvWriteEnd false] => true
    | _ => false
    end.


  (** The prefix of the cached relationship lists of one user. *)
Definition relationships_prefix (user_id : string) : string :=
    "user:" +:+ user_id +:+ ":relationships:".
End Spec.

(** ** Concrete worlds *)

Module Scenario.
  Import Models.

Definition person (uid name : string) : MemGraph.node :=
    MemGraph.Node "User" uid
      [("username", VStr name);
       ("created_at", VStr "2024-01-01T00:00:00");
       ("updated_at", VStr "2024-01-01T00:00:00")].

Definition follows (rid a b : string) : MemGraph.edge :=
    MemGraph.Edge "RELATES_TO" a b
      [("id", VStr rid); ("type", VStr "FOLLOWS"); ("weight", VNum 1)].

Definition world_of (m : gmap string (string * Z)) (faults : list bool)
      (g : MemGraph.state) : world MemRedis.state MemGraph.state :=
    World (MemRedis.State m faults) false g false [] [] 0.

  (** Ann and Bob, not connected. *)
Definition two_users : MemGraph.state :=
    MemGraph.State [person "a" "ann"; person "b" "bob"] [].

  (** Ann follows Bob, Bob follows Cy: Cy is two hops from Ann. *)
Definition chain : MemGraph.state :=
    MemGraph.State [person "a" "ann"; person "b" "bob"; person "c" "cy"]
                   [follows "r1" "a" "b"; follows "r2" "b" "c"].

  (** A fresh cache instance whose server cannot be reached: the handle
      is created, the ping fails. *)
Definition unreachable_cache : world MemRedis.state MemGraph.state :=
    world_of ∅ [false; true] two_users.

  (** A connected cache instance whose server fails the next command. *)
Definition flaky_cache : world MemRedis.state MemGraph.state :=
    with_client true (world_of ∅ [true] two_users).

  (** A cache that holds Ann's relationship list from before she had any. *)
Definition stale_list : gmap string (string * Z) :=
    {[ "user:a:relationships:all" := ("[]", 60%Z) ]}.

Definition ann_follows_bob : RelationshipCreate :=
    {| rc_type := FOLLOWS; rc_properties := None; rc_weight := Some 1%Q;
       from_user_id := "a"; to_user_id := "b"; bidirectional := false |}.

  (** The members of a community of two. *)
Definition ann_and_bob : list pydict := [[("id", VStr "a")]; [("id", VStr "b")]].


  (** Ann as [get_user] caches her: the node with its degree. *)
Definition ann_fields : pydict :=
    [("id", VStr "a"); ("username", VStr "ann");
     ("created_at", VStr "2024-01-01T00:00:00");
     ("updated_at", VStr "2024-01-01T00:00:00");
     ("node_degree", VInt 0)].

Definition ann_text : string := TestEnv.dumps (VDict ann_fields).

Definition ann_cached : gmap string (string * Z) :=
    {[ "user:a" := (ann_text, 300%Z) ]}.

  (** A healthy cache over a store that replays [script]. *)
Definition scripted (m : gmap string (string * Z))
      (script : list (outcome (list pydict)))
      : world MemRedis.state Scripted.state :=
    World (MemRedis.State m []) false (Scripted.State true script) false [] [] 0.

  (** The process over a world, before any request. *)
Definition app_of {G : Type} (w : world MemRedis.state G) : Main.app :=
    Main.App w false [] [] None.

  (** Ann wants to follow Zed, whom the graph does not have. *)
Definition ann_follows_zed : RelationshipCreate :=
    {| rc_type := FOLLOWS; rc_properties := None; rc_weight := Some 1%Q;
       from_user_id := "a"; to_user_id := "zed"; bidirectional := false |}.

  (** A request that took a moment. *)
Definition slow_handler (request : Monitoring.Request) (clock : Q)
      : outcome Monitoring.Response * Q :=
    (Return {| Monitoring.status_code := 200; Monitoring.headers := [] |}, (clock + 2)%Q).

  (** Ann is cached, and the store cannot be reached. *)
Definition store_down : world MemRedis.state Scripted.state :=
    World (MemRedis.State ann_cached []) false (Scripted.State false []) false [] [] 0.

  (** The Python environment that parses Ann's cached text back. *)
Definition parsing : PyEnv := ParsingEnv.env [VDict ann_fields].

  (** Cy signs up. *)
Definition cy : UserCreate :=
    {| uc_username := "cy"; uc_email := None; uc_name := None; uc_bio := None;
       uc_avatar_url := None; uc_location := None; uc_metadata := None;
       uc_tags := None |}.

  (** A row of the relationship listing as the driver renders it: the
      relationship as the triple of start node, type and end node. *)
Definition follows_row : pydict :=
    [("r", VList [MemGraph.node_data (person "a" "ann"); VStr "RELATES_TO";
                  MemGraph.node_data (person "b" "bob")]);
     ("u", MemGraph.node_data (person "a" "ann"));
     ("other", MemGraph.node_data (person "b" "bob"));
     ("direction", VStr "outgoing")].

  (** Two items and a link between them: a graph without a [User]
      node, as bulk creation under another label leaves it. *)
Definition two_items : MemGraph.state :=
    MemGraph.State [MemGraph.Node "Item" "i1" []; MemGraph.Node "Item" "i2" []]
                   [MemGraph.Edge "LINKS" "i1" "i2" []].

End Scenario.

(** ** Vocabulary of the proofs *)

Definition returned {A} (o : outcome A) : bool :=
  match o with
  | Return _ => true
  | Raise _ => false
  end.

Fixpoint last_char (s : string) : option ascii :=
  match s with
  | EmptyString => None
  | String c EmptyString => Some c
  | String _ s' => last_char s'
  end.

Definition node_total (g : MemGraph.state) : Q :=
  inject_Z (Z.of_nat (length (MemGraph.nodes g))).

Definition relationship_total (g : MemGraph.state) : Q :=
  inject_Z (Z.of_nat (length (MemGraph.edges g))).

(** The key-value map held by the in-memory cache server. *)
Definition cached {G : Type} (w : world MemRedis.state G) : gmap string (string * Z) :=
  MemRedis.kv (redis_srv w).

Section Vocabulary.
  Context {R G : Type}.

  (** [m] leaves the component [f] of the world as it found it. *)
Definition preserves {X A} (f : world R G -> X) (m : M R G A) : Prop :=
    forall w r w', m w = (r, w') -> f w' = f w.

  (** A component that the store client never writes. *)
Definition off_store {X} (f : world R G -> X) : Prop :=
    (forall w b, f (with_driver b w) = f w)
    /\ (forall w g, f (with_neo4j g w) = f w)
    /\ (forall w l, f (with_logger l w) = f w).

  (** A component that the cache client never writes. *)
Definition off_cache {X} (f : world R G -> X) : Prop :=
    (forall w b, f (with_client b w) = f w)
    /\ (forall w r, f (with_redis r w) = f w)
    /\ (forall w l, f (with_logger l w) = f w).

  (** What [m] adds to the trace is the trace of one mutating operation. *)
Definition ordered {A} (m : M R G A) : Prop :=
    forall w r w', m w = (r, w') ->
      exists tr, trace w' = trace w ++ tr
                 /\ Spec.write_first tr = true
                 /\ Spec.write_then_invalidate tr = true.
End Vocabulary.

Section Guarded.
  Context {R G : Type} `{RedisServer R} `{PyEnv}.

  (** Establishing the connection fails with [e] on the server [s]:
      creating the handle raises it, or the ping that follows does. *)
Definition connect_fails (s : R) (e : exn) : Prop :=
    (exists s', redis_open s = (Raise e, s'))
    \/ (exists s' s'', redis_open s = (Return tt, s') /\ redis_ping s' = (Raise e, s'')).

  (** The shape shared by the cache operations: connect lazily, then run
      the body under a handler that logs a warning and hands back a
      default. *)
Definition guarded {A} (body : M R G A) (msg : string) (dflt : A) : M R G A :=
    RedisCache.ensure_client ;;;
    try_except body (fun e => log WARNING msg (Some e) ;;; ret dflt).

  (** The text of the warning that each operation logs. *)
Definition warning_of (op : RedisCache.cache_op) : string :=
    match op with
    | RedisCache.OpGet _ => "Cache get error"
    | RedisCache.OpSet _ _ _ => "Cache set error"
    | RedisCache.OpDelete _ => "Cache delete error"
    | RedisCache.OpDeletePattern _ => "Cache delete pattern error"
    | RedisCache.OpGetMany _ => "Cache get_many error"
    | RedisCache.OpSetMany _ _ => "Cache set_many error"
    | RedisCache.OpIncrement _ _ => "Cache increment error"
    | RedisCache.OpGetTTL _ => "Cache get_ttl error"
    end.

  (** What [set] puts on the wire for a value: the JSON text of a dict
      or a list, the encoding of anything else. *)
Definition set_argument (v : value) : outcome string :=
    match v with
    | VDict _ | VList _ => json_dumps v
    | _ => RedisCache.redis_encode v
    end.

  (** The operation [op] fails with [e] on the server [s], which is left
      as [s']: the command that it sends raises [e] (for [delete_pattern],
      the scan of the first page), or, for the two operations that
      serialise, the value cannot be given a text. *)
Definition fails (op : RedisCache.cache_op) (s : R) (e : exn) (s' : R) : Prop :=
    match op with
    | RedisCache.OpGet key => redis_get key s = (Raise e, s')
    | RedisCache.OpSet key v expire =>
        match set_argument v with
        | Raise e0 => e = e0 /\ s' = s
        | Return arg => redis_setex key expire arg s = (Raise e, s')
        end
    | RedisCache.OpDelete key => redis_delete [key] s = (Raise e, s')
    | RedisCache.OpDeletePattern pattern => redis_scan 0 pattern 100 s = (Raise e, s')
    | RedisCache.OpGetMany keys => redis_mget keys s = (Raise e, s')
    | RedisCache.OpSetMany mapping expire =>
        match RedisCache.str_mapping mapping [] with
        | Raise e0 => e = e0 /\ s' = s
        | Return strs =>
            redis_pipeline_setex (map (fun kv => (fst kv, expire, snd kv)) strs) s
            = (Raise e, s')
        end
    | RedisCache.OpIncrement key amount => redis_incrby key amount s = (Raise e, s')
    | RedisCache.OpGetTTL key => redis_ttl key s = (Raise e, s')
    end.

End Guarded.


(** The in-memory cache server has no outage scheduled. *)
Definition healthy {G : Type} (w : world MemRedis.state G) : Prop :=
  MemRedis.faults (redis_srv w) = [].

(** A store write returned among the events [tr]. *)
Definition write_returned (tr : list event) : bool :=
  existsb (fun ev => match ev with
                     | EvWriteEnd true => true
                     | _ => false
                     end) tr.

(** The texts of the store writes begun among the events [tr], in order. *)
Definition writes_begun (tr : list event) : list string :=
  flat_map (fun ev => match ev with
                      | EvWriteBegin query _ => [query]
                      | _ => []
                      end) tr.

(** An identifier without a colon, as the identifiers that the service
    draws are. *)
Fixpoint colon_free (s : string) : bool :=
  match s with
  | EmptyString => true
  | String c s' => negb (Ascii.eqb c ":") && colon_free s'
  end.

(** [m] opens no write transaction: what it adds to the trace holds no
    store write. *)
Definition reads_only {R G A : Type} (m : M R G A) : Prop :=
  forall w r w', m w = (r, w') ->
    exists tr, trace w' = trace w ++ tr /\ writes_begun tr = [].

(** The requests whose handlers go through the cache. *)
Definition uses_cache (req : Main.request) : bool :=
  match req with
  | Main.POST_users _ | Main.GET_users _
  | Main.GET_users_relationships _ _ | Main.POST_relationships _ => true
  | _ => false
  end.

(** The requests whose handlers change the graph. *)
Definition writes_graph (req : Main.request) : bool :=
  match req with
  | Main.POST_users _ | Main.POST_relationships _ | Main.DELETE_relationships _
  | Main.POST_interactions _ | Main.POST_admin_reindex _ => true
  | _ => false
  end.

(** The cache server and the handle of the cache client, as one
    component of the world. *)
Definition cache_side {R G : Type} (w : world R G) : R * bool :=
  (redis_srv w, redis_client w).

(** * Properties *)

Import Models SocialGraphService.

(** ** Reasoning about the monad *)

Section Frames.
  Context {R G : Type} `{RedisServer R} `{GraphStore G} `{PyEnv}.
  Implicit Types w : world R G.

Lemma bind_inv {A B} (m : M R G A) (k : A -> M R G B) w r w' :
    bind m k w = (r, w') ->
    (exists a w1, m w = (Return a, w1) /\ k a w1 = (r, w'))
    \/ (exists e, m w = (Raise e, w') /\ r = Raise e).
  Proof.
    unfold bind. destruct (m w) as [[a|e] w1]; intros E.
    - left. eauto.
    - right. inversion E; subst. eauto.
  Qed.

Lemma preserves_ret {X A} (f : world R G -> X) (a : A) : preserves f (ret a).
  Proof. intros w r w' E. now inversion E. Qed.

Lemma preserves_raise {X A} (f : world R G -> X) e : preserves f (raise (A:=A) e).
  Proof. intros w r w' E. now inversion E. Qed.

Lemma preserves_lift {X A} (f : world R G -> X) (o : outcome A) : preserves f (lift o).
  Proof. intros w r w' E. now inversion E. Qed.

Lemma preserves_bind {X A B} (f : world R G -> X) (m : M R G A) (k : A -> M R G B) :
    preserves f m -> (forall a, preserves f (k a)) -> preserves f (bind m k).
  Proof.
    intros Hm Hk w r w' E. unfold bind in E.
    destruct (m w) as [[a|e] w1] eqn:Em.
    - rewrite (Hk _ _ _ _ E). eauto.
    - inversion E; subst. eauto.
  Qed.

Lemma preserves_try {X A} (f : world R G -> X) (m : M R G A) (h : exn -> M R G A) :
    preserves f m -> (forall e, preserves f (h e)) -> preserves f (try_except m h).
  Proof.
    intros Hm Hh w r w' E. unfold try_except in E.
    destruct (m w) as [[a|e] w1] eqn:Em.
    - inversion E; subst. eauto.
    - rewrite (Hh _ _ _ _ E). eauto.
  Qed.

Lemma preserves_if {X A} (f : world R G -> X) (b : bool) (m1 m2 : M R G A) :
    preserves f m1 -> preserves f m2 -> preserves f (if b then m1 else m2).
  Proof. now destruct b. Qed.

Lemma preserves_use {X A} (f : world R G -> X) (m : M R G A) w r w' :
    preserves f m -> m w = (r, w') -> f w' = f w.
  Proof. intros P E. eapply P; eauto. Qed.
End Frames.

(** A primitive step of the monad: unfold it and read the component off
    the resulting world. *)
Ltac primitive :=
  let w := fresh "w" in
  let E := fresh "E" in
  intros w ? ? E;
  unfold log, emit, draw, redis_call, neo4j_call in E;
  repeat match type of E with
         | context [let (_, _) := ?c in _] => destruct c
         end;
  inversion E; subst; reflexivity.

Ltac frame_with tac :=
  repeat first
    [ apply preserves_ret | apply preserves_raise | apply preserves_lift
    | apply preserves_bind; [|intro] | apply preserves_try; [|intro]
    | apply preserves_if
    | match goal with
      | |- preserves _ (match ?v with _ => _ end) => destruct v
      | |- preserves _ (fun w => (Return tt, _)) => primitive
      end
    | solve [primitive]
    | solve [tac] ].

Ltac frame := frame_with fail.

Section Connections.
  Context {R G : Type} `{RedisServer R} `{GraphStore G} `{PyEnv}.
  Implicit Types w : world R G.

Lemma connect_async_frame {X} (f : world R G -> X) :
    off_store f -> preserves f (Neo4jConnection.connect_async (R:=R)).
  Proof.
    intros (Hd & Hn & Hl). unfold Neo4jConnection.connect_async.
    apply preserves_try; [|intro e; destruct e].
    all: repeat first
      [ apply preserves_raise
      | apply preserves_bind; [|intro]
      | (intros w ? ? E; unfold log, neo4j_call in E;
         repeat match type of E with
                | context [let (_, _) := ?c in _] => destruct c
                end;
         inversion E; subst; rewrite ?Hd, ?Hn, ?Hl; reflexivity) ].
  Qed.

Lemma ensure_driver_frame {X} (f : world R G -> X) :
    off_store f -> preserves f (Neo4jConnection.ensure_driver (R:=R)).
  Proof.
    intros Hf w r w' E. unfold Neo4jConnection.ensure_driver in E.
    destruct (async_driver w); [now inversion E|].
    eapply connect_async_frame; eauto.
  Qed.

Lemma cache_connect_frame {X} (f : world R G -> X) :
    off_cache f -> preserves f (RedisCache.connect (G:=G)).
  Proof.
    intros (Hc & Hr & Hl). unfold RedisCache.connect.
    apply preserves_try; [|intro e].
    all: repeat first
      [ apply preserves_raise
      | apply preserves_bind; [|intro]
      | (intros w ? ? E; unfold log, redis_call in E;
         repeat match type of E with
                | context [let (_, _) := ?c in _] => destruct c
                end;
         inversion E; subst; rewrite ?Hc, ?Hr, ?Hl; reflexivity) ].
  Qed.

Lemma ensure_client_frame {X} (f : world R G -> X) :
    off_cache f -> preserves f (RedisCache.ensure_client (G:=G)).
  Proof.
    intros Hf w r w' E. unfold RedisCache.ensure_client in E.
    destruct (redis_client w); [now inversion E|].
    eapply cache_connect_frame; eauto.
  Qed.

Lemma trace_off_store : off_store (trace (R:=R) (G:=G)).
  Proof. repeat split. Qed.
Lemma trace_off_cache : off_cache (trace (R:=R) (G:=G)).
  Proof. repeat split. Qed.
Lemma redis_srv_off_store : off_store (redis_srv (R:=R) (G:=G)).
  Proof. repeat split. Qed.
Lemma redis_client_off_store : off_store (redis_client (R:=R) (G:=G)).
  Proof. repeat split. Qed.
Lemma neo4j_srv_off_cache : off_cache (neo4j_srv (R:=R) (G:=G)).
  Proof. repeat split. Qed.
Lemma draws_off_store : off_store (draws (R:=R) (G:=G)).
  Proof. repeat split. Qed.
Lemma draws_off_cache : off_cache (draws (R:=R) (G:=G)).
  Proof. repeat split. Qed.
End Connections.

Ltac connections :=
  first [ apply ensure_driver_frame | apply ensure_client_frame
        | apply connect_async_frame | apply cache_connect_frame ];
  first [ apply trace_off_store | apply trace_off_cache | apply redis_srv_off_store
        | apply redis_client_off_store | apply neo4j_srv_off_cache
        | apply draws_off_store | apply draws_off_cache ].

Ltac frames := frame_with connections.

(** ** The events of one call *)

Section Traces.
  Context {R G : Type} `{RedisServer R} `{GraphStore G} `{PyEnv}.
  Implicit Types w : world R G.

Lemma execute_write_trace query params w r w' :
    Neo4jConnection.execute_write query params w = (r, w') ->
    trace w' = trace w ++ [EvWriteBegin query params; EvWriteEnd (returned r)].
  Proof.
    unfold Neo4jConnection.execute_write. unfold bind at 1. cbn [emit].
    set (w0 := with_trace _ w). unfold try_except at 1. unfold bind at 1.
    destruct (Neo4jConnection.ensure_driver w0) as [[[]|e] w2] eqn:E2;
      assert (S2 : trace w2 = trace w0)
        by (eapply preserves_use; [|exact E2]; frames).
    - unfold bind at 1.
      match goal with |- context [try_except ?m ?h w2] =>
        destruct (try_except m h w2) as [[rows'|e] w3] eqn:E3;
        assert (S3 : trace w3 = trace w2)
          by (eapply preserves_use; [|exact E3]; frames)
      end; cbn; intros E; inversion E; subst; cbn;
      rewrite S3, S2; subst w0; cbn; now rewrite <- app_assoc.
    - cbn. intros E; inversion E; subst; cbn.
      rewrite S2; subst w0; cbn. now rewrite <- app_assoc.
  Qed.

Lemma execute_read_trace query params w r w' :
    Neo4jConnection.execute_read query params w = (r, w') ->
    trace w' = trace w ++ [EvReadBegin query params; EvReadEnd (returned r)].
  Proof.
    unfold Neo4jConnection.execute_read. unfold bind at 1. cbn [emit].
    set (w0 := with_trace _ w). unfold try_except at 1. unfold bind at 1.
    destruct (Neo4jConnection.ensure_driver w0) as [[[]|e] w2] eqn:E2;
      assert (S2 : trace w2 = trace w0)
        by (eapply preserves_use; [|exact E2]; frames).
    - unfold bind at 1.
      match goal with |- context [try_except ?m ?h w2] =>
        destruct (try_except m h w2) as [[rows'|e] w3] eqn:E3;
        assert (S3 : trace w3 = trace w2)
          by (eapply preserves_use; [|exact E3]; frames)
      end; cbn; intros E; inversion E; subst; cbn;
      rewrite S3, S2; subst w0; cbn; now rewrite <- app_assoc.
    - cbn. intros E; inversion E; subst; cbn.
      rewrite S2; subst w0; cbn. now rewrite <- app_assoc.
  Qed.

Lemma cache_delete_trace key w r w' :
    RedisCache.delete key w = (r, w') ->
    trace w' = trace w ++ [EvCacheDelete key].
  Proof.
    unfold RedisCache.delete. unfold bind at 1. cbn [emit].
    set (w0 := with_trace _ w). intros E.
    assert (S : trace w' = trace w0) by (eapply preserves_use; [|exact E]; frames).
    rewrite S. reflexivity.
  Qed.

Lemma cache_get_trace key w r w' :
    RedisCache.get key w = (r, w') ->
    trace w' = trace w ++ [EvCacheGet key].
  Proof.
    unfold RedisCache.get. unfold bind at 1. cbn [emit].
    set (w0 := with_trace _ w). intros E.
    assert (S : trace w' = trace w0) by (eapply preserves_use; [|exact E]; frames).
    rewrite S. reflexivity.
  Qed.

Lemma cache_set_trace key v expire w r w' :
    RedisCache.set key v expire w = (r, w') ->
    trace w' = trace w ++ [EvCacheSet key].
  Proof.
    unfold RedisCache.set. unfold bind at 1. cbn [emit].
    set (w0 := with_trace _ w). intros E.
    assert (S : trace w' = trace w0) by (eapply preserves_use; [|exact E]; frames).
    rewrite S. reflexivity.
  Qed.
End Traces.

(** Stepping through a sequence of calls, collecting what each adds to
    the trace. *)
Ltac trace_fact E :=
  first [ apply execute_write_trace in E
        | apply execute_read_trace in E
        | apply cache_delete_trace in E
        | apply cache_get_trace in E
        | apply cache_set_trace in E
        | apply (preserves_use trace) in E; [|solve [frames]] ].

Ltac step E :=
  let T := fresh "T" in
  apply bind_inv in E;
  destruct E as [(? & ? & T & E) | (? & T & ->)];
  trace_fact T.

Ltac chain :=
  repeat match goal with
         | H : trace ?x = _ |- context [trace ?x] => rewrite H; clear H
         end;
  rewrite <- ?app_assoc; cbn [app].

(** ** C4: the store write comes first *)

Section Ordering.
  Context {R G : Type} `{RedisServer R} `{GraphStore G} `{PyEnv}.
  Implicit Types w : world R G.

Ltac close :=
    chain;
    first [ exists []; split; [now rewrite app_nil_r|split; reflexivity]
          | eexists; split; [reflexivity|split; reflexivity] ].

Lemma create_user_ordered user_data : ordered (create_user user_data).
  Proof.
    intros w r w' E. unfold create_user in E.
    do 5 (step E; [|close]). trace_fact E. close.
  Qed.

Lemma update_user_ordered user_id updates : ordered (update_user user_id updates).
  Proof.
    intros w r w' E. unfold update_user in E.
    step E; [|close].
    destruct (update_user_request user_id updates _) as [query params].
    do 2 (step E; [|close]). trace_fact E. close.
  Qed.

Lemma delete_user_ordered user_id : ordered (delete_user user_id).
  Proof.
    intros w r w' E. unfold delete_user in E.
    step E; [trace_fact E|]; close.
  Qed.

Lemma create_relationship_ordered rel_data : ordered (create_relationship rel_data).
  Proof.
    intros w r w' E. unfold create_relationship in E.
    do 7 (step E; [|close]). trace_fact E. close.
  Qed.

Lemma delete_relationship_ordered rel_id : ordered (R:=R) (delete_relationship rel_id).
  Proof.
    intros w r w' E. unfold delete_relationship in E.
    step E; [trace_fact E|]; close.
  Qed.

  (** C4.  For each of the five mutating operations and every behaviour
      of the store and of the cache, the events the operation adds to the
      trace are either none (it failed before reaching the store) or one
      store write, begun and ended, followed by cache invalidations only
      when the write returned and by nothing when it failed: no
      invalidation is issued before the write has completed. *)
Theorem store_write_completes_before_invalidation (m : mutation) w :
    exists tr, trace (mutate m w) = trace w ++ tr
               /\ Spec.write_first tr = true
               /\ Spec.write_then_invalidate tr = true.
  Proof.
    destruct m as [user_data|user_id updates|user_id|rel_data|rel_id]; cbn [mutate].
    - destruct (create_user user_data w) as [r w'] eqn:E.
      exact (create_user_ordered _ _ _ _ E).
    - destruct (update_user user_id updates w) as [r w'] eqn:E.
      exact (update_user_ordered _ _ _ _ _ E).
    - destruct (delete_user user_id w) as [r w'] eqn:E.
      exact (delete_user_ordered _ _ _ _ E).
    - destruct (create_relationship rel_data w) as [r w'] eqn:E.
      exact (create_relationship_ordered _ _ _ _ E).
    - destruct (delete_relationship rel_id w) as [r w'] eqn:E.
      exact (delete_relationship_ordered _ _ _ _ E).
  Qed.
End Ordering.

(** ** C2: which failures the cache operations swallow *)

Section CacheFailures.
  Context {R G : Type} `{RedisServer R} `{PyEnv}.
  Implicit Types w : world R G.

Lemma connect_cases w :
    (exists w', RedisCache.connect w = (Return tt, w')
                /\ redis_client w' = true
                /\ logger w' = logger w ++ [Log INFO "Connected to Redis" None])
    \/ (exists e w', RedisCache.connect w = (Raise e, w')
                /\ logger w' = logger w ++ [Log ERROR "Failed to connect to Redis" (Some e)]).
  Proof.
    unfold RedisCache.connect, try_except, bind, redis_call, log, raise.
    destruct (redis_open (redis_srv w)) as [[[]|e] r1]; cbn.
    - destruct (redis_ping r1) as [[[]|e] r2]; cbn.
      + left. eexists. split; [reflexivity|]. cbn. auto.
      + right. do 2 eexists. split; [reflexivity|]. reflexivity.
    - right. do 2 eexists. split; [reflexivity|]. reflexivity.
  Qed.

Lemma handled_returns {A} (body : M R G A) msg dflt w :
    preserves logger body ->
    exists a w', try_except body (fun e => log WARNING msg (Some e) ;;; ret dflt) w
                 = (Return a, w')
      /\ (logger w' = logger w
          \/ (a = dflt /\ exists e, logger w' = logger w ++ [Log WARNING msg (Some e)])).
  Proof.
    intros Q. unfold try_except.
    destruct (body w) as [[a|e] w1] eqn:E; pose proof (Q _ _ _ E) as L.
    - exists a, w1. auto.
    - cbn. eexists _, _. split; [reflexivity|]. right. split; [reflexivity|].
      exists e. cbn. now rewrite L.
  Qed.

Lemma guarded_connected {A} (body : M R G A) msg dflt w :
    preserves logger body -> redis_client w = true ->
    exists a w', guarded body msg dflt w = (Return a, w')
      /\ (logger w' = logger w
          \/ (a = dflt /\ exists e, logger w' = logger w ++ [Log WARNING msg (Some e)])).
  Proof.
    intros Q C. unfold guarded. unfold bind at 1.
    unfold RedisCache.ensure_client. rewrite C.
    apply handled_returns; assumption.
  Qed.

Lemma guarded_raises {A} (body : M R G A) msg dflt w e w' :
    preserves logger body -> guarded body msg dflt w = (Raise e, w') ->
    redis_client w = false
    /\ logger w' = logger w ++ [Log ERROR "Failed to connect to Redis" (Some e)].
  Proof.
    intros Q E. destruct (redis_client w) eqn:C.
    - destruct (guarded_connected body msg dflt w Q C) as (a & w1 & E1 & _).
      rewrite E1 in E. discriminate E.
    - split; [reflexivity|].
      unfold guarded in E. unfold bind at 1 in E.
      unfold RedisCache.ensure_client in E. rewrite C in E.
      destruct (connect_cases w) as [(w1 & E1 & _ & _) | (e1 & w1 & E1 & L)];
        rewrite E1 in E; cbv beta in E.
      + destruct (handled_returns body msg dflt w1 Q) as (a & w2 & E2 & _).
        rewrite E2 in E. discriminate E.
      + inversion E; subst. exact L.
  Qed.

Lemma connect_raises w e :
    connect_fails (redis_srv w) e -> exists w', RedisCache.connect w = (Raise e, w').
  Proof.
    unfold RedisCache.connect, try_except, bind, redis_call, log, raise.
    intros [[s' E1] | (s' & s'' & E1 & E2)]; rewrite E1; cbn.
    - eauto.
    - rewrite E2. cbn. eauto.
  Qed.

Lemma guarded_propagates {A} (body : M R G A) msg dflt w e :
    redis_client w = false -> connect_fails (redis_srv w) e ->
    exists w', guarded body msg dflt w = (Raise e, w').
  Proof.
    intros C F. unfold guarded. unfold bind at 1.
    unfold RedisCache.ensure_client. rewrite C.
    destruct (connect_raises w e F) as [w' ->]. eauto.
  Qed.

Lemma scan_from_logger fuel pattern : forall cursor w r w',
    RedisCache.scan_from fuel pattern cursor w = Some (r, w') ->
    logger w' = logger w.
  Proof.
    induction fuel as [|fuel IH]; intros cursor w r w' E; [discriminate E|].
    cbn [RedisCache.scan_from] in E.
    destruct (redis_call (redis_scan cursor pattern 100) w) as [[[c ks]|e] w1] eqn:E1;
      assert (L1 : logger w1 = logger w)
        by (eapply preserves_use; [|exact E1]; frame).
    - destruct ks as [|k ks].
      + cbn in E. destruct (c =? 0)%Z.
        * inversion E; subst; auto.
        * rewrite (IH _ _ _ _ E). exact L1.
      + destruct (redis_call (redis_delete (k :: ks)) w1) as [[n|e] w2] eqn:E2;
          assert (L2 : logger w2 = logger w1)
            by (eapply preserves_use; [|exact E2]; frame).
        * destruct (c =? 0)%Z.
          -- inversion E; subst. congruence.
          -- rewrite (IH _ _ _ _ E). congruence.
        * inversion E; subst. congruence.
    - inversion E; subst; auto.
  Qed.

Lemma delete_pattern_connected fuel pattern w :
    redis_client w = true ->
    RedisCache.delete_pattern fuel pattern w = None
    \/ exists w', RedisCache.delete_pattern fuel pattern w = Some (Return tt, w')
         /\ (logger w' = logger w
             \/ exists e, logger w' = logger w
                            ++ [Log WARNING "Cache delete pattern error" (Some e)]).
  Proof.
    intros C. unfold RedisCache.delete_pattern, RedisCache.ensure_client. rewrite C.
    destruct (RedisCache.scan_from fuel pattern 0 w) as [[[[]|e] w1]|] eqn:E; [| |now left];
      right; pose proof (scan_from_logger _ _ _ _ _ _ E) as L.
    - eexists; split; [reflexivity|]. now left.
    - cbn. eexists; split; [reflexivity|]. right. exists e. cbn. now rewrite L.
  Qed.

Lemma delete_pattern_raises fuel pattern w e w' :
    RedisCache.delete_pattern fuel pattern w = Some (Raise e, w') ->
    redis_client w = false
    /\ logger w' = logger w ++ [Log ERROR "Failed to connect to Redis" (Some e)].
  Proof.
    intros E. destruct (redis_client w) eqn:C.
    - destruct (delete_pattern_connected fuel pattern w C) as [E1 | (w1 & E1 & _)];
        rewrite E1 in E; discriminate E.
    - split; [reflexivity|].
      unfold RedisCache.delete_pattern, RedisCache.ensure_client in E. rewrite C in E.
      destruct (connect_cases w) as [(w1 & E1 & C1 & _) | (e1 & w1 & E1 & L)];
        rewrite E1 in E.
      + destruct (RedisCache.scan_from fuel pattern 0 w1) as [[[[]|e2] w2]|];
          cbn in E; discriminate E.
      + inversion E; subst. exact L.
  Qed.

  (** A connected operation whose body raises hands back its default
      and logs the warning. *)
Lemma guarded_fails {A} (body : M R G A) msg dflt w e w1 :
    redis_client w = true -> body w = (Raise e, w1) ->
    guarded body msg dflt w
    = (Return dflt, with_logger (logger w1 ++ [Log WARNING msg (Some e)]) w1).
  Proof.
    intros C E. unfold guarded. unfold bind at 1.
    unfold RedisCache.ensure_client. rewrite C.
    unfold try_except. rewrite E. reflexivity.
  Qed.

  (** Every operation but [delete_pattern] is a guarded body run after at
      most one trace event; the body raises when the operation fails on
      the server. *)
Lemma op_shape fuel op w :
    (exists p, op = RedisCache.OpDeletePattern p)
    \/ exists (A : Type) (body : M R G A) (dflt : A)
              (f : A -> RedisCache.cache_result) (w0 : world R G),
         preserves logger body
         /\ logger w0 = logger w /\ redis_client w0 = redis_client w
         /\ redis_srv w0 = redis_srv w
         /\ f dflt = RedisCache.degraded op
         /\ RedisCache.run_op fuel op w
            = RedisCache.total f (guarded body (warning_of op) dflt) w0
         /\ (forall e s', fails op (redis_srv w) e s' ->
               exists w1, body w0 = (Raise e, w1)
                          /\ redis_srv w1 = s' /\ logger w1 = logger w)
         /\ (forall p, op <> RedisCache.OpDeletePattern p)
         /\ (forall n, RedisCache.run_op n op w = RedisCache.run_op fuel op w).
  Proof.
Local Ltac shape_facts :=
      split;
      [|do 5 (split; [reflexivity|]);
        split; [|split; [intros ?; discriminate|intros ?; reflexivity]]];
      [frame|].
    destruct op; [right|right|right|left; eauto|right|right|right|right].
    - eexists (option string), _, None,
        RedisCache.ResValue, (with_trace (trace w ++ [EvCacheGet key]) w).
      shape_facts.
      intros e s' F. cbn [fails] in F. unfold redis_call. cbn [redis_srv with_trace].
      rewrite F. eexists. repeat split.
    - eexists bool, _, false,
        RedisCache.ResBool, (with_trace (trace w ++ [EvCacheSet key]) w).
      shape_facts.
      intros e s' F. cbn [fails] in F. unfold set_argument in F.
      set (w0 := with_trace _ w).
      assert (Hsend : forall arg, redis_setex key expire arg (redis_srv w) = (Raise e, s') ->
                exists w1, (redis_call (redis_setex key expire arg) ;;; ret true) w0
                           = (Raise e, w1)
                           /\ redis_srv w1 = s' /\ logger w1 = logger w).
      { intros arg Hs. unfold bind, redis_call. cbn [redis_srv with_trace w0].
        rewrite Hs. eexists. repeat split. }
      destruct v; cbn [RedisCache.redis_encode] in F;
        try (destruct (Hsend _ F) as (w1 & E1 & S1 & L1); exists w1;
             split; [exact E1|split; assumption]);
        try (apply proj1 in F as He; apply proj2 in F; subst; eexists; repeat split; fail).
      + unfold bind at 1. unfold bind at 1. unfold lift at 1.
        destruct (json_dumps (VList l)) as [t|e0].
        * cbn [ret]. unfold bind at 1. unfold lift at 1. cbn [RedisCache.redis_encode].
          destruct (Hsend _ F) as (w1 & E1 & S1 & L1). exists w1.
          split; [exact E1|split; assumption].
        * destruct F as [-> ->]. eexists. repeat split.
      + unfold bind at 1. unfold bind at 1. unfold lift at 1.
        destruct (json_dumps (VDict d)) as [t|e0].
        * cbn [ret]. unfold bind at 1. unfold lift at 1. cbn [RedisCache.redis_encode].
          destruct (Hsend _ F) as (w1 & E1 & S1 & L1). exists w1.
          split; [exact E1|split; assumption].
        * destruct F as [-> ->]. eexists. repeat split.
    - eexists unit, _, tt,
        (fun _ => RedisCache.ResNone), (with_trace (trace w ++ [EvCacheDelete key]) w).
      shape_facts.
      intros e s' F. cbn [fails] in F. unfold bind, redis_call. cbn [redis_srv with_trace].
      rewrite F. eexists. repeat split.
    - eexists pydict, _, [], RedisCache.ResDict, w.
      shape_facts.
      intros e s' F. cbn [fails] in F. unfold bind, redis_call.
      rewrite F. eexists. repeat split.
    - eexists bool, _, false, RedisCache.ResBool, w.
      shape_facts.
      intros e s' F. cbn [fails] in F. unfold bind at 1. unfold lift at 1.
      destruct (RedisCache.str_mapping mapping []) as [strs|e0].
      + unfold bind, redis_call. rewrite F. eexists. repeat split.
      + destruct F as [-> ->]. eexists. repeat split.
    - eexists Z, _, 0%Z, RedisCache.ResInt, w.
      shape_facts.
      intros e s' F. cbn [fails] in F. unfold redis_call.
      rewrite F. eexists. repeat split.
    - eexists Z, _, (-1)%Z, RedisCache.ResInt, w.
      shape_facts.
      intros e s' F. cbn [fails] in F. unfold redis_call.
      rewrite F. eexists. repeat split.
  Qed.

  (** A loop of [delete_pattern] that raises leaves one warning. *)
Lemma delete_pattern_fails fuel pattern w e w1 :
    redis_client w = true ->
    RedisCache.scan_from fuel pattern 0 w = Some (Raise e, w1) ->
    RedisCache.delete_pattern fuel pattern w
    = Some (Return tt,
            with_logger (logger w1 ++ [Log WARNING "Cache delete pattern error" (Some e)]) w1).
  Proof.
    intros C E. unfold RedisCache.delete_pattern, RedisCache.ensure_client.
    rewrite C, E. reflexivity.
  Qed.

  (** C2, amended.  On an instance that is already connected no cache
      operation raises, whatever the server does: the operation hands
      back either its result, with nothing logged, or the value of its
      [except] branch (a miss, an empty dict, [False], 0, -1, nothing)
      with its own warning logged.  Whenever the operation fails on the
      server (the command it sends raises, or the value of [set] or
      [set_many] cannot be given a text), and whenever a later command of
      the loop of [delete_pattern] raises, that is what happens: the
      default comes back and the one warning, carrying the exception, is
      logged.  Only [delete_pattern] can still be scanning when the fuel
      runs out.  An exception reaches the caller only from the lazy
      connection of a fresh instance, after it was logged as an error;
      and when that connection fails, the failure does reach the
      caller. *)
Theorem cache_failures_degrade_but_connect_failures_escape
      (fuel : nat) (op : RedisCache.cache_op) w :
    (redis_client w = true ->
       (forall e w', RedisCache.run_op fuel op w <> Some (Raise e, w'))
       /\ (forall r w', RedisCache.run_op fuel op w = Some (Return r, w') ->
             logger w' = logger w
             \/ (r = RedisCache.degraded op
                 /\ exists e,
                      logger w' = logger w ++ [Log WARNING (warning_of op) (Some e)]))
       /\ (forall e s', fails op (redis_srv w) e s' ->
             exists w', RedisCache.run_op (S fuel) op w
                        = Some (Return (RedisCache.degraded op), w')
                        /\ redis_srv w' = s'
                        /\ logger w'
                           = logger w ++ [Log WARNING (warning_of op) (Some e)])
       /\ (forall pattern e w1,
             op = RedisCache.OpDeletePattern pattern ->
             RedisCache.scan_from fuel pattern 0 w = Some (Raise e, w1) ->
             RedisCache.run_op fuel op w
             = Some (Return (RedisCache.degraded op),
                     with_logger (logger w ++ [Log WARNING (warning_of op) (Some e)]) w1))
       /\ (RedisCache.run_op fuel op w = None ->
             exists p, op = RedisCache.OpDeletePattern p))
    /\ (forall e w', RedisCache.run_op fuel op w = Some (Raise e, w') ->
          redis_client w = false
          /\ logger w' = logger w ++ [Log ERROR "Failed to connect to Redis" (Some e)])
    /\ (forall e, redis_client w = false -> connect_fails (redis_srv w) e ->
          exists w', RedisCache.run_op fuel op w = Some (Raise e, w')).
  Proof.
    destruct (op_shape fuel op w)
      as [[p ->] | (A & body & dflt & f & w0 & Q & L0 & C0 & S0 & D & E & Hf & Hnp & Hfuel)].
    - cbn [RedisCache.run_op]. split; [|split].
      3:{ intros e C F. unfold RedisCache.delete_pattern, RedisCache.ensure_client.
          rewrite C. destruct (connect_raises w e F) as [w' ->]. eauto. }
      + intros C. split; [|split; [|split; [|split]]].
        * destruct (delete_pattern_connected fuel p w C) as [E | (w1 & E & L)];
            rewrite E; discriminate.
        * destruct (delete_pattern_connected fuel p w C) as [E | (w1 & E & L)];
            rewrite E; [discriminate|].
          intros r w' X. inversion X; subst.
          destruct L as [L | [e L]]; [now left|right; eauto].
        * intros e s' F. cbn [fails] in F.
          assert (Es : RedisCache.scan_from (S fuel) p 0 w
                       = Some (Raise e, with_redis s' w)).
          { cbn [RedisCache.scan_from]. unfold redis_call. now rewrite F. }
          rewrite (delete_pattern_fails _ _ _ _ _ C Es).
          eexists. split; [reflexivity|]. split; reflexivity.
        * intros pattern e w1 Hp Hs. injection Hp as <-.
          rewrite (delete_pattern_fails _ _ _ _ _ C Hs).
          now rewrite (scan_from_logger _ _ _ _ _ _ Hs).
        * destruct (delete_pattern_connected fuel p w C) as [E | (w1 & E & L)];
            rewrite E; [eauto|discriminate].
      + intros e w' X.
        destruct (RedisCache.delete_pattern fuel p w) as [[[[]|e1] w1]|] eqn:E;
          try discriminate X.
        inversion X; subst. eapply delete_pattern_raises; eauto.
    - pose proof (Hfuel (S fuel)) as E'.
      rewrite E. unfold RedisCache.total. split; [|split].
      3:{ intros e C F. rewrite <- C0 in C. rewrite <- S0 in F.
          destruct (guarded_propagates body (warning_of op) dflt w0 e C F) as [w' ->]. eauto. }
      + intros C. rewrite <- C0 in C.
        destruct (guarded_connected body (warning_of op) dflt w0 Q C) as (a & w1 & E1 & L).
        split; [|split; [|split; [|split]]].
        * rewrite E1. discriminate.
        * rewrite E1. intros r w' X. inversion X; subst. rewrite <- L0.
          destruct L as [L | [-> [e L]]]; [now left|right]. split; [exact D|eauto].
        * intros e s' F. destruct (Hf e s' F) as (w1' & Eb & Sb & Lb).
          rewrite E', E. unfold RedisCache.total.
          rewrite (guarded_fails body (warning_of op) dflt w0 e w1' C Eb).
          eexists. split; [now rewrite D|]. split; [exact Sb|]. cbn. now rewrite Lb.
        * intros pattern e w1' Hp _. exfalso. exact (Hnp pattern Hp).
        * rewrite E1. discriminate.
      + intros e w' X.
        destruct (guarded body (warning_of op) dflt w0) as [[a|e1] w1] eqn:E1;
          inversion X; subst.
        rewrite <- L0, <- C0. eapply guarded_raises; eauto.
  Qed.
End CacheFailures.

(** On the in-memory server the scan of [delete_pattern] ends: the
    cursor walks the slots once. *)
Section MemScan.
  Context {G : Type} `{PyEnv}.
  Implicit Types w : world MemRedis.state G.

Lemma mem_scan_from_ends pattern : forall n cursor w,
    (0 <= cursor < MemRedis.slots)%Z -> n = Z.to_nat (MemRedis.slots - cursor) ->
    exists r w', RedisCache.scan_from n pattern cursor w = Some (r, w').
  Proof.
    induction n as [|n IH]; intros cursor w Hc Hn.
    - unfold MemRedis.slots in *. lia.
    - cbn [RedisCache.scan_from].
      assert (Hs : exists o w1, redis_call (redis_scan cursor pattern 100) w = (o, w1)
                /\ match o with
                   | Return (c', _) =>
                       c' = (if (cursor + 1 <? MemRedis.slots)%Z then (cursor + 1)%Z else 0%Z)
                   | Raise _ => True
                   end).
      { unfold redis_call. cbn. unfold MemRedis.command, MemRedis.do_scan.
        assert (Hr : ((0 <=? cursor) && (cursor <? MemRedis.slots))%Z = true).
        { apply andb_true_intro. split; [apply Z.leb_le|apply Z.ltb_lt]; lia. }
        rewrite Hr.
        destruct (MemRedis.faults (redis_srv w)) as [|[] rest]; cbn;
          (do 2 eexists; split; [reflexivity|]; cbn; auto). }
      destruct Hs as (o & w1 & -> & Ho).
      destruct o as [[c' ks]|e]; [|eauto].
      destruct (match ks with
                | [] => ret 0%Z
                | _ :: _ => redis_call (redis_delete ks)
                end w1) as [[d|e] w2]; [|eauto].
      subst c'. destruct (cursor + 1 <? MemRedis.slots)%Z eqn:Hlt.
      + apply Z.ltb_lt in Hlt.
        replace (cursor + 1 =? 0)%Z with false by (symmetry; apply Z.eqb_neq; lia).
        apply IH; [lia|]. unfold MemRedis.slots in *. lia.
      + cbn. eauto.
  Qed.

Lemma mem_delete_pattern_ends pattern w :
    exists r w', RedisCache.delete_pattern 8 pattern w = Some (r, w').
  Proof.
    unfold RedisCache.delete_pattern.
    destruct (RedisCache.ensure_client w) as [[[]|e] w1]; [|eauto].
    destruct (mem_scan_from_ends pattern 8 0 w1) as (r & w2 & ->);
      [unfold MemRedis.slots; lia|reflexivity|].
    destruct r; cbn; eauto.
  Qed.
End MemScan.

(** ** The cache contents on the in-memory server *)

Section MemCache.
  Context {G : Type} `{GraphStore G} `{PyEnv}.
  Implicit Types w : world MemRedis.state G.

Lemma command_kv {A} (f : gmap string (string * Z) -> outcome A * gmap string (string * Z))
      (s : MemRedis.state) :
    (exists rest, MemRedis.command f s = (Raise ConnectionError, MemRedis.State (MemRedis.kv s) rest))
    \/ (exists rest, MemRedis.command f s
                     = (fst (f (MemRedis.kv s)), MemRedis.State (snd (f (MemRedis.kv s))) rest)).
  Proof.
    unfold MemRedis.command.
    destruct (MemRedis.faults s) as [|[] rest]; [right|left|right];
      try (destruct (f (MemRedis.kv s)); eauto); eauto.
  Qed.

  (** A command that reads. *)
Lemma reading_call {A} (g : gmap string (string * Z) -> outcome A) :
    preserves cached (redis_call (G:=G) (MemRedis.command (fun m => (g m, m)))).
  Proof.
    intros w r w' E. unfold redis_call in E.
    destruct (command_kv (fun m => (g m, m)) (redis_srv w)) as [[rest C]|[rest C]];
      rewrite C in E; inversion E; subst; reflexivity.
  Qed.

Lemma connect_cached : preserves cached (RedisCache.connect (G:=G)).
  Proof.
    unfold RedisCache.connect.
    apply preserves_try; [|intro; frame].
    apply preserves_bind; [apply (reading_call (fun _ => Return tt))|intro].
    apply preserves_bind; [primitive|intro].
    apply preserves_bind; [apply (reading_call (fun _ => Return tt))|intro].
    frame.
  Qed.

Lemma ensure_client_cached : preserves cached (RedisCache.ensure_client (G:=G)).
  Proof.
    intros w r w' E. unfold RedisCache.ensure_client in E.
    destruct (redis_client w); [now inversion E|].
    eapply connect_cached; eauto.
  Qed.

Lemma get_cached key : preserves cached (RedisCache.get (G:=G) key).
  Proof.
    unfold RedisCache.get.
    apply preserves_bind; [primitive|intro].
    apply preserves_bind; [apply ensure_client_cached|intro].
    apply preserves_try; [|intro; frame].
    apply (reading_call (fun m => Return (fst <$> m !! key))).
  Qed.

Lemma execute_read_cached query params :
    preserves cached (Neo4jConnection.execute_read (R:=MemRedis.state) query params).
  Proof.
    intros w r w' E. unfold cached. f_equal.
    eapply (preserves_use redis_srv); [|exact E].
    unfold Neo4jConnection.execute_read. frames.
  Qed.

Lemma execute_write_cached query params :
    preserves cached (Neo4jConnection.execute_write (R:=MemRedis.state) query params).
  Proof.
    intros w r w' E. unfold cached. f_equal.
    eapply (preserves_use redis_srv); [|exact E].
    unfold Neo4jConnection.execute_write. frames.
  Qed.

Lemma ensure_client_connected w r w' :
    RedisCache.ensure_client w = (Return r, w') -> redis_client w' = true.
  Proof.
    unfold RedisCache.ensure_client. destruct (redis_client w) eqn:C.
    - intros E. inversion E; subst. exact C.
    - intros E.
      destruct (connect_cases w) as [(w1 & E1 & C1 & _) | (e1 & w1 & E1 & _)];
        rewrite E1 in E; inversion E; subst. exact C1.
  Qed.

Lemma get_connected key w c w' :
    RedisCache.get key w = (Return c, w') -> redis_client w' = true.
  Proof.
    unfold RedisCache.get. unfold bind at 1. cbn [emit].
    set (w0 := with_trace _ w). intros E.
    apply bind_inv in E. destruct E as [([] & w1 & E1 & E) | (e & E1 & X)]; [|discriminate X].
    apply ensure_client_connected in E1. rewrite <- E1.
    eapply (preserves_use redis_client); [|exact E]. frame.
  Qed.

  (** A key that the server does not hold is a miss, with or without an
      outage. *)
Lemma get_absent key w :
    redis_client w = true -> cached w !! key = None ->
    exists w', RedisCache.get key w = (Return None, w').
  Proof.
    intros C K. unfold RedisCache.get. unfold bind at 1. cbn [emit].
    set (w0 := with_trace _ w). unfold bind at 1.
    unfold RedisCache.ensure_client. change (redis_client w0) with (redis_client w).
    rewrite C. unfold try_except, redis_call. cbn [redis_get MemRedis.server].
    destruct (command_kv (fun m => (Return (fst <$> m !! key), m)) (redis_srv w0))
      as [[rest X]|[rest X]]; rewrite X.
    - cbn. eauto.
    - change (MemRedis.kv (redis_srv w0)) with (cached w). rewrite K. cbn. eauto.
  Qed.
End MemCache.

(** ** C10: a user that is not found is not cached *)

Section NotFound.
  Context {G : Type} `{GraphStore G} `{PyEnv}.
  Implicit Types w : world MemRedis.state G.

Lemma get_user_from_store_reads user_id w r w' :
    get_user_from_store user_id w = (r, w') ->
    exists tr, trace w' = trace w
                 ++ EvReadBegin Cypher.get_user_query [("id", VStr user_id)] :: tr.
  Proof.
    intros E. unfold get_user_from_store in E.
    step E; [|chain; eexists; reflexivity].
    match type of E with (match ?rows with _ => _ end) _ = _ => destruct rows as [|r0 rows] end.
    - trace_fact E. chain. eexists; reflexivity.
    - step E; [|chain; eexists; reflexivity].
      step E; [|chain; eexists; reflexivity].
      match type of E with (match ?v with _ => _ end) _ = _ => destruct v end;
        try (trace_fact E; chain; eexists; reflexivity).
      step E; [|chain; eexists; reflexivity].
      step E; [|chain; eexists; reflexivity].
      trace_fact E. chain. eexists; reflexivity.
  Qed.

  (** C10.  When the cache lookup of [get_user] misses and the store has
      no such user, [get_user] returns the absent result; the cache holds
      what it held before, the only cache command issued being the
      lookup; and as long as the key is absent from the cache, the next
      [get_user] for that id goes to the store again. *)
Theorem get_user_not_found_is_not_cached (user_id : string) w w1 w2 c :
    RedisCache.get ("user:" +:+ user_id) w = (Return c, w1) ->
    cache_hit c = false ->
    Neo4jConnection.execute_read Cypher.get_user_query [("id", VStr user_id)] w1
    = (Return [], w2) ->
    get_user user_id w = (Return None, w2)
    /\ cached w2 = cached w
    /\ trace w2 = trace w ++ [EvCacheGet ("user:" +:+ user_id);
                              EvReadBegin Cypher.get_user_query [("id", VStr user_id)];
                              EvReadEnd true]
    /\ (cached w !! ("user:" +:+ user_id) = None ->
        forall r w3, get_user user_id w2 = (r, w3) ->
          exists tr, trace w3 = trace w2
                       ++ EvCacheGet ("user:" +:+ user_id)
                       :: EvReadBegin Cypher.get_user_query [("id", VStr user_id)] :: tr).
  Proof.
    intros Hget Hmiss Hread.
    assert (K : cached w2 = cached w).
    { rewrite (execute_read_cached _ _ _ _ _ Hread). exact (get_cached _ _ _ _ Hget). }
    repeat split.
    - unfold get_user. unfold bind at 1. rewrite Hget, Hmiss.
      unfold get_user_from_store. unfold bind at 1. rewrite Hread. reflexivity.
    - exact K.
    - rewrite (execute_read_trace _ _ _ _ _ Hread), (cache_get_trace _ _ _ _ Hget).
      now rewrite <- app_assoc.
    - intros Habs r w3 E.
      assert (C2 : redis_client w2 = true).
      { assert (P : preserves redis_client
                      (Neo4jConnection.execute_read (R:=MemRedis.state)
                         Cypher.get_user_query [("id", VStr user_id)]))
          by (unfold Neo4jConnection.execute_read; frames).
        rewrite (P _ _ _ Hread). exact (get_connected _ _ _ _ Hget). }
      rewrite <- K in Habs.
      destruct (get_absent _ w2 C2 Habs) as (w2' & Hget2).
      unfold get_user in E. unfold bind at 1 in E. rewrite Hget2 in E. cbn [cache_hit] in E.
      destruct (get_user_from_store_reads _ _ _ _ E) as [tr T].
      exists tr. rewrite T, (cache_get_trace _ _ _ _ Hget2).
      now rewrite <- app_assoc.
  Qed.
End NotFound.

(** ** C1: what the relationship mutations invalidate *)

Lemma last_char_app (s1 s2 : string) :
  s2 <> "" -> last_char (s1 +:+ s2) = last_char s2.
Proof.
  intros Hne. induction s1 as [|c s1 IH]; [reflexivity|].
  rewrite <- IH. simpl.
  destruct (s1 +:+ s2) eqn:E; [|reflexivity].
  destruct s1; simpl in E; [contradiction|discriminate E].
Qed.

Lemma append_nonempty (s1 s2 : string) : s2 <> "" -> s1 +:+ s2 <> "".
Proof. destruct s1; simpl; [auto|discriminate]. Qed.

(** The key that [create_relationship] deletes is never the key under
    which the unfiltered list of any user is cached. *)
Lemma invalidated_key_is_not_a_list_key (endpoint user_id : string) :
  "user:" +:+ endpoint +:+ ":relationships" <> relationships_cache_key user_id None.
Proof.
  intros E. apply (f_equal last_char) in E.
  unfold relationships_cache_key in E. cbn [cache_hit] in E.
  rewrite !last_char_app in E by (repeat apply append_nonempty; discriminate).
  discriminate E.
Qed.

Section StaleLists.
  Context {G : Type} `{GraphStore G} `{PyEnv}.
  Implicit Types w : world MemRedis.state G.

Lemma delete_cached key k w r w' :
    k <> key -> RedisCache.delete key w = (r, w') -> cached w' !! k = cached w !! k.
  Proof.
    intros Hne E. unfold RedisCache.delete in E. unfold bind at 1 in E. cbn [emit] in E.
    set (w0 := with_trace _ w) in E. change (cached w !! k) with (cached w0 !! k).
    apply bind_inv in E. destruct E as [([] & w1 & E1 & E) | (e & E1 & _)].
    - rewrite <- (ensure_client_cached _ _ _ E1 : cached w1 = cached w0).
      unfold try_except in E.
      match type of E with
      | context [bind ?m ?k w1] => destruct (bind m k w1) as [[a|e] w2] eqn:E2
      end.
      + inversion E; subst. apply bind_inv in E2.
        destruct E2 as [(n & w3 & E3 & E4) | (e & _ & X)]; [|discriminate X].
        inversion E4; subst. unfold redis_call in E3. cbn [redis_delete MemRedis.server] in E3.
        destruct (command_kv (MemRedis.do_delete [key]) (redis_srv w1)) as [[rest X]|[rest X]];
          rewrite X in E3; inversion E3; subst; unfold cached; cbn;
          first [reflexivity|now apply lookup_delete_ne].
      + assert (K : cached w' = cached w2) by (eapply (preserves_use cached); [|exact E]; frame).
        rewrite K. clear E K. apply bind_inv in E2.
        destruct E2 as [(n & w3 & E3 & E4) | (e' & E3 & _)]; [discriminate E4|].
        unfold redis_call in E3. cbn [redis_delete MemRedis.server] in E3.
        destruct (command_kv (MemRedis.do_delete [key]) (redis_srv w1)) as [[rest X]|[rest X]];
          rewrite X in E3; inversion E3; subst; unfold cached; cbn;
          first [reflexivity|now apply lookup_delete_ne].
    - now rewrite (ensure_client_cached _ _ _ E1 : cached w' = cached w0).
  Qed.

Lemma create_relationship_keeps_lists rel_data user_id :
    preserves (fun w => cached w !! relationships_cache_key user_id None)
              (create_relationship (R:=MemRedis.state) (G:=G) rel_data).
  Proof.
    unfold create_relationship.
    repeat first
      [ (intros w ? ? E; rewrite (execute_write_cached _ _ _ _ _ E); reflexivity)
      | (intros w ? ? E; eapply delete_cached; [|exact E];
         apply not_eq_sym, invalidated_key_is_not_a_list_key)
      | apply preserves_ret | apply preserves_lift
      | apply preserves_bind; [|intro] | apply preserves_if
      | solve [primitive] ].
  Qed.

  (** C1.  The code does not do what the claim says.  Whatever the cache
      holds under a user's unfiltered relationship-list key before
      [create_relationship] runs, it still holds afterwards, for every
      request and every behaviour of the store and of the cache; and
      [delete_relationship] leaves the whole cache as it was. *)
Theorem relationship_mutations_keep_cached_lists :
    (forall rel_data user_id w r w',
       create_relationship rel_data w = (r, w') ->
       cached w' !! relationships_cache_key user_id None
       = cached w !! relationships_cache_key user_id None)
    /\ (forall rel_id w r w',
          delete_relationship rel_id w = (r, w') -> redis_srv w' = redis_srv w).
  Proof.
    split.
    - intros rel_data user_id w r w' E.
      exact (create_relationship_keeps_lists rel_data user_id _ _ _ E).
    - intros rel_id w r w' E. eapply (preserves_use redis_srv); [|exact E].
      unfold delete_relationship, Neo4jConnection.execute_write. frames.
  Qed.
End StaleLists.

(** ** Calls on the in-memory graph store *)

Section MemStore.
  Context {R : Type} `{RedisServer R} `{PyEnv}.
  Implicit Types w : world R MemGraph.state.

Lemma mem_ensure_driver w :
    exists w', Neo4jConnection.ensure_driver w = (Return tt, w')
               /\ neo4j_srv w' = neo4j_srv w.
  Proof.
    unfold Neo4jConnection.ensure_driver. destruct (async_driver w); [eauto|].
    eexists. split; reflexivity.
  Qed.

  (** A write transaction runs the query on the graph and keeps what it
      left. *)
Lemma mem_execute_write query params w :
    exists w', Neo4jConnection.execute_write query params w
               = (fst (MemGraph.run_write query params (neo4j_srv w)), w')
               /\ neo4j_srv w' = snd (MemGraph.run_write query params (neo4j_srv w)).
  Proof.
    unfold Neo4jConnection.execute_write. unfold bind at 1. cbn [emit].
    set (w0 := with_trace _ w). unfold try_except at 1. unfold bind at 1.
    destruct (mem_ensure_driver w0) as (w1 & -> & G1).
    unfold bind at 1. unfold try_except, neo4j_call. cbn [neo4j_write MemGraph.store].
    rewrite G1. change (neo4j_srv w0) with (neo4j_srv w).
    destruct (MemGraph.run_write query params (neo4j_srv w)) as [[rows|e] g']; cbn;
      eexists; split; reflexivity.
  Qed.

  (** A read transaction answers from the graph and leaves it alone. *)
Lemma mem_execute_read query params w :
    exists w', Neo4jConnection.execute_read query params w
               = (MemGraph.run_read query params (neo4j_srv w), w')
               /\ neo4j_srv w' = neo4j_srv w.
  Proof.
    unfold Neo4jConnection.execute_read. unfold bind at 1. cbn [emit].
    set (w0 := with_trace _ w). unfold try_except at 1. unfold bind at 1.
    destruct (mem_ensure_driver w0) as (w1 & -> & G1).
    unfold bind at 1. unfold try_except, neo4j_call. cbn [neo4j_read MemGraph.store].
    rewrite G1. change (neo4j_srv w0) with (neo4j_srv w).
    destruct (MemGraph.run_read query params (neo4j_srv w)) as [rows|e]; cbn;
      eexists; split; reflexivity.
  Qed.

Lemma cache_delete_store key :
    preserves neo4j_srv (RedisCache.delete (R:=R) (G:=MemGraph.state) key).
  Proof. unfold RedisCache.delete. frames. Qed.
End MemStore.

(** Deciding which of the fixed texts a query is. *)
Ltac dispatch :=
  repeat match goal with
         | |- context [String.eqb ?a ?b] =>
             let v := eval vm_compute in (String.eqb a b) in
             change (String.eqb a b) with v; cbv iota
         end.


(** ** C8: a bidirectional request makes two relationships *)



Section Bidirectional.
  Context {R : Type} `{RedisServer R} `{PyEnv}.
  Implicit Types w : world R MemGraph.state.




End Bidirectional.


(** ** C9: the average degree *)






Lemma py_div_positive (a b : Q) : (0 < b)%Q -> py_div a b = Return (a / b)%Q.
Proof.
  intros Hb. unfold py_div. destruct (Qeq_bool b 0) eqn:E; [|reflexivity].
  apply Qeq_bool_eq in E. lra.
Qed.

Lemma anchored_has_user g :
  MemGraph.anchored g = true -> MemGraph.edges g <> [] ->
  List.filter (fun n => String.eqb (MemGraph.node_label n) "User") (MemGraph.nodes g) <> [].
Proof.
  intros Ha He. destruct (MemGraph.edges g) as [|e es] eqn:E; [contradiction|].
  unfold MemGraph.anchored in Ha. rewrite E in Ha. cbn in Ha.
  apply andb_prop in Ha as [Hu _].
  assert (Hx : exists uid, MemGraph.user_exists g uid = true).
  { apply orb_prop in Hu as [Hu|Hu]; eauto. }
  destruct Hx as [uid Hx]. unfold MemGraph.user_exists in Hx.
  apply existsb_exists in Hx as (n & Hin & Hn).
  unfold MemGraph.is_user in Hn. apply andb_prop in Hn as [Hl _].
  intros Hnil.
  assert (Hf : In n (List.filter (fun n => String.eqb (MemGraph.node_label n) "User")
                                 (MemGraph.nodes g))) by (apply filter_In; auto).
  rewrite Hnil in Hf. destruct Hf.
Qed.

Section Statistics.
  Context {R : Type} `{RedisServer R} `{PyEnv}.
  Implicit Types w : world R MemGraph.state.



End Statistics.

(** ** C5: who is never recommended *)

Lemma omap_In {A B} (f : A -> outcome B) : forall xs ys y,
  omap f xs = Return ys -> In y ys -> exists x, In x xs /\ f x = Return y.
Proof.
  induction xs as [|x xs IH]; intros ys y E Hy; cbn in E.
  - inversion E; subst. destruct Hy.
  - destruct (f x) as [b|e] eqn:Ef; cbn in E; [|discriminate E].
    destruct (omap f xs) as [bs|e] eqn:Em; cbn in E; [|discriminate E].
    inversion E; subst. destruct Hy as [<-|Hy].
    + exists x. split; [now left|exact Ef].
    + destruct (IH bs y eq_refl Hy) as (x' & Hin & Hx'). exists x'. split; [now right|exact Hx'].
Qed.

Lemma firstn_subset {A} (n : nat) : forall (l : list A) x, In x (firstn n l) -> In x l.
Proof.
  induction n as [|n IH]; intros [|a l] x Hin; cbn in Hin; try contradiction.
  destruct Hin as [<-|Hin]; [now left|right; now apply IH].
Qed.

Lemma bump_keys k : forall t kn,
  In kn (MemGraph.bump k t) -> fst kn = k \/ In (fst kn) (map fst t).
Proof.
  induction t as [|[k' n] t IH]; intros kn Hin; cbn in Hin.
  - destruct Hin as [<-|[]]. now left.
  - destruct (String.eqb k k') eqn:E.
    + apply String.eqb_eq in E. subst k'.
      destruct Hin as [<-|Hin]; [now left|].
      right. cbn. right. now apply in_map.
    + destruct Hin as [<-|Hin]; [right; now left|].
      destruct (IH kn Hin) as [Hk|Hk]; [now left|right; now right].
Qed.

Lemma tally_keys ks : forall kn, In kn (MemGraph.tally ks) -> In (fst kn) ks.
Proof.
  unfold MemGraph.tally.
  assert (Hgen : forall t kn,
            In kn (fold_left (fun t k => MemGraph.bump k t) ks t) ->
            In (fst kn) (map fst t) \/ In (fst kn) ks).
  { induction ks as [|k ks IH]; intros t kn Hin; cbn in Hin; [left; now apply in_map|].
    destruct (IH _ _ Hin) as [Hk|Hk]; [|right; now right].
    apply in_map_iff in Hk as (kn' & Hf & Hk).
    destruct (bump_keys k t kn' Hk) as [Hb|Hb]; rewrite Hf in Hb.
    - right. left. now symmetry.
    - now left. }
  intros kn Hin. destruct (Hgen [] kn Hin) as [[]|Hk]. exact Hk.
Qed.

(** Whoever is ranked passed the filter of the first [MATCH]. *)
Lemma ranked_filtered g uid limit rc :
  In rc (MemGraph.ranked g uid limit) ->
  MemGraph.connected g uid (fst rc) = false /\ fst rc <> uid.
Proof.
  intros Hin. unfold MemGraph.ranked in Hin.
  apply firstn_subset in Hin.
  eapply Permutation_in in Hin; [|apply merge_sort_Permutation].
  apply tally_keys in Hin. unfold MemGraph.candidates in Hin.
  apply filter_In in Hin as [_ Hf].
  apply andb_prop in Hf as [Hf Hs]. apply andb_prop in Hf as [_ Hc].
  split.
  - now apply negb_true_iff in Hc.
  - apply negb_true_iff, String.eqb_neq in Hs. congruence.
Qed.

Lemma run_read_recommend uid limit g :
  MemGraph.run_read Cypher.recommend_connections_query
    [("id", VStr uid); ("limit", VInt limit)] g
  = if (limit <? 0)%Z then Raise ClientError
    else Return (MemGraph.recommend_rows g uid (Z.to_nat limit)).
Proof. unfold MemGraph.run_read. dispatch. reflexivity. Qed.

Section Recommendations.
  Context {R : Type} `{RedisServer R} `{PyEnv}.
  Implicit Types w : world R MemGraph.state.

Lemma first_user_id g uid u :
    User_of (MemGraph.first_user g uid) = Return u -> user_id u = uid.
  Proof.
    unfold MemGraph.first_user.
    destruct (MemGraph.users_with g uid) as [|n ns] eqn:E; [discriminate|].
    assert (Hn : MemGraph.node_id n = uid).
    { assert (Hin : In n (MemGraph.users_with g uid)) by (rewrite E; now left).
      unfold MemGraph.users_with in Hin. apply filter_In in Hin as [_ Hu].
      unfold MemGraph.is_user in Hu. apply andb_prop in Hu as [_ Hu].
      now apply String.eqb_eq in Hu. }
    unfold MemGraph.node_data, User_of, User_init. cbn [dict_get String.eqb Ascii.eqb Bool.eqb].
    cbn. destruct (User_fields_ok _); [|discriminate].
    intros X. inversion X; subst. reflexivity.
  Qed.

  (** C5.  Whatever list [recommend_connections] returns for a user and
      a limit, no entry of it is that user and no entry of it is joined
      to that user by a relationship, in either direction. *)
Theorem recommendations_exclude_self_and_connections uid limit w recs w' :
    recommend_connections uid limit w = (Return recs, w') ->
    forall r, In r recs ->
      user_id (rec_user r) <> uid
      /\ MemGraph.connected (neo4j_srv w) uid (user_id (rec_user r)) = false.
  Proof.
    intros E r Hr. unfold recommend_connections in E. unfold bind at 1 in E.
    destruct (mem_execute_read Cypher.recommend_connections_query
                [("id", VStr uid); ("limit", VInt limit)] w) as (w1 & E1 & _).
    rewrite E1, run_read_recommend in E.
    destruct (limit <? 0)%Z; [discriminate E|].
    unfold lift in E.
    destruct (omap recommendation_of _) as [rs|e] eqn:Em; inversion E; subst.
    destruct (omap_In _ _ _ _ Em Hr) as (row & Hrow & Hrec).
    unfold MemGraph.recommend_rows in Hrow.
    apply in_flat_map in Hrow as (rc & Hrc & Hrow).
    destruct (MemGraph.mutuals _ uid (fst rc)) as [|m ms]; [destruct Hrow|].
    destruct Hrow as [<-|[]].
    unfold recommendation_of in Hrec.
    cbn [dict_item dict_get String.eqb Ascii.eqb Bool.eqb] in Hrec.
    cbn in Hrec.
    destruct (User_of (MemGraph.first_user (neo4j_srv w) (fst rc))) as [u|e] eqn:Eu;
      [|discriminate Hrec].
    cbn in Hrec.
    match type of Hrec with
    | obind ?o _ = _ => destruct o as [mutual|e]; [|discriminate Hrec]
    end.
    cbn in Hrec. inversion Hrec; subst. cbn [rec_user].
    rewrite (first_user_id _ _ _ Eu).
    destruct (ranked_filtered _ _ _ _ Hrc) as [Hc Hs]. auto.
  Qed.
End Recommendations.

(** ** C3: what the query text depends on *)


Lemma dict_get_set_same k v : forall d, dict_get k (dict_set k v d) = Some v.
Proof.
  induction d as [|[k1 v1] d IH]; cbn.
  - now rewrite String.eqb_refl.
  - destruct (String.eqb k k1) eqn:E; cbn; rewrite ?E, ?String.eqb_refl; auto.
Qed.

Lemma dict_get_set_other k k' v : forall d,
  k <> k' -> dict_get k (dict_set k' v d) = dict_get k d.
Proof.
  intros d Hne. apply String.eqb_neq in Hne.
  induction d as [|[k1 v1] d IH]; cbn.
  - now rewrite Hne.
  - destruct (String.eqb k' k1) eqn:E; cbn.
    + apply String.eqb_eq in E. subst k1. now rewrite Hne.
    + destruct (String.eqb k k1); auto.
Qed.






(** ** C6: the influence score *)

Section Influence.
  Context {R G : Type} `{RedisServer R} `{GraphStore G} `{PyEnv}.
  Implicit Types w : world R G.



End Influence.

(** ** C7: the density of a community *)

Lemma pairs_positive (n : nat) :
  (2 <= n)%nat ->
  (0 < inject_Z (Z.of_nat n) * (inject_Z (Z.of_nat n) - 1) / 2)%Q.
Proof.
  intros Hn.
  assert (H2 : (2 <= inject_Z (Z.of_nat n))%Q).
  { change 2%Q with (inject_Z 2). rewrite <- Zle_Qle. lia. }
  apply Qlt_shift_div_l; [reflexivity|].
  rewrite Qmult_0_l. apply Qmult_lt_0_compat; lra.
Qed.

Section Density.
  Context {R G : Type} `{RedisServer R} `{GraphStore G} `{PyEnv}.
  Implicit Types w : world R G.

  (** C7.  For fewer than two members the density is 0 and the store is
      not even asked.  For two or more, the number of pairs
      members * (members - 1) / 2 is positive, and whenever the member
      ids can be read and the store answers the count query, the density
      returned is the reported edge count divided by that number. *)
Theorem community_density_is_edges_per_pair (members : list pydict) w :
    let n := inject_Z (Z.of_nat (length members)) in
    ((length members < 2)%nat ->
       _calculate_community_density members w = (Return 0%Q, w))
    /\ ((2 <= length members)%nat ->
        (0 < n * (n - 1) / 2)%Q
        /\ forall ids rows e w',
             member_ids members = Return ids ->
             Neo4jConnection.execute_read Cypher.community_density_query
               [("ids", VList ids)] w = (Return rows, w') ->
             edge_count_of rows = Return e ->
             _calculate_community_density members w
             = (Return (e / (n * (n - 1) / 2))%Q, w')).
  Proof.
    intros n. unfold _calculate_community_density. split.
    - intros Hn.
      replace (Z.of_nat (length members) <? 2)%Z with true; [reflexivity|].
      symmetry. apply Z.ltb_lt. lia.
    - intros Hn. pose proof (pairs_positive _ Hn) as Hpos. fold n in Hpos.
      split; [exact Hpos|].
      intros ids rows e w' Hids Hread He.
      replace (Z.of_nat (length members) <? 2)%Z with false
        by (symmetry; apply Z.ltb_ge; lia).
      unfold bind, lift. rewrite Hids, Hread, He.
      fold n.
      destruct (Qlt_le_dec 0 (n * (n - 1) / 2)) as [Hlt|Hle]; [|lra].
      now rewrite py_div_positive.
  Qed.
End Density.

(** ** The properties on concrete worlds *)

Section Concrete.
  Import Scenario.

  (** C1 at a concrete input: Ann's cached list, empty from before she
      followed anyone, is still served after she follows Bob. *)
Example stale_list_is_served_after_create_relationship :
    let w := world_of stale_list [] two_users in
    let w' := snd (create_relationship ann_follows_bob w) in
    returned (fst (create_relationship ann_follows_bob w)) = true
    /\ map (fun e => (MemGraph.edge_from e, MemGraph.edge_to e)) (MemGraph.edges (neo4j_srv w'))
       = [("a", "b")]
    /\ fst (get_user_relationships_cached "a" None w') = Return (Some "[]").
  Proof. vm_compute. repeat split. Qed.

Lemma relationship_mutations_keep_cached_lists_witness :
    cached (snd (create_relationship ann_follows_bob (world_of stale_list [] two_users)))
      !! "user:a:relationships:all"
    = Some ("[]", 60%Z).
  Proof.
    destruct (create_relationship ann_follows_bob (world_of stale_list [] two_users))
      as [r w'] eqn:E.
    cbn [snd]. etransitivity.
    - exact (proj1 relationship_mutations_keep_cached_lists _ "a" _ _ _ E).
    - vm_compute. reflexivity.
  Defined.

  (** C2 as stated fails: on a fresh instance whose server cannot be
      reached, the first [get] raises the connection error. *)
Lemma first_use_connection_failure_reaches_caller :
    option_map fst (RedisCache.run_op 0 (RedisCache.OpGet "user:a") unreachable_cache)
    = Some (Raise ConnectionError).
  Proof. vm_compute. reflexivity. Qed.

Lemma cache_failures_degrade_witness :
    redis_client flaky_cache = true
    /\ (forall op,
          In op [RedisCache.OpGet "user:a";
                 RedisCache.OpSet "user:a" (VStr "ann") 300;
                 RedisCache.OpDelete "user:a";
                 RedisCache.OpDeletePattern "user:*";
                 RedisCache.OpGetMany ["user:a"; "user:b"];
                 RedisCache.OpSetMany [("hits", VInt 1)] 60;
                 RedisCache.OpIncrement "hits" 1;
                 RedisCache.OpGetTTL "user:a"] ->
          exists w',
            RedisCache.run_op 1 op flaky_cache = Some (Return (RedisCache.degraded op), w')
            /\ logger w' = [Log WARNING (warning_of op) (Some ConnectionError)])
    /\ exists w',
         RedisCache.run_op 1 (RedisCache.OpSet "user:a" VNone 300)
                           (with_client true (world_of ∅ [] two_users))
         = Some (Return (RedisCache.ResBool false), w')
         /\ cached w' = ∅
         /\ logger w' = [Log WARNING "Cache set error" (Some DataError)].
  Proof.
    split; [reflexivity|]. split.
    - intros op Hin.
      destruct (proj1 (proj2 (proj2
                  (proj1 (cache_failures_degrade_but_connect_failures_escape
                            0 op flaky_cache) eq_refl)))
                  ConnectionError (MemRedis.State ∅ [])) as (w' & E & _ & L).
      + cbn [In] in Hin.
        repeat (destruct Hin as [<-|Hin]; [reflexivity|]). destruct Hin.
      + exists w'. split; [exact E|exact L].
    - set (w := with_client true (world_of ∅ [] two_users)).
      destruct (proj1 (proj2 (proj2
                  (proj1 (cache_failures_degrade_but_connect_failures_escape
                            0 (RedisCache.OpSet "user:a" VNone 300) w) eq_refl)))
                  DataError (redis_srv w)) as (w' & E & S' & L).
      + split; reflexivity.
      + exists w'. split; [exact E|]. split; [|exact L].
        unfold cached. rewrite S'. reflexivity.
  Defined.



Lemma recommendations_witness :
    exists recs w',
      recommend_connections "a" 10 (world_of ∅ [] chain) = (Return recs, w')
      /\ map (fun r => user_id (rec_user r)) recs = ["c"]
      /\ forall r, In r recs ->
           user_id (rec_user r) <> "a"
           /\ MemGraph.connected chain "a" (user_id (rec_user r)) = false.
  Proof.
    eexists _, _. split; [vm_compute; reflexivity|]. split; [reflexivity|].
    eapply (recommendations_exclude_self_and_connections "a" 10 (world_of ∅ [] chain)).
    vm_compute. reflexivity.
  Defined.


Lemma community_density_witness :
    _calculate_community_density [] (world_of ∅ [] chain)
    = (Return 0%Q, world_of ∅ [] chain)
    /\ exists d w',
         _calculate_community_density ann_and_bob (world_of ∅ [] chain) = (Return d, w')
         /\ (d == 1)%Q.
  Proof.
    split.
    - apply (proj1 (community_density_is_edges_per_pair [] (world_of ∅ [] chain))).
      cbn. lia.
    - eexists _, _. split.
      + eapply (proj2 (community_density_is_edges_per_pair ann_and_bob (world_of ∅ [] chain))).
        * cbn. lia.
        * reflexivity.
        * vm_compute. reflexivity.
        * reflexivity.
      + reflexivity.
  Defined.


  (** C9 as stated fails: two items with a link between them have one
      relationship for two nodes, and the average degree is reported as
      0, with both totals 0. *)
Lemma average_degree_is_zero_without_users :
    exists stats w',
      get_statistics (world_of ∅ [] two_items) = (Return stats, w')
      /\ (average_degree stats == 0)%Q
      /\ (relationship_total two_items / node_total two_items == 1 # 2)%Q
      /\ total_nodes stats = 0%Z /\ total_relationships stats = 0%Z.
  Proof. eexists _, _. split; [vm_compute; reflexivity|]. repeat split. Qed.


Lemma get_user_not_found_witness :
    exists w2,
      get_user "zed" (world_of ∅ [] two_users) = (Return None, w2)
      /\ cached w2 = cached (world_of ∅ [] two_users).
  Proof.
    set (w := world_of ∅ [] two_users).
    set (w1 := snd (RedisCache.get "user:zed" w)).
    set (w2 := snd (Neo4jConnection.execute_read Cypher.get_user_query
                      [("id", VStr "zed")] w1)).
    exists w2.
    assert (H1 : RedisCache.get ("user:" +:+ "zed") w = (Return None, w1))
      by (vm_compute; reflexivity).
    assert (H2 : Neo4jConnection.execute_read Cypher.get_user_query
                   [("id", VStr "zed")] w1 = (Return [], w2))
      by (vm_compute; reflexivity).
    destruct (get_user_not_found_is_not_cached "zed" w w1 w2 None H1 eq_refl H2)
      as (A & B & _).
    split; assumption.
  Defined.
End Concrete.

(** * Further properties *)

(** ** The cache handle after a failed connection *)

Section StickyHandle.
  Context {R G : Type} `{RedisServer R} `{PyEnv}.
  Implicit Types w : world R G.

  (** With the handle set, no operation raises. *)
Lemma connected_never_raises fuel op w e w' :
    redis_client w = true -> RedisCache.run_op fuel op w <> Some (Raise e, w').
  Proof.
    intros C.
    destruct (op_shape fuel op w)
      as [[p ->] | (A & body & dflt & f & w0 & Q & L0 & C0 & S0 & D & E & _)].
    - cbn [RedisCache.run_op].
      destruct (delete_pattern_connected fuel p w C) as [-> | (w1 & -> & _)]; discriminate.
    - rewrite E. unfold RedisCache.total. rewrite <- C0 in C.
      destruct (guarded_connected body (warning_of op) dflt w0 Q C) as (a & w1 & -> & _).
      discriminate.
  Qed.

  (** When the handle could be created, a failing [connect] leaves it
      set. *)
Lemma connect_keeps_handle w e w' s' :
    redis_open (redis_srv w) = (Return tt, s') ->
    RedisCache.connect w = (Raise e, w') -> redis_client w' = true.
  Proof.
    intros O. unfold RedisCache.connect, try_except, bind, redis_call, log, raise.
    rewrite O. cbn.
    destruct (redis_ping s') as [[[]|e1] s2]; cbn; intros E; inversion E; subst.
    reflexivity.
  Qed.

Lemma guarded_raise_is_connect {A} (body : M R G A) msg dflt w e w' :
    preserves logger body -> guarded body msg dflt w = (Raise e, w') ->
    RedisCache.connect w = (Raise e, w').
  Proof.
    intros Q E. destruct (guarded_raises body msg dflt w e w' Q E) as [C _].
    unfold guarded in E. unfold bind at 1 in E.
    unfold RedisCache.ensure_client in E. rewrite C in E.
    destruct (RedisCache.connect w) as [[[]|e1] w1] eqn:E1.
    - destruct (handled_returns body msg dflt w1 Q) as (a & w2 & E2 & _).
      rewrite E2 in E. discriminate E.
    - inversion E; subst. reflexivity.
  Qed.

  (** X1.  When an operation of a fresh cache instance raises although
      the client handle could be created (the ping failed), the handle
      stays set: no later operation of that instance connects again, and
      none raises, whatever the server does. *)
Theorem failed_ping_leaves_the_handle_set fuel op w e w' s' :
    RedisCache.run_op fuel op w = Some (Raise e, w') ->
    redis_open (redis_srv w) = (Return tt, s') ->
    redis_client w' = true
    /\ forall fuel2 op2 e2 w2, RedisCache.run_op fuel2 op2 w' <> Some (Raise e2, w2).
  Proof.
    intros E O.
    assert (C : redis_client w' = true).
    { destruct (op_shape fuel op w)
        as [[p ->] | (A & body & dflt & f & w0 & Q & L0 & C0 & S0 & D & E0 & _)].
      - cbn [RedisCache.run_op] in E.
        destruct (RedisCache.delete_pattern fuel p w) as [[[[]|e1] w1]|] eqn:E1;
          try discriminate E.
        inversion E; subst.
        destruct (delete_pattern_raises _ _ _ _ _ E1) as [C _].
        unfold RedisCache.delete_pattern, RedisCache.ensure_client in E1. rewrite C in E1.
        destruct (RedisCache.connect w) as [[[]|e2] w2] eqn:E2.
        + destruct (RedisCache.scan_from fuel p 0 w2) as [[[[]|e3] w3]|];
            cbn in E1; discriminate E1.
        + inversion E1; subst. eapply connect_keeps_handle; eauto.
      - rewrite E0 in E. unfold RedisCache.total in E.
        destruct (guarded body (warning_of op) dflt w0) as [[a|e1] w1] eqn:E1;
          inversion E; subst.
        apply guarded_raise_is_connect in E1; [|exact Q].
        rewrite <- S0 in O. eapply connect_keeps_handle; eauto. }
    split; [exact C|].
    intros fuel2 op2 e2 w2. now apply connected_never_raises.
  Qed.
End StickyHandle.

(** ** The cache operations on a healthy in-memory server *)

Section HealthyCache.
  Context {G : Type} `{PyEnv}.
  Implicit Types w : world MemRedis.state G.

Lemma healthy_command {A}
      (f : gmap string (string * Z) -> outcome A * gmap string (string * Z)) w :
    healthy w ->
    redis_call (MemRedis.command f) w
    = (fst (f (cached w)), with_redis (MemRedis.State (snd (f (cached w))) []) w).
  Proof.
    unfold healthy, redis_call, MemRedis.command, cached. intros ->.
    destruct (f _); reflexivity.
  Qed.

  (** The lazy connection succeeds and leaves the keys alone. *)
Lemma healthy_ensure_client w :
    healthy w ->
    exists w1, RedisCache.ensure_client w = (Return tt, w1)
               /\ healthy w1 /\ cached w1 = cached w /\ redis_client w1 = true.
  Proof.
    intros Hw. unfold RedisCache.ensure_client.
    destruct (redis_client w) eqn:C; [eauto|].
    unfold RedisCache.connect, try_except. unfold bind at 1.
    cbn [redis_open MemRedis.server]. rewrite healthy_command by exact Hw. cbn [fst snd].
    unfold bind at 1. unfold bind at 1.
    cbn [redis_ping MemRedis.server]. rewrite healthy_command by reflexivity. cbn [fst snd].
    cbn. eexists. split; [reflexivity|]. repeat split.
  Qed.

Lemma healthy_get key w :
    healthy w ->
    exists w', RedisCache.get key w = (Return (fst <$> cached w !! key), w')
               /\ healthy w' /\ cached w' = cached w /\ redis_client w' = true.
  Proof.
    intros Hw. unfold RedisCache.get. unfold bind at 1. cbn [emit].
    set (w0 := with_trace _ w).
    destruct (healthy_ensure_client w0 Hw) as (w1 & E1 & H1 & K1 & C1).
    unfold bind at 1. rewrite E1. unfold try_except.
    cbn [redis_get MemRedis.server]. rewrite healthy_command by exact H1. cbn [fst snd].
    rewrite K1. eexists. split; [reflexivity|]. repeat split; assumption.
  Qed.

  (** What [set] does once its argument has its wire form. *)
Lemma healthy_setex key (v : value) text expire w :
    healthy w -> (0 < expire)%Z ->
    (match v with
     | VDict _ | VList _ => s <- lift (json_dumps v) ;; ret (VStr s)
     | _ => ret v
     end) = (fun w => (Return (VStr text), w)) ->
    exists w', RedisCache.set key v expire w = (Return true, w')
               /\ healthy w' /\ cached w' = <[key := (text, expire)]> (cached w)
               /\ redis_client w' = true.
  Proof.
    intros Hw He Hv. unfold RedisCache.set. unfold bind at 1. cbn [emit].
    set (w0 := with_trace _ w).
    destruct (healthy_ensure_client w0 Hw) as (w1 & E1 & H1 & K1 & C1).
    unfold bind at 1. rewrite E1. unfold try_except.
    unfold bind at 1. rewrite Hv. unfold bind at 1. cbn [lift RedisCache.redis_encode].
    unfold bind at 1. cbn [redis_setex MemRedis.server].
    rewrite healthy_command by exact H1. unfold MemRedis.do_setex.
    replace (expire <=? 0)%Z with false by (symmetry; apply Z.leb_gt; lia).
    cbn [fst snd]. rewrite K1. eexists. split; [reflexivity|]. repeat split; assumption.
  Qed.

Lemma healthy_get_ttl key w :
    healthy w ->
    exists w', RedisCache.get_ttl key w
               = (Return (match cached w !! key with
                          | Some (_, ttl) => ttl
                          | None => (-2)%Z
                          end), w').
  Proof.
    intros Hw. unfold RedisCache.get_ttl.
    destruct (healthy_ensure_client w Hw) as (w1 & E1 & H1 & K1 & C1).
    unfold bind at 1. rewrite E1. unfold try_except.
    cbn [redis_ttl MemRedis.server]. rewrite healthy_command by exact H1. cbn [fst snd].
    rewrite K1. eauto.
  Qed.

Lemma healthy_exists key w :
    healthy w ->
    exists w', RedisCache.exists_ key w
               = (Return (bool_decide (is_Some (cached w !! key))), w').
  Proof.
    intros Hw. unfold RedisCache.exists_.
    destruct (healthy_ensure_client w Hw) as (w1 & E1 & H1 & K1 & C1).
    unfold bind at 1. rewrite E1. unfold try_except. unfold bind at 1.
    cbn [redis_exists MemRedis.server]. rewrite healthy_command by exact H1. cbn [fst snd].
    rewrite K1. destruct (bool_decide _); cbn; eauto.
  Qed.

  (** X2.  On a healthy in-memory server, [set] with a positive expiry
      returns [True] and the key then reads back as the text that was
      sent: a string as it is, a dict or a list as its JSON text; the
      key exists and its time to live is the expiry given. *)
Theorem set_then_get_returns_the_stored_text key (v : value) text expire w :
    healthy w -> (0 < expire)%Z ->
    (v = VStr text
     \/ (((exists d, v = VDict d) \/ (exists l, v = VList l))
         /\ json_dumps v = Return text)) ->
    exists w1 w2 w3 w4,
      RedisCache.set key v expire w = (Return true, w1)
      /\ RedisCache.get key w1 = (Return (Some text), w2)
      /\ RedisCache.exists_ key w1 = (Return true, w3)
      /\ RedisCache.get_ttl key w1 = (Return expire, w4).
  Proof.
    intros Hw He Hv.
    assert (Hwire : (match v with
                     | VDict _ | VList _ => s <- lift (json_dumps v) ;; ret (VStr s)
                     | _ => ret v
                     end) = (fun w : world MemRedis.state G => (Return (VStr text), w))).
    { destruct Hv as [-> | [[[d ->] | [l ->]] Hj]]; [reflexivity| |];
        unfold bind, lift; rewrite Hj; reflexivity. }
    destruct (healthy_setex key v text expire w Hw He Hwire) as (w1 & E1 & H1 & K1 & C1).
    destruct (healthy_get key w1 H1) as (w2 & E2 & _).
    destruct (healthy_exists key w1 H1) as (w3 & E3).
    destruct (healthy_get_ttl key w1 H1) as (w4 & E4).
    rewrite K1, lookup_insert_eq in E2, E3, E4.
    exists w1, w2, w3, w4. repeat split; assumption.
  Qed.
End HealthyCache.

(** ** Writing several keys at once *)

Section SetMany.
  Context {G : Type} `{PyEnv}.
  Implicit Types w : world MemRedis.state G.

  (** The first loop of [set_many] keeps the keys, in order. *)
Lemma str_mapping_keys : forall items acc strs,
    RedisCache.str_mapping items acc = Return strs ->
    exists new, strs = acc ++ new /\ map fst new = dict_keys items.
  Proof.
    induction items as [|[k v] items IH]; intros acc strs E; cbn in E.
    - inversion E; subst. exists []. now rewrite app_nil_r.
    - match type of E with
      | match ?o with _ => _ end = _ => destruct o as [s|e] eqn:Es; [|discriminate E]
      end.
      destruct (IH _ _ E) as (new & -> & Hk).
      exists ((k, s) :: new). split; [now rewrite <- app_assoc|].
      cbn. now rewrite Hk.
  Qed.

  (** The text that the first loop of [set_many] makes of a value. *)
Lemma str_mapping_text k v : forall items acc strs,
    RedisCache.str_mapping items acc = Return strs ->
    In (k, v) items ->
    exists s, In (k, s) strs
              /\ match v with
                 | VDict _ | VList _ => json_dumps v = Return s
                 | _ => s = py_str v
                 end.
  Proof.
    induction items as [|[k1 v1] items IH]; intros acc strs E Hin; [destruct Hin|].
    cbn in E.
    match type of E with
    | match ?o with _ => _ end = _ => destruct o as [s|e] eqn:Es; [|discriminate E]
    end.
    destruct Hin as [Heq|Hin].
    - inversion Heq; subst. exists s. split.
      + destruct (str_mapping_keys _ _ _ E) as (new & -> & _).
        apply in_or_app. left. apply in_or_app. right. now left.
      + destruct v; first [exact Es | now inversion Es].
    - exact (IH _ _ E Hin).
  Qed.

Lemma pipeline_inserts : forall (cmds : list (string * Z * string)) m,
    Forall (fun c => 0 < snd (fst c))%Z cmds ->
    MemRedis.do_pipeline cmds m
    = (Return tt,
       fold_left (fun m c => <[fst (fst c) := (snd c, snd (fst c))]> m) cmds m).
  Proof.
    induction cmds as [|[[k ttl] v] cmds IH]; intros m Hall; [reflexivity|].
    inversion Hall as [|? ? Hc Hrest]; subst. cbn in Hc.
    cbn [MemRedis.do_pipeline]. unfold MemRedis.do_setex.
    replace (ttl <=? 0)%Z with false by (symmetry; apply Z.leb_gt; lia).
    rewrite IH by exact Hrest. reflexivity.
  Qed.

Lemma fold_insert_other (k : string) :
    forall (cmds : list (string * Z * string)) (m : gmap string (string * Z)),
    ~ In k (map (fun c => fst (fst c)) cmds) ->
    fold_left (fun m c => <[fst (fst c) := (snd c, snd (fst c))]> m) cmds m !! k = m !! k.
  Proof.
    induction cmds as [|c cmds IH]; intros m Hn; [reflexivity|].
    cbn [fold_left]. rewrite IH by (intros Hin; apply Hn; now right).
    apply lookup_insert_ne. intros Heq. apply Hn. left. exact Heq.
  Qed.

Lemma fold_insert_member (k : string) ttl v :
    forall (cmds : list (string * Z * string)) (m : gmap string (string * Z)),
    List.NoDup (map (fun c => fst (fst c)) cmds) -> In (k, ttl, v) cmds ->
    fold_left (fun m c => <[fst (fst c) := (snd c, snd (fst c))]> m) cmds m !! k
    = Some (v, ttl).
  Proof.
    induction cmds as [|c cmds IH]; intros m Hnd Hin; [destruct Hin|].
    inversion Hnd as [|? ? Hnotin Hnd']; subst. cbn [fold_left].
    destruct Hin as [->|Hin].
    - cbn [fst snd] in *. rewrite fold_insert_other by exact Hnotin.
      apply lookup_insert_eq.
    - now apply IH.
  Qed.

  (** X3.  On a healthy in-memory server, [set_many] of a mapping whose
      dicts and lists serialise, with a positive expiry, returns [True];
      afterwards every key of the mapping holds the text of its value
      (the JSON text of a dict or list, [str] of anything else, so
      [None] is stored as the text None) with the expiry as its time
      to live, and every other key holds what it held. *)
Theorem set_many_stores_the_text_of_every_value (mapping : pydict) expire w :
    healthy w -> (0 < expire)%Z ->
    List.NoDup (dict_keys mapping) ->
    (forall k v, In (k, v) mapping ->
       match v with
       | VDict _ | VList _ => exists s, json_dumps v = Return s
       | _ => True
       end) ->
    exists w',
      RedisCache.set_many mapping expire w = (Return true, w')
      /\ (forall k v, In (k, v) mapping ->
            exists s, cached w' !! k = Some (s, expire)
                      /\ match v with
                         | VDict _ | VList _ => json_dumps v = Return s
                         | _ => s = py_str v
                         end)
      /\ (forall k, ~ In k (dict_keys mapping) -> cached w' !! k = cached w !! k).
  Proof.
    intros Hw He Hnd Hser.
    assert (Hstrs : exists strs, RedisCache.str_mapping mapping [] = Return strs).
    { assert (Hgen : forall items acc,
                (forall k v, In (k, v) items ->
                   match v with
                   | VDict _ | VList _ => exists s, json_dumps v = Return s
                   | _ => True
                   end) ->
                exists strs, RedisCache.str_mapping items acc = Return strs).
      { induction items as [|[k v] items IH]; intros acc Hs; cbn; [eauto|].
        assert (Hv : exists s, (match v with
                                | VDict _ | VList _ => json_dumps v
                                | _ => Return (py_str v)
                                end) = Return s).
        { pose proof (Hs k v (or_introl eq_refl)) as Hkv.
          destruct v; eauto. }
        destruct Hv as [s ->]. apply IH. intros k' v' Hin. apply (Hs k' v'). now right. }
      apply Hgen. exact Hser. }
    destruct Hstrs as [strs Hstrs].
    destruct (str_mapping_keys _ _ _ Hstrs) as (new & Hnew & Hkeys). cbn in Hnew. subst new.
    unfold RedisCache.set_many.
    destruct (healthy_ensure_client w Hw) as (w1 & E1 & H1 & K1 & C1).
    unfold bind at 1. rewrite E1. unfold try_except.
    unfold bind at 1. unfold lift at 1. rewrite Hstrs.
    unfold bind at 1. cbn [redis_pipeline_setex MemRedis.server].
    rewrite healthy_command by exact H1.
    set (cmds := map (fun kv : string * string => (fst kv, expire, snd kv)) strs).
    assert (Hall : Forall (fun c => 0 < snd (fst c))%Z cmds).
    { apply List.Forall_forall. intros c Hc. apply in_map_iff in Hc as (kv & <- & _). exact He. }
    rewrite pipeline_inserts by exact Hall. cbn [fst snd].
    assert (Hck : map (fun c : string * Z * string => fst (fst c)) cmds = dict_keys mapping).
    { unfold cmds. rewrite map_map. cbn. exact Hkeys. }
    eexists. split; [reflexivity|]. unfold cached at 1 3. cbn [redis_srv with_redis MemRedis.kv].
    rewrite K1. split.
    - intros k v Hin. destruct (str_mapping_text k v _ _ _ Hstrs Hin) as (s & Hs & Ht).
      exists s. split; [|exact Ht].
      apply fold_insert_member; [now rewrite Hck|].
      unfold cmds. apply in_map_iff. exists (k, s). split; [reflexivity|exact Hs].
    - intros k Hn. apply fold_insert_other. now rewrite Hck.
  Qed.

End SetMany.

Section SetRefuses.
  Context {R G : Type} `{RedisServer R} `{PyEnv}.

  (** X4.  [set] and [set_many] disagree on [None] and on booleans.  The
      client library refuses such an argument, so on any connected
      instance [set] hands back [False], logs a warning and sends
      nothing to the server. *)
Theorem set_refuses_none_and_booleans key (v : value) expire (w : world R G) :
    redis_client w = true ->
    (v = VNone \/ exists b, v = VBool b) ->
    exists w',
      RedisCache.set key v expire w = (Return false, w')
      /\ redis_srv w' = redis_srv w
      /\ logger w' = logger w ++ [Log WARNING "Cache set error" (Some DataError)].
  Proof.
    intros C Hv. unfold RedisCache.set. unfold bind at 1. cbn [emit].
    unfold bind at 1. unfold RedisCache.ensure_client. cbn [redis_client with_trace].
    rewrite C. unfold try_except.
    destruct Hv as [-> | [b ->]]; cbn; eexists; repeat split.
  Qed.
End SetRefuses.

(** ** Reading several keys at once *)

Section GetMany.
  Context {G : Type} `{PyEnv}.
  Implicit Types w : world MemRedis.state G.

  (** The comprehension of [get_many] over the answer of the server:
      a requested key that is present is bound to its payload, any other
      key is as the accumulator has it. *)
Lemma present_only_lookup (m : gmap string (string * Z)) (k : string) :
    forall keys acc,
      dict_get k (RedisCache.present_only keys (map (fun k => fst <$> m !! k) keys) acc)
      = match m !! k with
        | Some (s, _) => if existsb (String.eqb k) keys then Some (VStr s) else dict_get k acc
        | None => dict_get k acc
        end.
  Proof.
    induction keys as [|k1 keys IH]; intros acc; cbn [map RedisCache.present_only existsb].
    - destruct (m !! k) as [[s t]|]; reflexivity.
    - destruct (m !! k1) as [[s1 t1]|] eqn:E1; cbn [fmap option_fmap option_map fst].
      + rewrite IH. destruct (String.eqb k k1) eqn:Ek.
        * apply String.eqb_eq in Ek. subst k1. rewrite E1. cbn [orb].
          destruct (existsb (String.eqb k) keys); [reflexivity|].
          apply dict_get_set_same.
        * cbn [orb]. apply String.eqb_neq in Ek.
          rewrite dict_get_set_other by exact Ek. reflexivity.
      + rewrite IH. destruct (String.eqb k k1) eqn:Ek; [|reflexivity].
        apply String.eqb_eq in Ek. subst k1. rewrite E1. reflexivity.
  Qed.

  (** X5.  On a healthy in-memory server, [get_many] returns a dict that
      binds exactly the requested keys that the server holds, each to
      the payload that [get] would return for it; a requested key that
      is absent is left out, and the cache is left as it was. *)
Theorem get_many_returns_the_requested_keys_that_exist (keys : list string) w :
    healthy w ->
    exists d w',
      RedisCache.get_many keys w = (Return d, w')
      /\ cached w' = cached w
      /\ (forall k, In k keys ->
            dict_get k d = (fun p => VStr (fst p)) <$> cached w !! k)
      /\ (forall k, ~ In k keys -> dict_get k d = None).
  Proof.
    intros Hw. unfold RedisCache.get_many.
    destruct (healthy_ensure_client w Hw) as (w1 & E1 & H1 & K1 & C1).
    unfold bind at 1. rewrite E1. unfold try_except. unfold bind at 1.
    cbn [redis_mget MemRedis.server]. rewrite healthy_command by exact H1.
    cbn [fst snd]. rewrite K1.
    eexists _, _. split; [reflexivity|]. split; [reflexivity|]. split.
    - intros k Hin. rewrite present_only_lookup.
      assert (Hk : existsb (String.eqb k) keys = true).
      { apply existsb_exists. exists k. split; [exact Hin|apply String.eqb_refl]. }
      rewrite Hk. destruct (cached w !! k) as [[s t]|]; reflexivity.
    - intros k Hn. rewrite present_only_lookup.
      assert (Hk : existsb (String.eqb k) keys = false).
      { destruct (existsb (String.eqb k) keys) eqn:Ek; [|reflexivity].
        apply existsb_exists in Ek as (k' & Hin & Ek). apply String.eqb_eq in Ek.
        subst k'. contradiction. }
      rewrite Hk. destruct (cached w !! k) as [[s t]|]; reflexivity.
  Qed.
End GetMany.

(** ** Deleting by pattern *)

Section DeletePattern.
  Context {G : Type} `{PyEnv}.
  Implicit Types w : world MemRedis.state G.
  Implicit Types m : gmap string (string * Z).






End DeletePattern.

(** ** Reading a user through the cache *)

Section ReadThrough.
  Context {G : Type} `{GraphStore G} `{PyEnv}.
  Implicit Types w : world MemRedis.state G.

Lemma healthy_delete key w :
    healthy w ->
    exists w', RedisCache.delete key w = (Return tt, w')
               /\ healthy w' /\ cached w' = delete key (cached w).
  Proof.
    intros Hw. unfold RedisCache.delete. unfold bind at 1. cbn [emit].
    set (w0 := with_trace _ w).
    destruct (healthy_ensure_client w0 Hw) as (w1 & E1 & H1 & K1 & C1).
    unfold bind at 1. rewrite E1. unfold try_except. unfold bind at 1.
    cbn [redis_delete MemRedis.server]. rewrite healthy_command by exact H1.
    unfold MemRedis.do_delete. cbn [fst snd fold_right]. rewrite K1.
    eexists. split; [reflexivity|]. split; reflexivity.
  Qed.

Lemma execute_read_healthy query params w r w' :
    healthy w -> Neo4jConnection.execute_read query params w = (r, w') ->
    healthy w' /\ cached w' = cached w.
  Proof.
    intros Hw E.
    assert (S : redis_srv w' = redis_srv w).
    { eapply (preserves_use redis_srv); [|exact E].
      unfold Neo4jConnection.execute_read. frames. }
    unfold healthy, cached. rewrite S. auto.
  Qed.

Lemma execute_write_healthy query params w r w' :
    healthy w -> Neo4jConnection.execute_write query params w = (r, w') ->
    healthy w' /\ cached w' = cached w.
  Proof.
    intros Hw E.
    assert (S : redis_srv w' = redis_srv w).
    { eapply (preserves_use redis_srv); [|exact E].
      unfold Neo4jConnection.execute_write. frames. }
    unfold healthy, cached. rewrite S. auto.
  Qed.

Lemma cache_get_store key :
    preserves neo4j_srv (RedisCache.get (R:=MemRedis.state) (G:=G) key).
  Proof. unfold RedisCache.get. frames. Qed.

  (** A non-empty payload under the key of a user is what [get_user]
      answers from. *)
Lemma get_user_hit user_id payload ttl w :
    healthy w ->
    cached w !! ("user:" +:+ user_id) = Some (payload, ttl) ->
    payload <> "" ->
    exists w',
      get_user user_id w
      = (obind (obind (json_loads payload) User_of) (fun u => Return (Some u)), w')
      /\ neo4j_srv w' = neo4j_srv w
      /\ trace w' = trace w ++ [EvCacheGet ("user:" +:+ user_id)].
  Proof.
    intros Hw Hk Hne.
    destruct (healthy_get ("user:" +:+ user_id) w Hw) as (w1 & E1 & _).
    rewrite Hk in E1. cbn [fmap option_fmap option_map fst] in E1.
    exists w1. split; [|split].
    - unfold get_user. unfold bind at 1. rewrite E1.
      assert (Hhit : cache_hit (Some payload) = true).
      { cbn. apply negb_true_iff. now apply String.eqb_neq. }
      rewrite Hhit. cbn [default]. unfold bind, lift. cbn.
      destruct (json_loads payload) as [v|e]; cbn; [|reflexivity].
      destruct (User_of v); reflexivity.
    - exact (cache_get_store _ _ _ _ E1).
    - exact (cache_get_trace _ _ _ _ E1).
  Qed.

  (** X7.  On a healthy in-memory server that holds a non-empty payload
      under the key of a user, [get_user] answers from the payload: the
      result is the user that the payload parses to (or the error of
      parsing or validating it); the store is not asked, whatever it
      holds and whether or not it can be reached. *)
Theorem cached_user_is_served_without_the_store user_id payload ttl w :
    healthy w ->
    cached w !! ("user:" +:+ user_id) = Some (payload, ttl) ->
    payload <> "" ->
    exists w',
      get_user user_id w
      = (obind (obind (json_loads payload) User_of) (fun u => Return (Some u)), w')
      /\ neo4j_srv w' = neo4j_srv w
      /\ trace w' = trace w ++ [EvCacheGet ("user:" +:+ user_id)].
  Proof.
    intros Hw Hk Hne.
    destruct (get_user_hit user_id payload ttl w Hw Hk Hne) as (w' & E & S & T).
    exists w'. repeat split; assumption.
  Qed.

  (** X8.  When the lookup of [get_user] misses on a healthy in-memory
      server and the store answers with a user node, the node with its
      degree is written to the cache under the key of the user with a
      time to live of 300, before the node is validated: the entry is
      there whether [get_user] then returns the user or raises on an
      invalid node.  The next [get_user] for that id is answered from
      the entry, without a store read. *)
Theorem found_user_is_cached_for_300_seconds
      user_id c (r0 : pydict) rows (d : pydict) degree s w w1 w2 :
    healthy w ->
    RedisCache.get ("user:" +:+ user_id) w = (Return c, w1) ->
    cache_hit c = false ->
    Neo4jConnection.execute_read Cypher.get_user_query [("id", VStr user_id)] w1
    = (Return (r0 :: rows), w2) ->
    dict_get "u" r0 = Some (VDict d) ->
    dict_get "node_degree" r0 = Some degree ->
    json_dumps (VDict (dict_set "node_degree" degree d)) = Return s ->
    exists w',
      get_user user_id w
      = (obind (User_init (dict_set "node_degree" degree d)) (fun u => Return (Some u)), w')
      /\ cached w' = <[("user:" +:+ user_id) := (s, 300%Z)]> (cached w)
      /\ (s <> "" ->
          exists w'',
            get_user user_id w'
            = (obind (obind (json_loads s) User_of) (fun u => Return (Some u)), w'')
            /\ neo4j_srv w'' = neo4j_srv w'
            /\ trace w'' = trace w' ++ [EvCacheGet ("user:" +:+ user_id)]).
  Proof.
    intros Hw Hget Hmiss Hread Hu Hdeg Hjson.
    destruct (healthy_get ("user:" +:+ user_id) w Hw) as (w1' & E1 & A1 & K1 & _).
    rewrite Hget in E1. inversion E1; subst w1'. clear E1.
    destruct (execute_read_healthy _ _ _ _ _ A1 Hread) as [A2 K2].
    assert (Hwire : (ret (VStr s) : M MemRedis.state G value)
                    = (fun w => (Return (VStr s), w))) by reflexivity.
    destruct (healthy_setex ("user:" +:+ user_id) (VStr s) s 300 w2 A2 eq_refl Hwire)
      as (w3 & E3 & A3 & K3 & _).
    exists w3.
    assert (Hk : cached w3 = <[("user:" +:+ user_id) := (s, 300%Z)]> (cached w))
      by (rewrite K3, K2, K1; reflexivity).
    split; [|split].
    - unfold get_user. unfold bind at 1. rewrite Hget, Hmiss.
      unfold get_user_from_store. unfold bind at 1. rewrite Hread.
      unfold bind at 1. unfold lift at 1, dict_item at 1. rewrite Hu.
      unfold bind at 1. unfold lift at 1, dict_item at 1. rewrite Hdeg.
      unfold bind at 1. unfold lift at 1. rewrite Hjson.
      unfold bind at 1. rewrite E3.
      unfold bind, lift, ret.
      destruct (User_init (dict_set "node_degree" degree d)); reflexivity.
    - exact Hk.
    - intros Hne.
      apply (get_user_hit user_id s 300 w3 A3); [|exact Hne].
      rewrite Hk. apply lookup_insert_eq.
  Qed.
End ReadThrough.

(** ** What the user mutations leave in the cache *)

Section UserInvalidation.
  Context {G : Type} `{GraphStore G} `{PyEnv}.
  Implicit Types w : world MemRedis.state G.

  (** After a store write: the invalidation of one key, then steps that
      only compute. *)
Lemma write_then_delete {A} query params key (rest : list pydict -> M MemRedis.state G A)
      w r w' :
    healthy w ->
    (forall rows, preserves (fun w => w) (rest rows)) ->
    (result <- Neo4jConnection.execute_write query params ;;
     RedisCache.delete key ;;;
     rest result) w = (r, w') ->
    exists tr,
      trace w' = trace w ++ tr
      /\ cached w' = if write_returned tr then delete key (cached w) else cached w.
  Proof.
    intros Hw Hrest E. unfold bind at 1 in E.
    destruct (Neo4jConnection.execute_write query params w) as [[rows|e] w1] eqn:E1;
      destruct (execute_write_healthy _ _ _ _ _ Hw E1) as [A1 K1];
      apply execute_write_trace in E1; cbn [returned] in E1.
    - destruct (healthy_delete key w1 A1) as (w2 & E2 & A2 & K2).
      unfold bind at 1 in E. rewrite E2 in E.
      apply Hrest in E. subst w'.
      apply cache_delete_trace in E2.
      exists [EvWriteBegin query params; EvWriteEnd true; EvCacheDelete key]. split.
      + rewrite E2, E1. now rewrite <- app_assoc.
      + cbn. now rewrite K2, K1.
    - inversion E; subst. exists [EvWriteBegin query params; EvWriteEnd false]. split.
      + exact E1.
      + cbn. exact K1.
  Qed.

  (** X9.  On a healthy in-memory cache server, each of the three user
      mutations leaves the cache in one of two states.  If its store
      write returned, the key of the user ([user:] and the id; for
      [create_user] the id just drawn) is gone and every other key holds
      what it held, also when the operation then raises because the
      store returned no row.  If the write did not return, the cache is
      as it was. *)
Theorem user_mutations_drop_the_cached_user :
    (forall user_id updates w, healthy w ->
       exists tr,
         trace (mutate (UpdateUser user_id updates) w) = trace w ++ tr
         /\ cached (mutate (UpdateUser user_id updates) w)
            = if write_returned tr
              then delete ("user:" +:+ user_id) (cached w) else cached w)
    /\ (forall user_id w, healthy w ->
          exists tr,
            trace (mutate (DeleteUser user_id) w) = trace w ++ tr
            /\ cached (mutate (DeleteUser user_id) w)
               = if write_returned tr
                 then delete ("user:" +:+ user_id) (cached w) else cached w)
    /\ (forall user_data w, healthy w ->
          exists tr,
            trace (mutate (CreateUser user_data) w) = trace w ++ tr
            /\ cached (mutate (CreateUser user_data) w)
               = if write_returned tr
                 then delete ("user:" +:+ uuid4_at (draws w)) (cached w) else cached w).
  Proof.
    split; [|split].
    - intros user_id updates w Hw. cbn [mutate].
      destruct (update_user user_id updates w) as [r w'] eqn:E. cbn [snd].
      unfold update_user in E. unfold bind at 1 in E. cbn [draw] in E.
      destruct (update_user_request user_id updates (utcnow_at (draws w))) as [query params].
      eapply write_then_delete in E; [exact E|exact Hw|intro; frame].
    - intros user_id w Hw. cbn [mutate].
      destruct (delete_user user_id w) as [r w'] eqn:E. cbn [snd].
      unfold delete_user in E.
      assert (E' : (result <- Neo4jConnection.execute_write Cypher.delete_user_query
                                [("id", VStr user_id)] ;;
                    RedisCache.delete ("user:" +:+ user_id) ;;; ret tt) w = (r, w')).
      { unfold bind in E |- *.
        destruct (Neo4jConnection.execute_write _ _ w) as [[rows|e] w1]; [|exact E].
        destruct (RedisCache.delete _ w1) as [[[]|e] w2]; exact E. }
      eapply write_then_delete in E'; [exact E'|exact Hw|intro; frame].
    - intros user_data w Hw. cbn [mutate].
      destruct (create_user user_data w) as [r w'] eqn:E. cbn [snd].
      unfold create_user in E.
      unfold bind at 1 in E. cbn [draw] in E. unfold bind at 1 in E. cbn [draw] in E.
      unfold bind at 1 in E. unfold lift at 1 in E.
      destruct (json_dumps (opt_dict (uc_metadata user_data))) as [metadata|e].
      + eapply write_then_delete in E; [exact E|exact Hw|intro; frame].
      + inversion E; subst. exists []. cbn. split; [now rewrite app_nil_r|reflexivity].
  Qed.
End UserInvalidation.

(** ** A relationship to a user that does not exist *)

Lemma run_write_create_relationship rel_data params g :
  MemGraph.run_write (create_relationship_query rel_data) params g
  = MemGraph.create_relationship_tx (bidirectional rel_data) params g.
Proof.
  unfold create_relationship_query, MemGraph.run_write.
  destruct (bidirectional rel_data); dispatch; reflexivity.
Qed.

Lemma list_prod_nil_r {A B} (l : list A) : list_prod l (@nil B) = [].
Proof. induction l; [reflexivity|exact IHl]. Qed.

Lemma users_with_none g uid :
  MemGraph.user_exists g uid = false -> MemGraph.users_with g uid = [].
Proof.
  unfold MemGraph.user_exists, MemGraph.users_with.
  induction (MemGraph.nodes g) as [|n ns IH]; [reflexivity|].
  cbn. destruct (MemGraph.is_user uid n); [discriminate|exact IH].
Qed.

Section DeleteConnected.
  Context {R G : Type} `{RedisServer R} `{PyEnv}.

  (** The invalidation of a key on a connected instance returns. *)
Lemma delete_connected key (w : world R G) :
    redis_client w = true ->
    exists w', RedisCache.delete key w = (Return tt, w') /\ redis_client w' = true.
  Proof.
    intros C. unfold RedisCache.delete. unfold bind at 1. cbn [emit].
    unfold bind at 1. unfold RedisCache.ensure_client. cbn [redis_client with_trace].
    rewrite C. unfold try_except, bind, redis_call, log, ret.
    destruct (redis_delete [key] _) as [[n|e] r']; cbn; eexists; (split; [reflexivity|exact C]).
  Qed.
End DeleteConnected.

Section MissingUser.
  Context {R : Type} `{RedisServer R} `{PyEnv}.
  Implicit Types w : world R MemGraph.state.

  (** X10.  On the in-memory graph, a request to relate two users of
      which one does not exist changes nothing in the graph and raises
      [IndexError]: the write returns without a row, both invalidations
      are issued, and the first row is then asked for.  The failure is
      not reported as a missing user. *)
Theorem relationship_with_a_missing_user_raises_index_error rel_data properties w :
    redis_client w = true ->
    (MemGraph.user_exists (neo4j_srv w) (from_user_id rel_data) = false
     \/ MemGraph.user_exists (neo4j_srv w) (to_user_id rel_data) = false) ->
    json_dumps (opt_dict (rc_properties rel_data)) = Return properties ->
    exists params w',
      create_relationship rel_data w = (Raise IndexError, w')
      /\ neo4j_srv w' = neo4j_srv w
      /\ trace w' = trace w
           ++ [EvWriteBegin (create_relationship_query rel_data) params;
               EvWriteEnd true;
               EvCacheDelete ("user:" +:+ from_user_id rel_data +:+ ":relationships");
               EvCacheDelete ("user:" +:+ to_user_id rel_data +:+ ":relationships")].
  Proof.
    intros C Hmiss Hjson.
    unfold create_relationship.
    unfold bind at 1. cbn [draw]. unfold bind at 1. cbn [draw].
    set (w2 := with_draws _ (with_draws _ w)).
    unfold bind at 1.
    assert (E3 : exists id2 w3,
               (if bidirectional rel_data
                then i <- draw uuid4_at ;; ret (VStr i)
                else ret VNone) w2 = (Return id2, w3)
               /\ neo4j_srv w3 = neo4j_srv w /\ trace w3 = trace w
               /\ redis_client w3 = true
               /\ (bidirectional rel_data = true -> id2 <> VNone
                   /\ exists i, id2 = VStr i)).
    { destruct (bidirectional rel_data); eexists _, _; split; try reflexivity;
        repeat split; try exact C; try discriminate; eauto. }
    destruct E3 as (id2 & w3 & -> & G3 & T3 & C3 & Hid2).
    unfold bind at 1. unfold lift at 1. rewrite Hjson.
    unfold bind at 1.
    set (params := create_relationship_params _ id2 properties _ rel_data).
    assert (Htx : MemGraph.create_relationship_tx (bidirectional rel_data) params (neo4j_srv w3)
                  = (Return [], neo4j_srv w)).
    { unfold MemGraph.create_relationship_tx, params, create_relationship_params.
      cbn [MemGraph.str_param MemGraph.param dict_get String.eqb Ascii.eqb Bool.eqb].
      assert (Hid : (if bidirectional rel_data then Return id2 else Return VNone)
                    = Return (if bidirectional rel_data then id2 else VNone))
        by (destruct (bidirectional rel_data); reflexivity).
      rewrite Hid.
      match goal with
      | |- context [MemGraph.props_from ?ks ?ps] =>
          assert (Hp : exists props, MemGraph.props_from ks ps = Return props)
            by (eexists; reflexivity);
          destruct Hp as [props ->]
      end.
      rewrite G3.
      assert (Hpairs : list_prod (MemGraph.users_with (neo4j_srv w) (from_user_id rel_data))
                                 (MemGraph.users_with (neo4j_srv w) (to_user_id rel_data))
                       = []).
      { destruct Hmiss as [Hm|Hm]; rewrite (users_with_none _ _ Hm);
          [reflexivity|apply list_prod_nil_r]. }
      rewrite Hpairs. cbn [map flat_map]. rewrite app_nil_r.
      destruct (neo4j_srv w); reflexivity. }
    destruct (mem_execute_write (create_relationship_query rel_data) params w3)
      as (w4 & E4 & G4).
    rewrite run_write_create_relationship, Htx in E4, G4. cbn [fst snd] in E4, G4.
    assert (C4 : redis_client w4 = true).
    { rewrite <- C3. eapply (preserves_use redis_client); [|exact E4].
      unfold Neo4jConnection.execute_write. frames. }
    rewrite E4.
    apply execute_write_trace in E4. cbn [returned] in E4.
    destruct (delete_connected ("user:" +:+ from_user_id rel_data +:+ ":relationships")
                w4 C4) as (w5 & E5 & C5).
    destruct (delete_connected ("user:" +:+ to_user_id rel_data +:+ ":relationships")
                w5 C5) as (w6 & E6 & C6).
    unfold bind at 1. rewrite E5. cbv beta iota.
    unfold bind at 1. rewrite E6. cbv beta iota.
    exists params, w6. split; [reflexivity|]. split.
    - rewrite (cache_delete_store _ _ _ _ E6), (cache_delete_store _ _ _ _ E5). exact G4.
    - rewrite (cache_delete_trace _ _ _ _ E6), (cache_delete_trace _ _ _ _ E5), E4, T3.
      now rewrite <- !app_assoc.
  Qed.
End MissingUser.

(** ** Schema statements *)

Section Schema.
  Context {R G : Type} `{RedisServer R} `{GraphStore G} `{PyEnv}.
  Implicit Types w : world R G.

Lemma writes_begun_app tr1 tr2 :
    writes_begun (tr1 ++ tr2) = writes_begun tr1 ++ writes_begun tr2.
  Proof. unfold writes_begun. apply flat_map_app. Qed.

  (** One statement: it is sent, and whatever becomes of it the turn
      returns. *)
Lemma create_one_returns created failed statement w :
    exists ok w',
      Neo4jConnection.create_one created failed statement w = (Return tt, w')
      /\ trace w' = trace w ++ [EvWriteBegin statement []; EvWriteEnd ok]
      /\ redis_srv w' = redis_srv w.
  Proof.
    unfold Neo4jConnection.create_one, try_except. unfold bind at 1.
    destruct (Neo4jConnection.execute_write statement [] w) as [[rows|e] w1] eqn:E1;
      pose proof (execute_write_trace _ _ _ _ _ E1) as T1;
      assert (S1 : redis_srv w1 = redis_srv w)
        by (eapply (preserves_use redis_srv); [|exact E1];
            unfold Neo4jConnection.execute_write; frames);
      cbn [returned] in T1; cbn; eexists _, _; (split; [reflexivity|]); cbn; split;
      eassumption.
  Qed.

Lemma for_each_create_one created failed : forall statements w,
    exists tr w',
      Neo4jConnection.for_each (Neo4jConnection.create_one created failed) statements w
      = (Return tt, w')
      /\ trace w' = trace w ++ tr
      /\ writes_begun tr = statements
      /\ redis_srv w' = redis_srv w.
  Proof.
    induction statements as [|s statements IH]; intros w.
    - exists [], w. cbn. repeat split. now rewrite app_nil_r.
    - cbn [Neo4jConnection.for_each]. unfold bind.
      destruct (create_one_returns created failed s w) as (ok & w1 & -> & T1 & S1).
      destruct (IH w1) as (tr & w' & -> & T & W & S).
      exists ([EvWriteBegin s []; EvWriteEnd ok] ++ tr), w'.
      split; [reflexivity|]. split; [|split].
      + rewrite T, T1. now rewrite <- app_assoc.
      + rewrite writes_begun_app, W. reflexivity.
      + congruence.
  Qed.

Lemma schema_statements_returns (msg : string) w :
    exists tr l w',
      (Neo4jConnection.create_constraints ;;;
       Neo4jConnection.create_indexes ;;;
       log INFO msg None) w = (Return tt, w')
      /\ trace w' = trace w ++ tr
      /\ writes_begun tr = Cypher.constraint_statements ++ Cypher.index_statements
      /\ logger w' = l ++ [Log INFO msg None]
      /\ redis_srv w' = redis_srv w.
  Proof.
    unfold Neo4jConnection.create_constraints, Neo4jConnection.create_indexes.
    destruct (for_each_create_one "Created constraint: " "Constraint creation skipped or failed"
                Cypher.constraint_statements w) as (tr1 & w1 & E1 & T1 & W1 & S1).
    destruct (for_each_create_one "Created index: " "Index creation skipped or failed"
                Cypher.index_statements w1) as (tr2 & w2 & E2 & T2 & W2 & S2).
    unfold bind at 1. rewrite E1. unfold bind at 1. rewrite E2.
    exists (tr1 ++ tr2), (logger w2). eexists. split; [reflexivity|]. cbn.
    split; [|split; [|split]].
    - rewrite T2, T1. now rewrite <- app_assoc.
    - rewrite writes_begun_app, W1, W2. reflexivity.
    - reflexivity.
    - congruence.
  Qed.

  (** X11.  [initialize_schema] and [reindex] always return, whatever
      the store does, also when it cannot be reached: every one of the
      two constraint and five index statements is sent as a write, the
      constraints first, a failing statement being logged and skipped;
      the closing message is the last log entry, and the cache server
      is not involved. *)
Theorem schema_initialisation_always_returns w :
    (exists tr l w',
       initialize_schema w = (Return tt, w')
       /\ trace w' = trace w ++ tr
       /\ writes_begun tr = Cypher.constraint_statements ++ Cypher.index_statements
       /\ logger w' = l ++ [Log INFO "Database schema initialized" None]
       /\ redis_srv w' = redis_srv w)
    /\ (exists tr l w',
          reindex w = (Return tt, w')
          /\ trace w' = trace w ++ tr
          /\ writes_begun tr = Cypher.constraint_statements ++ Cypher.index_statements
          /\ logger w' = l ++ [Log INFO "Graph reindexed successfully" None]
          /\ redis_srv w' = redis_srv w).
  Proof.
    split; [unfold initialize_schema|unfold reindex]; apply schema_statements_returns.
  Qed.
End Schema.

(** ** Centrality measures that cannot be computed *)

Section FailedMeasures.
  Context {R G : Type} `{RedisServer R} `{GraphStore G} `{PyEnv}.
  Implicit Types w : world R G.



End FailedMeasures.

(** ** The cache keys *)

Lemma append_inj_l (p s t : string) : p +:+ s = p +:+ t -> s = t.
Proof.
  induction p as [|c p IH]; cbn; [auto|]. intros E. injection E as E. auto.
Qed.

(** Two texts that agree up to the first colon of each. *)
Lemma colon_split (u1 u2 r1 r2 : string) :
  colon_free u1 = true -> colon_free u2 = true ->
  u1 +:+ String ":" r1 = u2 +:+ String ":" r2 -> u1 = u2 /\ r1 = r2.
Proof.
  revert u2. induction u1 as [|c u1 IH]; intros [|c2 u2] F1 F2 E; cbn in *.
  - injection E as E. auto.
  - injection E as Ec E. subst c2. discriminate F2.
  - injection E as Ec E. subst c. discriminate F1.
  - injection E as Ec E. subst c2.
    apply andb_prop in F1 as [_ F1]. apply andb_prop in F2 as [_ F2].
    destruct (IH u2 F1 F2 E) as [-> ->]. auto.
Qed.

Lemma colon_free_no_colon (u r : string) (s : string) :
  colon_free s = true -> s <> u +:+ String ":" r.
Proof.
  revert u. induction s as [|c s IH]; intros [|c2 u] F E; cbn in *; try discriminate E.
  - injection E as Ec E. subst c. discriminate F.
  - injection E as Ec E. apply andb_prop in F as [_ F]. exact (IH u F E).
Qed.

(** X13.  The cache entry of a relationship list is chosen by the
    user id and by the filter after the empty filter and the absent
    filter have both become the word all: two filters share an entry
    exactly when they agree after that.  So a filter that is the word
    all shares the entry of the unfiltered list, although it sends a
    different query, with a type condition. *)
Theorem relationship_filters_share_entries_after_defaulting :
  (forall user_id t1 t2,
     relationships_cache_key user_id t1 = relationships_cache_key user_id t2
     <-> (if truthy (opt_str t1) then default "" t1 else "all")
         = (if truthy (opt_str t2) then default "" t2 else "all"))
  /\ (forall user_id,
        relationships_cache_key user_id (Some "all") = relationships_cache_key user_id None
        /\ fst (get_user_relationships_request user_id (Some "all"))
           <> fst (get_user_relationships_request user_id None)
        /\ dict_get "rel_type" (snd (get_user_relationships_request user_id (Some "all")))
           = Some (VStr "all")
        /\ dict_get "rel_type" (snd (get_user_relationships_request user_id None)) = None).
Proof.
  split.
  - intros user_id t1 t2. unfold relationships_cache_key.
    assert (Hn : forall t : option string, cache_hit t = truthy (opt_str t))
      by (intros [s|]; reflexivity).
    rewrite !Hn. split.
    + intros E. now do 3 apply append_inj_l in E.
    + intros ->. reflexivity.
  - intros user_id. split; [reflexivity|]. split; [|split; reflexivity].
    unfold get_user_relationships_request. cbn [fst opt_str truthy].
    vm_compute. discriminate.
Qed.

(** X14.  For identifiers without a colon the cache keys of different
    users never meet: two relationship-list keys that are equal belong
    to the same user, and the key of a user is not a relationship-list
    key of anyone.  For identifiers with a colon this fails: the key of
    the user named a:relationships:all is the unfiltered list key of
    the user a. *)
Theorem cache_keys_of_colon_free_ids_are_separate :
  (forall u1 u2 t1 t2,
     colon_free u1 = true -> colon_free u2 = true ->
     relationships_cache_key u1 t1 = relationships_cache_key u2 t2 -> u1 = u2)
  /\ (forall u1 u2 t,
        colon_free u1 = true ->
        "user:" +:+ u1 <> relationships_cache_key u2 t)
  /\ "user:" +:+ "a:relationships:all" = relationships_cache_key "a" None.
Proof.
  split; [|split; [|reflexivity]].
  - intros u1 u2 t1 t2 F1 F2 E. unfold relationships_cache_key in E.
    apply append_inj_l in E. cbn in E.
    now destruct (colon_split _ _ _ _ F1 F2 E).
  - intros u1 u2 t F1 E. unfold relationships_cache_key in E.
    apply append_inj_l in E. cbn in E.
    exact (colon_free_no_colon _ _ _ F1 E).
Qed.

(** ** Reading a relationship list through the cache *)

Section RelationshipLists.
  Context {G : Type} `{GraphStore G} `{PyEnv} `{Pydantic}.
  Implicit Types w : world MemRedis.state G.

End RelationshipLists.

(** ** What the filtered queries depend on *)

(** X16.  The texts of the two filtered listings depend only on whether
    a filter is given: the user id, the limit and the filter itself
    never reach the text.  The user id is bound as the parameter id, the
    limit as limit, and a filter that is given is bound under its own
    name and is not bound at all when absent or empty. *)
Theorem filtered_listings_bind_their_filter :
  (forall user1 user2 filter1 filter2,
     truthy (opt_str filter1) = truthy (opt_str filter2) ->
     fst (get_user_relationships_request user1 filter1)
     = fst (get_user_relationships_request user2 filter2))
  /\ (forall user1 user2 filter1 filter2 limit1 limit2,
        truthy (opt_str filter1) = truthy (opt_str filter2) ->
        fst (get_user_interactions_request user1 filter1 limit1)
        = fst (get_user_interactions_request user2 filter2 limit2))
  /\ (forall user_id filter,
        let params := snd (get_user_relationships_request user_id filter) in
        dict_get "id" params = Some (VStr user_id)
        /\ dict_get "rel_type" params
           = if truthy (opt_str filter) then Some (opt_str filter) else None)
  /\ (forall user_id filter limit,
        let params := snd (get_user_interactions_request user_id filter limit) in
        dict_get "id" params = Some (VStr user_id)
        /\ dict_get "limit" params = Some (VInt limit)
        /\ dict_get "type" params
           = if truthy (opt_str filter) then Some (opt_str filter) else None).
Proof.
  split; [|split; [|split]].
  - intros u1 u2 f1 f2 E. unfold get_user_relationships_request. cbn [fst].
    now rewrite E.
  - intros u1 u2 f1 f2 l1 l2 E. unfold get_user_interactions_request. cbn [fst].
    now rewrite E.
  - intros user_id filter. unfold get_user_relationships_request. cbn [snd].
    destruct (truthy (opt_str filter)); split; reflexivity.
  - intros user_id filter limit. unfold get_user_interactions_request. cbn [snd].
    destruct (truthy (opt_str filter)); repeat split; reflexivity.
Qed.

(** ** Paths and communities *)

Section PathsAndCommunities.
  Context {R G : Type} `{RedisServer R} `{GraphStore G} `{PyEnv} `{Pydantic}.
  Implicit Types w : world R G.


Lemma community_detection_other algorithm :
    algorithm <> "louvain" ->
    Neo4jConnection.community_detection (R:=R) (G:=G) algorithm
    = Neo4jConnection.execute_read Cypher.label_propagation_query [].
  Proof.
    intros Hne. unfold Neo4jConnection.community_detection.
    apply String.eqb_neq in Hne. now rewrite Hne.
  Qed.

  (** X18.  [detect_communities] returns no community or exactly one,
      whose size is the number of its members.  It returns none, after
      the one read of the detection, when no row of the detection
      carries the id of the user.  The algorithm name is not checked:
      every name other than louvain runs label propagation. *)
Theorem communities_of_a_user_are_at_most_one user_id :
    (forall algorithm w cs w',
       detect_communities user_id algorithm w = (Return cs, w') ->
       cs = [] \/ exists c, cs = [c] /\ size c = Z.of_nat (length (members c)))
    /\ (forall algorithm w rows w1,
          Neo4jConnection.community_detection algorithm w = (Return rows, w1) ->
          user_community_of user_id rows = Return None ->
          detect_communities user_id algorithm w = (Return [], w1))
    /\ (forall algorithm1 algorithm2 w,
          algorithm1 <> "louvain" -> algorithm2 <> "louvain" ->
          detect_communities user_id algorithm1 w = detect_communities user_id algorithm2 w).
  Proof.
    split; [|split].
    - intros algorithm w cs w' E. unfold detect_communities in E.
      apply bind_inv in E. destruct E as [(communities & w1 & _ & E) | (e & _ & X)];
        [|discriminate X].
      apply bind_inv in E. destruct E as [(uc & w2 & _ & E) | (e & _ & X)];
        [|discriminate X].
      destruct uc as [uc|]; [|inversion E; now left].
      destruct (truthy (VDict uc)); [|inversion E; now left].
      apply bind_inv in E. destruct E as [(ms & w3 & _ & E) | (e & _ & X)];
        [|discriminate X].
      apply bind_inv in E. destruct E as [(ids & w4 & _ & E) | (e & _ & X)];
        [|discriminate X].
      apply bind_inv in E. destruct E as [(rows & w5 & _ & E) | (e & _ & X)];
        [|discriminate X].
      apply bind_inv in E. destruct E as [(mem & w6 & _ & E) | (e & _ & X)];
        [|discriminate X].
      apply bind_inv in E. destruct E as [(dens & w7 & _ & E) | (e & _ & X)];
        [|discriminate X].
      apply bind_inv in E. destruct E as [(cid & w8 & _ & E) | (e & _ & X)];
        [|discriminate X].
      inversion E; subst. right. eexists. split; reflexivity.
    - intros algorithm w rows w1 Hdet Hnone. unfold detect_communities.
      unfold bind at 1. rewrite Hdet. unfold bind at 1. unfold lift at 1.
      rewrite Hnone. reflexivity.
    - intros a1 a2 w N1 N2. unfold detect_communities.
      now rewrite (community_detection_other a1 N1), (community_detection_other a2 N2).
  Qed.

  (** X19.  [update_user] for an id that the store does not know (the
      write returns without a row) raises [IndexError]: the write is
      sent, the key of the user is invalidated, and then the first row
      is asked for.  The failure is not reported as a missing user. *)
Theorem update_of_an_unknown_user_raises_index_error user_id updates w w1 :
    redis_client w = true ->
    Neo4jConnection.execute_write
      (fst (update_user_request user_id updates (utcnow_at (draws w))))
      (snd (update_user_request user_id updates (utcnow_at (draws w))))
      (with_draws (S (draws w)) w)
    = (Return [], w1) ->
    exists w',
      update_user user_id updates w = (Raise IndexError, w')
      /\ neo4j_srv w' = neo4j_srv w1
      /\ trace w'
         = trace w
           ++ [EvWriteBegin
                 (fst (update_user_request user_id updates (utcnow_at (draws w))))
                 (snd (update_user_request user_id updates (utcnow_at (draws w))));
               EvWriteEnd true;
               EvCacheDelete ("user:" +:+ user_id)].
  Proof.
    intros C Hwrite.
    assert (C1 : redis_client w1 = true).
    { change (redis_client w) with (redis_client (with_draws (S (draws w)) w)) in C.
      rewrite <- C. eapply (preserves_use redis_client); [|exact Hwrite].
      unfold Neo4jConnection.execute_write. frames. }
    destruct (delete_connected ("user:" +:+ user_id) w1 C1) as (w2 & E2 & _).
    exists w2. split; [|split].
    - unfold update_user. unfold bind at 1. cbn [draw].
      destruct (update_user_request user_id updates (utcnow_at (draws w))) as [query params].
      cbn [fst snd] in Hwrite.
      unfold bind at 1. rewrite Hwrite. unfold bind at 1. rewrite E2. reflexivity.
    - eapply (preserves_use neo4j_srv); [|exact E2]. unfold RedisCache.delete. frames.
    - rewrite (cache_delete_trace _ _ _ _ E2), (execute_write_trace _ _ _ _ _ Hwrite).
      cbn [returned]. now rewrite <- app_assoc.
  Qed.
End PathsAndCommunities.

(** ** The request handlers *)

Section Handlers.
  Import Http.
  Context {R G : Type} `{RedisServer R} `{GraphStore G} `{PyEnv} `{Pydantic}.
  Implicit Types a : Main.app (R:=R) (G:=G).

Lemma endpoint_cases {A B} (call : M R G A) count (respond : A -> B) msg a :
    (exists result w,
       call (Main.graph_service a) = (Return result, w)
       /\ Main.endpoint call count respond msg a
          = (Ok (respond result), count (Main.with_service w a)))
    \/ (exists e w,
          call (Main.graph_service a) = (Raise e, w)
          /\ Main.endpoint call count respond msg a
             = (Raised (Main.internal_error e),
                Main.with_service (snd (log ERROR msg (Some e) w)) a)).
  Proof.
    unfold Main.endpoint.
    destruct (call (Main.graph_service a)) as [[result|e] w]; [left|right]; eauto.
  Qed.

Lemma endpoint_or_404_cases {A} (call : M R G (option A)) missing count msg a :
    (exists result w,
       call (Main.graph_service a) = (Return (Some result), w)
       /\ Main.endpoint_or_404 call missing count msg a
          = (Ok result, count (Main.with_service w a)))
    \/ (exists w,
          call (Main.graph_service a) = (Return None, w)
          /\ Main.endpoint_or_404 call missing count msg a
             = (Raised (Http {| status_code := 404; detail_of := Text missing |}),
                Main.with_service w a))
    \/ (exists e w,
          call (Main.graph_service a) = (Raise e, w)
          /\ Main.endpoint_or_404 call missing count msg a
             = (Raised (Main.internal_error e),
                Main.with_service (snd (log ERROR msg (Some e) w)) a)).
  Proof.
    unfold Main.endpoint_or_404.
    destruct (call (Main.graph_service a)) as [[[result|]|e] w];
      [left|right; left|right; right]; eauto.
  Qed.

Lemma verify_connectivity_returns (driver : bool) (w : world R G) :
    exists b w', Neo4jConnection.verify_connectivity driver w = (Return b, w')
                 /\ (driver = false -> b = false /\ w' = w).
  Proof.
    unfold Neo4jConnection.verify_connectivity. destruct driver.
    - unfold try_except, bind.
      destruct (neo4j_call neo4j_verify_connectivity w) as [[[]|e] w1]; cbn;
        eexists _, _; (split; [reflexivity|discriminate]).
    - exists false, w. split; [reflexivity|auto].
  Qed.

  (** The outcome of a request, by the kind of its handler. *)
Ltac by_cases a :=
    match goal with
    | |- context [Main.endpoint ?call ?count ?respond ?msg a] =>
        destruct (endpoint_cases call count respond msg a)
          as [(?result & ?w & ?Ecall & ->) | (?e & ?w & ?Ecall & ->)]
    | |- context [Main.endpoint_or_404 ?call ?missing ?count ?msg a] =>
        destruct (endpoint_or_404_cases call missing count msg a)
          as [(?result & ?w & ?Ecall & ->) | [(?w & ?Ecall & ->) | (?e & ?w & ?Ecall & ->)]]
    end.

Ltac open_handler :=
    unfold Main.create_user, Main.get_user, Main.get_user_relationships,
      Main.create_relationship, Main.delete_relationship, Main.record_interaction,
      Main.get_user_interactions, Main.execute_graph_query, Main.find_shortest_path,
      Main.get_user_communities, Main.calculate_influence_score,
      Main.recommend_connections, Main.reindex_graph, Main.get_graph_stats, Main.admin.

  (** X20.  Whatever the service, the store and the cache do, a request
      handler hands the framework a result or an [HTTPException]; no
      other exception leaves a handler.  The status is 500 with the text
      of the exception that was caught, or 404 from the two lookups whose
      result was absent, or 503 from the readiness check, or 401 from an
      administration handler, which then leaves the process untouched. *)
Theorem handlers_raise_http_exceptions_only (req : Main.request) a :
    fst (Main.handle req a) = None
    \/ (exists e, fst (Main.handle req a) = Some (Main.internal_error e))
    \/ (exists missing,
          fst (Main.handle req a)
          = Some (Http {| status_code := 404; detail_of := Text missing |})
          /\ ((exists user_id, req = Main.GET_users user_id)
              \/ (exists s t h, req = Main.GET_paths_shortest s t h)))
    \/ (fst (Main.handle req a)
        = Some (Http {| status_code := 503; detail_of := Text "Service not ready" |})
        /\ req = Main.GET_ready)
    \/ (fst (Main.handle req a)
        = Some (Http {| status_code := 401;
                        detail_of := Text "Invalid authentication credentials" |})
        /\ snd (Main.handle req a) = a
        /\ exists token, req = Main.POST_admin_reindex token
                         \/ req = Main.GET_admin_stats token).
  Proof.
    destruct req; cbn [Main.handle]; open_handler.
    - left. reflexivity.
    - unfold Main.readiness_check.
      destruct (verify_connectivity_returns (Main._driver a) (Main.graph_service a))
        as (b & w' & -> & _).
      destruct b; [left; reflexivity|]. right. right. right. left. split; reflexivity.
    - by_cases a; cbn; eauto.
    - by_cases a; cbn; eauto 8.
    - by_cases a; cbn; eauto.
    - by_cases a; cbn; eauto.
    - by_cases a; cbn; eauto.
    - by_cases a; cbn; eauto.
    - by_cases a; cbn; eauto.
    - by_cases a; cbn; eauto.
    - by_cases a; cbn; eauto 10.
    - by_cases a; cbn; eauto.
    - by_cases a; cbn; eauto.
    - by_cases a; cbn; eauto.
    - unfold Auth.get_current_user. destruct (negb _).
      + right. right. right. right. cbn. eauto.
      + by_cases a; cbn; eauto.
    - unfold Auth.get_current_user. destruct (negb _).
      + right. right. right. right. cbn. eauto.
      + by_cases a; cbn; eauto.
  Qed.

  (** What a request leaves of the process besides the service. *)
Lemma handle_counts (req : Main.request) a :
    exists l1 l2,
      Main.request_counter (snd (Main.handle req a)) = Main.request_counter a ++ l1
      /\ Main.query_counter (snd (Main.handle req a)) = Main.query_counter a ++ l2
      /\ (length l1 + length l2 <= 1)%nat
      /\ (fst (Main.handle req a) <> None -> l1 = [] /\ l2 = [])
      /\ Main._driver (snd (Main.handle req a)) = Main._driver a
      /\ Main.ADMIN_API_KEY (snd (Main.handle req a)) = Main.ADMIN_API_KEY a.
  Proof.
    destruct req; cbn [Main.handle]; open_handler;
      try (unfold Auth.get_current_user; destruct (negb _));
      try by_cases a; cbn;
      try (unfold Main.readiness_check;
           destruct (verify_connectivity_returns (Main._driver a) (Main.graph_service a))
             as (b & w' & -> & _); destruct b; cbn);
      first [ exists [], []; rewrite !app_nil_r; repeat split; cbn; lia
            | eexists [_], []; rewrite !app_nil_r; repeat split; cbn;
              first [lia | congruence]
            | eexists [], [_]; rewrite !app_nil_r; repeat split; cbn;
              first [lia | congruence] ].
  Qed.

  (** X21.  Only requests that are answered are counted: a request whose
      handler raises adds nothing to the two label counters of the
      process, and an answered request adds at most one label.  No
      request changes the handle of the synchronous driver or the
      administration key. *)
Theorem only_answered_requests_are_counted (req : Main.request) a :
    exists l1 l2,
      Main.request_counter (snd (Main.handle req a)) = Main.request_counter a ++ l1
      /\ Main.query_counter (snd (Main.handle req a)) = Main.query_counter a ++ l2
      /\ (length l1 + length l2 <= 1)%nat
      /\ (fst (Main.handle req a) <> None -> l1 = [] /\ l2 = [])
      /\ Main._driver (snd (Main.handle req a)) = Main._driver a
      /\ Main.ADMIN_API_KEY (snd (Main.handle req a)) = Main.ADMIN_API_KEY a.
  Proof. exact (handle_counts req a). Qed.

Lemma serve_keeps_driver : forall (reqs : list Main.request) a,
    Main._driver (Main.serve reqs a) = Main._driver a.
  Proof.
    induction reqs as [|req reqs IH]; intros a; [reflexivity|].
    cbn [Main.serve fold_left]. fold (Main.serve reqs (snd (Main.handle req a))).
    rewrite IH. destruct (handle_counts req a) as (l1 & l2 & _ & _ & _ & _ & D & _).
    exact D.
  Qed.

  (** X22.  The readiness check never reports ready.  The process
      starts without a synchronous driver, no request handler creates
      one, and without one [verify_connectivity] answers [False]: after
      any sequence of requests, over any store and cache, the check
      raises 503, without asking the store. *)
Theorem readiness_check_never_reports_ready
      (redis : R) (neo4j : G) (key : option string) (reqs : list Main.request) :
    let a := Main.serve reqs (Main.started redis neo4j key) in
    fst (Main.readiness_check a)
    = Raised (Http {| status_code := 503; detail_of := Text "Service not ready" |})
    /\ neo4j_srv (Main.graph_service (snd (Main.readiness_check a)))
       = neo4j_srv (Main.graph_service a).
  Proof.
    intros a.
    assert (D : Main._driver a = false) by (unfold a; now rewrite serve_keeps_driver).
    unfold Main.readiness_check. rewrite D. cbn. split; reflexivity.
  Qed.

  (** X24.  The two administration handlers run only for the right
      token.  With any other token they raise 401 and leave the process
      as it was: nothing is sent to the store.  With the right token
      (the built-in default when the environment names none), the
      reindex handler always answers with its success message, whatever
      became of the statements it sent. *)
Theorem administration_needs_the_key (token : string) a :
    (token <> default "admin-secret-key" (Main.ADMIN_API_KEY a) ->
       Main.reindex_graph token a
       = (Raised (Http {| status_code := 401;
                          detail_of := Text "Invalid authentication credentials" |}), a)
       /\ Main.get_graph_stats token a
          = (Raised (Http {| status_code := 401;
                             detail_of := Text "Invalid authentication credentials" |}), a))
    /\ (token = default "admin-secret-key" (Main.ADMIN_API_KEY a) ->
        exists tr a',
          Main.reindex_graph token a
          = (Ok (VDict [("message", VStr "Graph reindexed successfully")]), a')
          /\ trace (Main.graph_service a') = trace (Main.graph_service a) ++ tr
          /\ writes_begun tr = Cypher.constraint_statements ++ Cypher.index_statements).
  Proof.
    split.
    - intros Hne. apply String.eqb_neq in Hne.
      unfold Main.reindex_graph, Main.get_graph_stats, Main.admin, Auth.get_current_user.
      rewrite Hne. split; reflexivity.
    - intros ->.
      unfold Main.reindex_graph, Main.admin, Auth.get_current_user.
      rewrite String.eqb_refl. cbn [negb].
      destruct (schema_statements_returns "Graph reindexed successfully" (Main.graph_service a))
        as (tr & l & w' & E & T & W & _).
      unfold Main.endpoint. unfold reindex. rewrite E.
      exists tr. eexists. split; [reflexivity|]. split; [exact T|exact W].
  Qed.
End Handlers.

(** ** A user that is not there, at the handler *)

Section NotFoundHandler.
  Import Http.
  Context `{PyEnv} `{Pydantic}.
  Implicit Types a : Main.app (R:=MemRedis.state) (G:=MemGraph.state).

  (** X23.  Over a healthy in-memory cache that has no entry for the
      user and an in-memory graph that has no such user, the lookup
      handler raises 404 with the text User not found, not 500; the
      request is not counted, the cache holds what it held and the graph
      is as it was. *)
Theorem unknown_user_is_answered_with_404 user_id a :
    healthy (Main.graph_service a) ->
    cached (Main.graph_service a) !! ("user:" +:+ user_id) = None ->
    MemGraph.user_exists (neo4j_srv (Main.graph_service a)) user_id = false ->
    exists a',
      Main.get_user user_id a
      = (Raised (Http {| status_code := 404; detail_of := Text "User not found" |}), a')
      /\ cached (Main.graph_service a') = cached (Main.graph_service a)
      /\ neo4j_srv (Main.graph_service a') = neo4j_srv (Main.graph_service a)
      /\ Main.request_counter a' = Main.request_counter a.
  Proof.
    intros Hw Hk Hu. set (w := Main.graph_service a) in *.
    destruct (healthy_get ("user:" +:+ user_id) w Hw) as (w1 & E1 & A1 & K1 & _).
    rewrite Hk in E1. cbn [fmap option_fmap option_map] in E1.
    destruct (mem_execute_read Cypher.get_user_query [("id", VStr user_id)] w1)
      as (w2 & E2 & G2).
    assert (Hrows : MemGraph.run_read Cypher.get_user_query [("id", VStr user_id)]
                      (neo4j_srv w1) = Return []).
    { unfold MemGraph.run_read. dispatch. cbn.
      unfold MemGraph.get_user_rows.
      rewrite (cache_get_store _ _ _ _ E1 : neo4j_srv w1 = neo4j_srv w).
      now rewrite (users_with_none _ _ Hu). }
    rewrite Hrows in E2.
    assert (Eget : SocialGraphService.get_user user_id w = (Return None, w2)).
    { unfold SocialGraphService.get_user. unfold bind at 1. rewrite E1. cbn [cache_hit].
      unfold get_user_from_store. unfold bind at 1. rewrite E2. reflexivity. }
    unfold Main.get_user, Main.endpoint_or_404. fold w. rewrite Eget.
    eexists. split; [reflexivity|]. cbn.
    destruct (execute_read_healthy _ _ _ _ _ A1 E2) as [_ K2].
    split; [congruence|]. split; [|reflexivity].
    rewrite G2. exact (cache_get_store _ _ _ _ E1).
  Qed.
End NotFoundHandler.

(** ** What the handlers never do *)

Section ReadsOnly.
  Context {R G : Type} `{RedisServer R} `{GraphStore G} `{PyEnv} `{Pydantic}.
  Implicit Types w : world R G.

Lemma reads_only_quiet {A} (m : M R G A) : preserves trace m -> reads_only m.
  Proof.
    intros P w r w' E. exists []. rewrite app_nil_r. split; [|reflexivity].
    exact (P _ _ _ E).
  Qed.

Lemma reads_only_bind {A B} (m : M R G A) (k : A -> M R G B) :
    reads_only m -> (forall a, reads_only (k a)) -> reads_only (bind m k).
  Proof.
    intros Hm Hk w r w' E. apply bind_inv in E.
    destruct E as [(a & w1 & E1 & E2) | (e & E1 & _)].
    - destruct (Hm _ _ _ E1) as (tr1 & T1 & W1).
      destruct (Hk a _ _ _ E2) as (tr2 & T2 & W2).
      exists (tr1 ++ tr2). rewrite T2, T1, writes_begun_app, W1, W2.
      split; [now rewrite app_assoc|reflexivity].
    - exact (Hm _ _ _ E1).
  Qed.

Lemma reads_only_try {A} (m : M R G A) (h : exn -> M R G A) :
    reads_only m -> (forall e, reads_only (h e)) -> reads_only (try_except m h).
  Proof.
    intros Hm Hh w r w' E. unfold try_except in E.
    destruct (m w) as [[a|e] w1] eqn:E1.
    - inversion E; subst. exact (Hm _ _ _ E1).
    - destruct (Hm _ _ _ E1) as (tr1 & T1 & W1).
      destruct (Hh e _ _ _ E) as (tr2 & T2 & W2).
      exists (tr1 ++ tr2). rewrite T2, T1, writes_begun_app, W1, W2.
      split; [now rewrite app_assoc|reflexivity].
  Qed.

Lemma reads_only_read query params :
    reads_only (Neo4jConnection.execute_read (R:=R) (G:=G) query params).
  Proof.
    intros w r w' E. apply execute_read_trace in E.
    eexists. split; [exact E|reflexivity].
  Qed.

Lemma reads_only_get key : reads_only (RedisCache.get (R:=R) (G:=G) key).
  Proof.
    intros w r w' E. apply cache_get_trace in E.
    eexists. split; [exact E|reflexivity].
  Qed.

Lemma reads_only_set key v expire : reads_only (RedisCache.set (R:=R) (G:=G) key v expire).
  Proof.
    intros w r w' E. apply cache_set_trace in E.
    eexists. split; [exact E|reflexivity].
  Qed.
End ReadsOnly.

Ltac reading :=
  repeat first
    [ apply reads_only_read | apply reads_only_get | apply reads_only_set
    | apply reads_only_bind; [|intro] | apply reads_only_try; [|intro]
    | match goal with
      | |- reads_only (match ?v with _ => _ end) => destruct v
      | |- reads_only (if ?b then _ else _) => destruct b
      | |- reads_only (let (_, _) := ?p in _) => destruct p
      end
    | solve [apply reads_only_quiet; frames] ].

Section HandlerFrames.
  Import Http.
  Context {R G : Type} `{RedisServer R} `{GraphStore G} `{PyEnv} `{Pydantic}.
  Implicit Types w : world R G.
  Implicit Types a : Main.app (R:=R) (G:=G).

Lemma reads_only_get_user user_id : reads_only (get_user (R:=R) (G:=G) user_id).
  Proof. unfold get_user, get_user_from_store. reading. Qed.

Lemma reads_only_relationships user_id rel_type :
    reads_only (get_user_relationships (R:=R) (G:=G) user_id rel_type).
  Proof. unfold get_user_relationships. cbv zeta. reading. Qed.

Lemma reads_only_interactions user_id interaction_type limit :
    reads_only (get_user_interactions (R:=R) (G:=G) user_id interaction_type limit).
  Proof. unfold get_user_interactions. reading. Qed.

Lemma reads_only_query cypher parameters :
    reads_only (execute_query (R:=R) (G:=G) cypher parameters).
  Proof. unfold execute_query. reading. Qed.

Lemma reads_only_path source_id target_id max_hops :
    reads_only (find_shortest_path (R:=R) (G:=G) source_id target_id max_hops).
  Proof.
    unfold find_shortest_path, Neo4jConnection.shortest_path. reading.
  Qed.

Lemma reads_only_density members :
    reads_only (_calculate_community_density (R:=R) (G:=G) members).
  Proof. unfold _calculate_community_density. reading. Qed.

Lemma reads_only_communities user_id algorithm :
    reads_only (detect_communities (R:=R) (G:=G) user_id algorithm).
  Proof.
    unfold detect_communities, Neo4jConnection.community_detection.
    repeat first
      [ apply reads_only_density | apply reads_only_read
      | apply reads_only_bind; [|intro]
      | match goal with
        | |- reads_only (match ?v with _ => _ end) => destruct v
        | |- reads_only (if ?b then _ else _) => destruct b
        end
      | solve [apply reads_only_quiet; frames] ].
  Qed.

Lemma reads_only_influence user_id :
    reads_only (calculate_influence_score (R:=R) (G:=G) user_id).
  Proof.
    unfold calculate_influence_score, Neo4jConnection.centrality_measures,
      Neo4jConnection.measure.
    reading.
  Qed.

Lemma reads_only_recommendations user_id limit :
    reads_only (recommend_connections (R:=R) (G:=G) user_id limit).
  Proof. unfold recommend_connections. reading. Qed.

Lemma reads_only_statistics : reads_only (get_statistics (R:=R) (G:=G)).
  Proof. unfold get_statistics, Neo4jConnection.get_statistics. reading. Qed.

Lemma reads_only_verify driver :
    reads_only (Neo4jConnection.verify_connectivity (R:=R) (G:=G) driver).
  Proof. unfold Neo4jConnection.verify_connectivity. reading. Qed.

Lemma outcome_of_snd {A} (r : Http.answer A * Main.app (R:=R) (G:=G)) :
    snd (Main.outcome_of r) = snd r.
  Proof. destruct r as [[x|x] a']; reflexivity. Qed.

  (** A handler body adds to the trace what its call adds. *)
Lemma endpoint_trace {A B} (call : M R G A) count (respond : A -> B) msg a :
    (forall a', trace (Main.graph_service (count a')) = trace (Main.graph_service a')) ->
    reads_only call ->
    exists tr,
      trace (Main.graph_service (snd (Main.endpoint call count respond msg a)))
      = trace (Main.graph_service a) ++ tr
      /\ writes_begun tr = [].
  Proof.
    intros Hc Hr. unfold Main.endpoint.
    destruct (call (Main.graph_service a)) as [[result|e] w] eqn:E;
      destruct (Hr _ _ _ E) as (tr & T & W); exists tr; cbn [snd];
      rewrite ?Hc; cbn; auto.
  Qed.

Lemma endpoint_or_404_trace {A} (call : M R G (option A)) missing count msg a :
    (forall a', trace (Main.graph_service (count a')) = trace (Main.graph_service a')) ->
    reads_only call ->
    exists tr,
      trace (Main.graph_service (snd (Main.endpoint_or_404 call missing count msg a)))
      = trace (Main.graph_service a) ++ tr
      /\ writes_begun tr = [].
  Proof.
    intros Hc Hr. unfold Main.endpoint_or_404.
    destruct (call (Main.graph_service a)) as [[[result|]|e] w] eqn:E;
      destruct (Hr _ _ _ E) as (tr & T & W); exists tr; cbn [snd];
      rewrite ?Hc; cbn; auto.
  Qed.

  (** X25.  A request that is not one of the five that change the graph
      (creating a user, a relationship or an interaction, deleting a
      relationship, reindexing) opens no write transaction, whatever it
      is given and whatever the store answers: among the events its
      handler adds there is no store write.  This includes the handler
      of custom queries, which runs whatever text it is given in a read
      transaction. *)
Theorem reading_requests_open_no_write_transaction (req : Main.request) a :
    writes_graph req = false ->
    exists tr,
      trace (Main.graph_service (snd (Main.handle req a)))
      = trace (Main.graph_service a) ++ tr
      /\ writes_begun tr = [].
  Proof.
    intros Hreq.
    assert (Hnil : exists tr, trace (Main.graph_service a) = trace (Main.graph_service a) ++ tr
                              /\ writes_begun tr = [])
      by (exists []; now rewrite app_nil_r).
    destruct req; try discriminate Hreq; cbn [Main.handle].
    - exact Hnil.
    - unfold Main.readiness_check.
      destruct (Neo4jConnection.verify_connectivity _ _) as [[[]|e] w] eqn:E;
        destruct (reads_only_verify _ _ _ _ E) as (tr & T & W); exists tr; cbn; auto.
    - rewrite outcome_of_snd. apply endpoint_or_404_trace; [reflexivity|apply reads_only_get_user].
    - rewrite outcome_of_snd. apply endpoint_trace; [reflexivity|apply reads_only_relationships].
    - rewrite outcome_of_snd. apply endpoint_trace; [reflexivity|apply reads_only_interactions].
    - rewrite outcome_of_snd. apply endpoint_trace; [reflexivity|apply reads_only_query].
    - rewrite outcome_of_snd. apply endpoint_or_404_trace; [reflexivity|apply reads_only_path].
    - rewrite outcome_of_snd. apply endpoint_trace; [reflexivity|apply reads_only_communities].
    - rewrite outcome_of_snd. apply endpoint_trace; [reflexivity|apply reads_only_influence].
    - rewrite outcome_of_snd. apply endpoint_trace; [reflexivity|apply reads_only_recommendations].
    - rewrite outcome_of_snd. unfold Main.get_graph_stats, Main.admin.
      destruct (Auth.get_current_user _ _); [|exact Hnil].
      apply endpoint_trace; [reflexivity|apply reads_only_statistics].
  Qed.
End HandlerFrames.

(** ** Which requests go through the cache *)

Section CacheBypass.
  Import Http.
  Context {R G : Type} `{RedisServer R} `{GraphStore G} `{PyEnv} `{Pydantic}.
  Implicit Types w : world R G.
  Implicit Types a : Main.app (R:=R) (G:=G).

Ltac store_only :=
    frame_with ltac:(first [ apply ensure_driver_frame | apply connect_async_frame ];
                     repeat split).

Lemma read_bypasses query params :
    preserves (cache_side (R:=R) (G:=G)) (Neo4jConnection.execute_read query params).
  Proof. unfold Neo4jConnection.execute_read. store_only. Qed.

Lemma write_bypasses query params :
    preserves (cache_side (R:=R) (G:=G)) (Neo4jConnection.execute_write query params).
  Proof. unfold Neo4jConnection.execute_write. store_only. Qed.

Ltac bypassing :=
    repeat first
      [ apply read_bypasses | apply write_bypasses
      | apply preserves_ret | apply preserves_raise | apply preserves_lift
      | apply preserves_bind; [|intro] | apply preserves_try; [|intro]
      | match goal with
        | |- preserves _ (match ?v with _ => _ end) => destruct v
        | |- preserves _ (if ?b then _ else _) => destruct b
        end
      | solve [primitive] ].

Lemma for_each_bypasses created failed : forall statements,
    preserves (cache_side (R:=R) (G:=G))
      (Neo4jConnection.for_each (Neo4jConnection.create_one created failed) statements).
  Proof.
    induction statements as [|s statements IH]; cbn [Neo4jConnection.for_each].
    - apply preserves_ret.
    - apply preserves_bind; [|intro; exact IH].
      unfold Neo4jConnection.create_one. bypassing.
  Qed.

Lemma density_bypasses members :
    preserves (cache_side (R:=R) (G:=G)) (_calculate_community_density members).
  Proof. unfold _calculate_community_density. bypassing. Qed.

Lemma endpoint_bypasses {A B} (call : M R G A) count (respond : A -> B) msg a :
    (forall a', Main.graph_service (count a') = Main.graph_service a') ->
    preserves (cache_side (R:=R) (G:=G)) call ->
    cache_side (Main.graph_service (snd (Main.endpoint call count respond msg a)))
    = cache_side (Main.graph_service a).
  Proof.
    intros Hc P. unfold Main.endpoint.
    destruct (call (Main.graph_service a)) as [[result|e] w] eqn:E;
      cbn [snd]; rewrite ?Hc; cbn; exact (P _ _ _ E).
  Qed.

Lemma endpoint_or_404_bypasses {A} (call : M R G (option A)) missing count msg a :
    (forall a', Main.graph_service (count a') = Main.graph_service a') ->
    preserves (cache_side (R:=R) (G:=G)) call ->
    cache_side (Main.graph_service (snd (Main.endpoint_or_404 call missing count msg a)))
    = cache_side (Main.graph_service a).
  Proof.
    intros Hc P. unfold Main.endpoint_or_404.
    destruct (call (Main.graph_service a)) as [[[result|]|e] w] eqn:E;
      cbn [snd]; rewrite ?Hc; cbn; exact (P _ _ _ E).
  Qed.

  (** X26.  Only four requests go through the cache: creating a user,
      looking a user up, listing relationships and creating a
      relationship.  The handler of any other request leaves the cache
      server and the cache client as they were: interactions, paths,
      communities, scores, recommendations and statistics are never
      cached, and deleting a relationship invalidates nothing. *)
Theorem other_requests_leave_the_cache_alone (req : Main.request) a :
    uses_cache req = false ->
    redis_srv (Main.graph_service (snd (Main.handle req a)))
    = redis_srv (Main.graph_service a)
    /\ redis_client (Main.graph_service (snd (Main.handle req a)))
       = redis_client (Main.graph_service a).
  Proof.
    intros Hreq.
    assert (Hgoal : cache_side (Main.graph_service (snd (Main.handle req a)))
                    = cache_side (Main.graph_service a)).
    { destruct req; try discriminate Hreq; cbn [Main.handle];
        rewrite ?outcome_of_snd; try reflexivity.
      - unfold Main.readiness_check.
        destruct (Neo4jConnection.verify_connectivity _ _) as [[[]|e] w] eqn:E; cbn;
          eapply (preserves_use (cache_side (R:=R) (G:=G))); try exact E;
          unfold Neo4jConnection.verify_connectivity; bypassing.
      - apply endpoint_bypasses; [reflexivity|].
        unfold delete_relationship. bypassing.
      - apply endpoint_bypasses; [reflexivity|].
        unfold record_interaction. bypassing.
      - apply endpoint_bypasses; [reflexivity|].
        unfold get_user_interactions. bypassing.
      - apply endpoint_bypasses; [reflexivity|].
        unfold execute_query. bypassing.
      - apply endpoint_or_404_bypasses; [reflexivity|].
        unfold find_shortest_path, Neo4jConnection.shortest_path. bypassing.
      - apply endpoint_bypasses; [reflexivity|].
        unfold detect_communities, Neo4jConnection.community_detection.
        repeat first
          [ apply density_bypasses | apply read_bypasses
          | apply preserves_ret | apply preserves_lift
          | apply preserves_bind; [|intro]
          | match goal with
            | |- preserves _ (match ?v with _ => _ end) => destruct v
            | |- preserves _ (if ?b then _ else _) => destruct b
            end ].
      - apply endpoint_bypasses; [reflexivity|].
        unfold calculate_influence_score, Neo4jConnection.centrality_measures,
          Neo4jConnection.measure. bypassing.
      - apply endpoint_bypasses; [reflexivity|].
        unfold recommend_connections. bypassing.
      - unfold Main.reindex_graph, Main.admin.
        destruct (Auth.get_current_user _ _); [|reflexivity].
        apply endpoint_bypasses; [reflexivity|].
        unfold reindex, Neo4jConnection.create_constraints, Neo4jConnection.create_indexes.
        repeat first [ apply for_each_bypasses | apply preserves_bind; [|intro]
                     | solve [primitive] ].
      - unfold Main.get_graph_stats, Main.admin.
        destruct (Auth.get_current_user _ _); [|reflexivity].
        apply endpoint_bypasses; [reflexivity|].
        unfold get_statistics, Neo4jConnection.get_statistics. bypassing. }
    unfold cache_side in Hgoal. now inversion Hgoal.
  Qed.
End CacheBypass.

(** ** The request middleware *)

Section Middleware.
  Context {T : Type} `{PyEnv}.
  Variable time : T -> Q.
  Variable call_next : Monitoring.Request -> T -> outcome Monitoring.Response * T.

  (** X27.  Around every request the middleware leaves the gauge of
      active connections where it found it, whether the rest of the
      application returned or raised; it counts the request exactly
      once, under the status of the response or under 500 when an
      exception passed through, which it raises again unchanged; and it
      observes a duration, and sets the process-time header, only for a
      request that returned. *)
Theorem middleware_counts_once_and_balances_the_gauge
      (request : Monitoring.Request) (m : Monitoring.metrics) (t : T) :
    let r := Monitoring.monitor_requests time call_next request (m, t) in
    Monitoring.active_connections (fst (snd r)) = Monitoring.active_connections m
    /\ snd (snd r) = snd (call_next request t)
    /\ match fst (call_next request t) with
       | Return response =>
           exists text,
             fst r = Return {| Monitoring.status_code := Monitoring.status_code response;
                               Monitoring.headers :=
                                 Monitoring.set_header "X-Process-Time" text
                                   (Monitoring.headers response) |}
             /\ Monitoring.http_requests_total (fst (snd r))
                = Monitoring.http_requests_total m
                  ++ [(Monitoring.method request, Monitoring.url_path request,
                       Monitoring.status_code response)]
             /\ Monitoring.http_request_duration (fst (snd r))
                = Monitoring.http_request_duration m
                  ++ [(Monitoring.method request, Monitoring.url_path request,
                       (time (snd (call_next request t)) - time t)%Q)]
       | Raise e =>
           fst r = Raise e
           /\ Monitoring.http_requests_total (fst (snd r))
              = Monitoring.http_requests_total m
                ++ [(Monitoring.method request, Monitoring.url_path request, 500%Z)]
           /\ Monitoring.http_request_duration (fst (snd r))
              = Monitoring.http_request_duration m
       end.
  Proof.
    cbv zeta. unfold Monitoring.monitor_requests.
    destruct (call_next request t) as [[response|e] t']; cbn.
    - split; [lia|]. split; [reflexivity|]. eexists. repeat split.
    - split; [lia|]. repeat split.
  Qed.
End Middleware.

(** ** Results that the service cannot build *)

Section Unbuildable.
  Context {R G : Type} `{RedisServer R} `{GraphStore G} `{PyEnv} `{Pydantic}.
  Implicit Types w : world R G.

  (** X28.  [create_user] hands the constructor of [User] the returned
      node and the id once more.  So whenever the store returns the
      created node with its [id] property, as a store does that was told
      to create it with one, [create_user] raises [TypeError], after the
      write has returned and the key was invalidated: the user exists in
      the store, and the caller gets an error. *)
Theorem create_user_raises_on_a_node_that_carries_its_id
      user_data metadata (r0 : pydict) rows (d : pydict) i w w1 :
    redis_client w = true ->
    json_dumps (opt_dict (uc_metadata user_data)) = Return metadata ->
    Neo4jConnection.execute_write Cypher.create_user_query
      (create_user_params (uuid4_at (draws w)) (utcnow_at (S (draws w))) metadata user_data)
      (with_draws (S (S (draws w))) w)
    = (Return (r0 :: rows), w1) ->
    dict_get "u" r0 = Some (VDict d) ->
    dict_get "id" d = Some i ->
    exists w',
      create_user user_data w = (Raise TypeError, w')
      /\ neo4j_srv w' = neo4j_srv w1
      /\ trace w'
         = trace w
           ++ [EvWriteBegin Cypher.create_user_query
                 (create_user_params (uuid4_at (draws w)) (utcnow_at (S (draws w)))
                                     metadata user_data);
               EvWriteEnd true;
               EvCacheDelete ("user:" +:+ uuid4_at (draws w))].
  Proof.
    intros C Hjson Hwrite Hu Hid.
    assert (C1 : redis_client w1 = true).
    { change (redis_client w) with (redis_client (with_draws (S (S (draws w))) w)) in C.
      rewrite <- C. eapply (preserves_use redis_client); [|exact Hwrite].
      unfold Neo4jConnection.execute_write. frames. }
    destruct (delete_connected ("user:" +:+ uuid4_at (draws w)) w1 C1) as (w2 & E2 & _).
    exists w2. split; [|split].
    - unfold create_user. unfold bind at 1. cbn [draw]. unfold bind at 1. cbn [draw].
      unfold bind at 1. unfold lift at 1. rewrite Hjson.
      change (with_draws (S (draws (with_draws (S (draws w)) w)))
                         (with_draws (S (draws w)) w))
        with (with_draws (S (S (draws w))) w).
      change (draws (with_draws (S (draws w)) w)) with (S (draws w)).
      unfold bind at 1. rewrite Hwrite. unfold bind at 1. rewrite E2.
      unfold bind, lift. cbn [list_item nth_error]. unfold dict_item. rewrite Hu.
      cbn [User_with_id]. rewrite Hid. reflexivity.
    - eapply (preserves_use neo4j_srv); [|exact E2]. unfold RedisCache.delete. frames.
    - rewrite (cache_delete_trace _ _ _ _ E2), (execute_write_trace _ _ _ _ _ Hwrite).
      cbn [returned]. now rewrite <- app_assoc.
  Qed.

  (** X29.  The loop of [get_user_relationships] indexes the returned
      relationship by field name.  So when the first row holds the
      relationship as anything but a dict (the driver renders a
      relationship as the triple of start node, type and end node), a
      listing that misses the cache raises [TypeError] after its read;
      nothing is written to the cache. *)
Theorem relationship_that_is_not_a_dict_raises_type_error
      user_id rel_type c (r0 : pydict) rows (r : value) w w1 w2 :
    RedisCache.get (relationships_cache_key user_id rel_type) w = (Return c, w1) ->
    cache_hit c = false ->
    Neo4jConnection.execute_read
      (fst (get_user_relationships_request user_id rel_type))
      (snd (get_user_relationships_request user_id rel_type)) w1
    = (Return (r0 :: rows), w2) ->
    dict_get "r" r0 = Some r ->
    (forall d, r <> VDict d) ->
    get_user_relationships user_id rel_type w = (Raise TypeError, w2)
    /\ trace w2
       = trace w
         ++ [EvCacheGet (relationships_cache_key user_id rel_type);
             EvReadBegin (fst (get_user_relationships_request user_id rel_type))
                         (snd (get_user_relationships_request user_id rel_type));
             EvReadEnd true].
  Proof.
    intros Hget Hmiss Hread Hr Hnd. split.
    - unfold get_user_relationships. cbv zeta.
      unfold bind at 1. rewrite Hget, Hmiss.
      destruct (get_user_relationships_request user_id rel_type) as [query params].
      cbn [fst snd] in Hread.
      unfold bind at 1. rewrite Hread.
      unfold bind at 1. unfold lift at 1.
      cbn [omap]. unfold relationship_of_row at 1. unfold dict_item at 1. rewrite Hr.
      cbn [obind].
      assert (Hs : subscript r "id" = Raise TypeError).
      { destruct r; try reflexivity. exfalso. now apply (Hnd d). }
      rewrite Hs. reflexivity.
    - rewrite (execute_read_trace _ _ _ _ _ Hread), (cache_get_trace _ _ _ _ Hget).
      cbn [returned]. now rewrite <- app_assoc.
  Qed.
End Unbuildable.

(** ** The further properties on concrete worlds *)

Section MoreConcrete.
  Import Scenario.

  (** X1 at a concrete input: the first lookup on the unreachable cache
      raises, and the handle is set afterwards. *)
Lemma failed_ping_witness :
    exists w',
      RedisCache.run_op 0 (RedisCache.OpGet "user:a") unreachable_cache
      = Some (Raise ConnectionError, w')
      /\ redis_client w' = true
      /\ forall e w2,
           RedisCache.run_op 0 (RedisCache.OpGet "user:a") w' <> Some (Raise e, w2).
  Proof.
    set (w' := snd (RedisCache.get "user:a" unreachable_cache)).
    assert (E : RedisCache.run_op 0 (RedisCache.OpGet "user:a") unreachable_cache
                = Some (Raise ConnectionError, w')) by (vm_compute; reflexivity).
    assert (O : redis_open (redis_srv unreachable_cache)
                = (Return tt, MemRedis.State ∅ [true])) by (vm_compute; reflexivity).
    destruct (failed_ping_leaves_the_handle_set 0 (RedisCache.OpGet "user:a")
                unreachable_cache ConnectionError w' _ E O) as [C N].
    exists w'. split; [exact E|]. split; [exact C|].
    intros e w2. apply N.
  Defined.

Lemma set_then_get_witness :
    exists w1 w2,
      RedisCache.set "k" (VList [VInt 1; VInt 2]) 60 (world_of ∅ [] two_users)
      = (Return true, w1)
      /\ RedisCache.get "k" w1 = (Return (Some "[1, 2]"), w2).
  Proof.
    assert (Hw : healthy (world_of ∅ [] two_users)) by reflexivity.
    assert (He : (0 < 60)%Z) by lia.
    assert (Hv : VList [VInt 1; VInt 2] = VStr "[1, 2]"
                 \/ (((exists d, VList [VInt 1; VInt 2] = VDict d)
                      \/ (exists l, VList [VInt 1; VInt 2] = VList l))
                     /\ json_dumps (VList [VInt 1; VInt 2]) = Return "[1, 2]")).
    { right. split; [right; eexists; reflexivity|vm_compute; reflexivity]. }
    destruct (set_then_get_returns_the_stored_text "k" (VList [VInt 1; VInt 2]) "[1, 2]" 60
                (world_of ∅ [] two_users) Hw He Hv) as (w1 & w2 & _ & _ & E1 & E2 & _).
    exists w1, w2. split; assumption.
  Defined.

Lemma set_many_witness :
    exists w',
      RedisCache.set_many [("n", VNone); ("s", VStr "x")] 60 (world_of ∅ [] two_users)
      = (Return true, w')
      /\ cached w' !! "n" = Some ("None", 60%Z)
      /\ cached w' !! "s" = Some ("x", 60%Z).
  Proof.
    assert (Hw : healthy (world_of ∅ [] two_users)) by reflexivity.
    assert (He : (0 < 60)%Z) by lia.
    assert (Hnd : List.NoDup (dict_keys [("n", VNone); ("s", VStr "x")])).
    { repeat constructor; cbn; intuition discriminate. }
    assert (Hser : forall k v, In (k, v) [("n", VNone); ("s", VStr "x")] ->
                     match v with
                     | VDict _ | VList _ => exists s, json_dumps v = Return s
                     | _ => True
                     end).
    { intros k v [E|[E|[]]]; inversion E; exact I. }
    destruct (set_many_stores_the_text_of_every_value [("n", VNone); ("s", VStr "x")] 60
                (world_of ∅ [] two_users) Hw He Hnd Hser) as (w' & E & Hin & _).
    exists w'. split; [exact E|]. split.
    - destruct (Hin "n" VNone (or_introl eq_refl)) as (s & Hs & ->). exact Hs.
    - destruct (Hin "s" (VStr "x") (or_intror (or_introl eq_refl))) as (s & Hs & ->).
      exact Hs.
  Defined.

Lemma set_refuses_none_witness :
    exists w',
      RedisCache.set "n" VNone 60 flaky_cache = (Return false, w')
      /\ redis_srv w' = redis_srv flaky_cache.
  Proof.
    destruct (set_refuses_none_and_booleans "n" VNone 60 flaky_cache eq_refl
                (or_introl eq_refl)) as (w' & E & S & _).
    exists w'. split; assumption.
  Defined.

Lemma get_many_witness :
    exists d w',
      RedisCache.get_many ["user:a"; "user:b"] (world_of ann_cached [] two_users)
      = (Return d, w')
      /\ dict_get "user:a" d = Some (VStr ann_text)
      /\ dict_get "user:b" d = None.
  Proof.
    assert (Hw : healthy (world_of ann_cached [] two_users)) by reflexivity.
    destruct (get_many_returns_the_requested_keys_that_exist ["user:a"; "user:b"]
                (world_of ann_cached [] two_users) Hw) as (d & w' & E & _ & Hin & _).
    exists d, w'. split; [exact E|]. split.
    - rewrite (Hin "user:a") by (now left). vm_compute. reflexivity.
    - rewrite (Hin "user:b") by (right; now left). vm_compute. reflexivity.
  Defined.


  (** X7 at a concrete input: Ann is served from the cache while the
      store is down. *)
Lemma cached_user_witness :
    exists w',
      get_user (H1:=parsing) "a" store_down
      = (Return (Some {| user_id := "a"; user_fields := ann_fields |}), w')
      /\ neo4j_srv w' = neo4j_srv store_down.
  Proof.
    assert (Hw : healthy store_down) by reflexivity.
    assert (Hk : cached store_down !! ("user:" +:+ "a") = Some (ann_text, 300%Z))
      by (vm_compute; reflexivity).
    assert (Hne : ann_text <> "") by (vm_compute; discriminate).
    destruct (cached_user_is_served_without_the_store (H0:=parsing)
                "a" ann_text 300 store_down Hw Hk Hne) as (w' & E & S & _).
    exists w'. split; [|exact S]. rewrite E. f_equal.
  Defined.

Lemma found_user_witness :
    exists w',
      get_user (H1:=parsing) "a" (world_of ∅ [] two_users)
      = (Return (Some {| user_id := "a"; user_fields := ann_fields |}), w')
      /\ cached w' !! "user:a" = Some (ann_text, 300%Z).
  Proof.
    set (w := world_of ∅ [] two_users).
    set (w1 := snd (RedisCache.get "user:a" w)).
    set (w2 := snd (Neo4jConnection.execute_read Cypher.get_user_query
                      [("id", VStr "a")] w1)).
    assert (Hw : healthy w) by reflexivity.
    assert (E1 : RedisCache.get ("user:" +:+ "a") w = (Return None, w1))
      by (vm_compute; reflexivity).
    assert (E2 : Neo4jConnection.execute_read Cypher.get_user_query [("id", VStr "a")] w1
                 = (Return [[("u", MemGraph.node_data (person "a" "ann"));
                             ("node_degree", VInt 0)]], w2))
      by (vm_compute; reflexivity).
    destruct (found_user_is_cached_for_300_seconds (H0:=parsing)
                "a" None _ [] _ (VInt 0) ann_text w w1 w2
                Hw E1 eq_refl E2 eq_refl eq_refl eq_refl) as (w' & E & K & _).
    exists w'. split; [exact E|]. rewrite K. apply lookup_insert_eq.
  Defined.

Lemma user_mutations_witness :
    cached (mutate (DeleteUser "a") (world_of ann_cached [] two_users)) !! "user:a" = None.
  Proof.
    assert (Hw : healthy (world_of ann_cached [] two_users)) by reflexivity.
    destruct (proj1 (proj2 user_mutations_drop_the_cached_user)
                "a" (world_of ann_cached [] two_users) Hw) as (tr & T & K).
    rewrite K.
    assert (Htr : tr = [EvWriteBegin Cypher.delete_user_query [("id", VStr "a")];
                        EvWriteEnd true; EvCacheDelete "user:a"]).
    { apply (app_inv_head (trace (world_of ann_cached [] two_users))).
      rewrite <- T. vm_compute. reflexivity. }
    rewrite Htr. cbn [write_returned existsb orb]. apply lookup_delete_eq.
  Defined.

Lemma missing_user_witness :
    exists w',
      create_relationship ann_follows_zed (with_client true (world_of ∅ [] two_users))
      = (Raise IndexError, w')
      /\ neo4j_srv w' = two_users.
  Proof.
    assert (Hmiss : MemGraph.user_exists
                      (neo4j_srv (with_client true (world_of ∅ [] two_users)))
                      (from_user_id ann_follows_zed) = false
                    \/ MemGraph.user_exists
                         (neo4j_srv (with_client true (world_of ∅ [] two_users)))
                         (to_user_id ann_follows_zed) = false)
      by (right; reflexivity).
    assert (Hjson : json_dumps (opt_dict (rc_properties ann_follows_zed)) = Return "null")
      by reflexivity.
    destruct (relationship_with_a_missing_user_raises_index_error ann_follows_zed "null"
                (with_client true (world_of ∅ [] two_users)) eq_refl Hmiss Hjson)
      as (params & w' & E & S & _).
    exists w'. split; assumption.
  Defined.


Lemma cache_keys_witness :
    relationships_cache_key "a" None <> relationships_cache_key "b" None
    /\ "user:" +:+ "a" <> relationships_cache_key "a" None.
  Proof.
    split.
    - intros E.
      pose proof (proj1 cache_keys_of_colon_free_ids_are_separate
                    "a" "b" None None eq_refl eq_refl E) as X.
      discriminate X.
    - exact (proj1 (proj2 cache_keys_of_colon_free_ids_are_separate) "a" "a" None eq_refl).
  Defined.



Lemma unknown_update_witness :
    exists w',
      update_user "zed" [("name", VStr "Zed")] (with_client true (scripted ∅ [Return []]))
      = (Raise IndexError, w').
  Proof.
    set (w := with_client true (scripted ∅ [Return []])).
    set (w1 := snd (Neo4jConnection.execute_write
                      (fst (update_user_request "zed" [("name", VStr "Zed")]
                              (utcnow_at (draws w))))
                      (snd (update_user_request "zed" [("name", VStr "Zed")]
                              (utcnow_at (draws w))))
                      (with_draws (S (draws w)) w))).
    assert (E : Neo4jConnection.execute_write
                  (fst (update_user_request "zed" [("name", VStr "Zed")]
                          (utcnow_at (draws w))))
                  (snd (update_user_request "zed" [("name", VStr "Zed")]
                          (utcnow_at (draws w))))
                  (with_draws (S (draws w)) w)
                = (Return [], w1))
      by (vm_compute; reflexivity).
    destruct (update_of_an_unknown_user_raises_index_error "zed" [("name", VStr "Zed")]
                w w1 eq_refl E) as (w' & E' & _).
    exists w'. exact E'.
  Defined.

Lemma unknown_user_handler_witness :
    exists a',
      Main.get_user "zed" (app_of (world_of ∅ [] two_users))
      = (Http.Raised (Http.Http {| Http.status_code := 404;
                                   Http.detail_of := Http.Text "User not found" |}), a')
      /\ Main.request_counter a' = [].
  Proof.
    assert (Hk : cached (Main.graph_service (app_of (world_of ∅ [] two_users)))
                 !! ("user:" +:+ "zed") = None) by (vm_compute; reflexivity).
    destruct (unknown_user_is_answered_with_404 "zed" (app_of (world_of ∅ [] two_users))
                eq_refl Hk eq_refl) as (a' & E & _ & _ & C).
    exists a'. split; [exact E|exact C].
  Defined.

Lemma administration_witness :
    fst (Main.reindex_graph "guess" (app_of (world_of ∅ [] two_users)))
    = Http.Raised (Http.Http {| Http.status_code := 401;
                                Http.detail_of :=
                                  Http.Text "Invalid authentication credentials" |})
    /\ fst (Main.reindex_graph "admin-secret-key" (app_of (world_of ∅ [] two_users)))
       = Http.Ok (VDict [("message", VStr "Graph reindexed successfully")]).
  Proof.
    split.
    - rewrite (proj1 (proj1 (administration_needs_the_key "guess"
                               (app_of (world_of ∅ [] two_users)))
                        ltac:(vm_compute; discriminate))).
      reflexivity.
    - destruct (proj2 (administration_needs_the_key "admin-secret-key"
                         (app_of (world_of ∅ [] two_users))) eq_refl)
        as (tr & a' & E & _).
      rewrite E. reflexivity.
  Defined.

Lemma reading_requests_witness :
    exists tr,
      trace (Main.graph_service
               (snd (Main.handle (Main.POST_query {| cypher := "CREATE (n)";
                                                     parameters := None |})
                                 (app_of (world_of ∅ [] two_users)))))
      = tr
      /\ writes_begun tr = [].
  Proof.
    destruct (reading_requests_open_no_write_transaction
                (Main.POST_query {| cypher := "CREATE (n)"; parameters := None |})
                (app_of (world_of ∅ [] two_users)) eq_refl) as (tr & T & W).
    exists tr. split; [exact T|exact W].
  Defined.

Lemma cache_bypass_witness :
    cached (Main.graph_service
              (snd (Main.handle (Main.DELETE_relationships "r1")
                                (app_of (world_of stale_list [] chain)))))
    = stale_list.
  Proof.
    destruct (other_requests_leave_the_cache_alone (Main.DELETE_relationships "r1")
                (app_of (world_of stale_list [] chain)) eq_refl) as [S _].
    unfold cached. rewrite S. reflexivity.
  Defined.

Lemma middleware_witness :
    Monitoring.active_connections
      (fst (snd (Monitoring.monitor_requests (fun clock : Q => clock) slow_handler
                   {| Monitoring.method := "GET"; Monitoring.url_path := "/health" |}
                   (Monitoring.Metrics [] [] 0, 10%Q))))
    = 0%Z.
  Proof.
    exact (proj1 (middleware_counts_once_and_balances_the_gauge
                    (fun clock : Q => clock) slow_handler
                    {| Monitoring.method := "GET"; Monitoring.url_path := "/health" |}
                    (Monitoring.Metrics [] [] 0) 10%Q)).
  Defined.

  (** X28 at a concrete input: Cy is created in the graph, and
      [create_user] raises. *)
Lemma create_user_witness :
    exists w',
      create_user cy (with_client true (world_of ∅ [] two_users)) = (Raise TypeError, w')
      /\ map MemGraph.node_id (MemGraph.nodes (neo4j_srv w')) = ["a"; "b"; "uuid-0"].
  Proof.
    set (w := with_client true (world_of ∅ [] two_users)).
    set (params := create_user_params (uuid4_at (draws w)) (utcnow_at (S (draws w)))
                                      "null" cy).
    set (w1 := snd (Neo4jConnection.execute_write Cypher.create_user_query params
                      (with_draws (S (S (draws w))) w))).
    set (d := [("id", VStr "uuid-0"); ("username", VStr "cy");
               ("created_at", VStr "2024-01-01T00:00:1");
               ("updated_at", VStr "2024-01-01T00:00:1");
               ("metadata", VStr "null"); ("tags", VList [])]).
    assert (Hjson : json_dumps (opt_dict (uc_metadata cy)) = Return "null") by reflexivity.
    assert (E : Neo4jConnection.execute_write Cypher.create_user_query params
                  (with_draws (S (S (draws w))) w)
                = (Return [[("u", VDict d)]], w1)) by (vm_compute; reflexivity).
    destruct (create_user_raises_on_a_node_that_carries_its_id cy "null" _ [] d
                (VStr "uuid-0") w w1 eq_refl Hjson E eq_refl eq_refl) as (w' & E' & S' & _).
    exists w'. split; [exact E'|]. rewrite S'. vm_compute. reflexivity.
  Defined.

Lemma relationship_row_witness :
    exists w',
      get_user_relationships "a" None (scripted ∅ [Return [follows_row]])
      = (Raise TypeError, w')
      /\ cached w' !! "user:a:relationships:all" = None.
  Proof.
    set (w := scripted ∅ [Return [follows_row]]).
    set (w1 := snd (RedisCache.get "user:a:relationships:all" w)).
    set (w2 := snd (Neo4jConnection.execute_read
                      (fst (get_user_relationships_request "a" None))
                      (snd (get_user_relationships_request "a" None)) w1)).
    assert (E1 : RedisCache.get (relationships_cache_key "a" None) w = (Return None, w1))
      by (vm_compute; reflexivity).
    assert (E2 : Neo4jConnection.execute_read
                   (fst (get_user_relationships_request "a" None))
                   (snd (get_user_relationships_request "a" None)) w1
                 = (Return [follows_row], w2))
      by (vm_compute; reflexivity).
    assert (Hnd : forall d,
               VList [MemGraph.node_data (person "a" "ann"); VStr "RELATES_TO";
                      MemGraph.node_data (person "b" "bob")] <> VDict d)
      by (intros d; discriminate).
    destruct (relationship_that_is_not_a_dict_raises_type_error "a" None None follows_row []
                _ w w1 w2 E1 eq_refl E2 eq_refl Hnd) as [E _].
    exists w2. split; [exact E|]. vm_compute. reflexivity.
  Defined.
End MoreConcrete.
